(** * jpc-fundraise: donation ledger, progress calculator and edit flow

    A shallow embedding of the parts of the application that decide how much
    a goal has raised, which milestones are reached, what the payment webhook
    writes and what the create and edit pages write.

    Where the code is, under [src/]:
    - the schema ([amplify/data/resource.ts]):
        [src/pages/EditGoalPage.tsx], lines 626-674
    - the payment webhook: [amplify/functions/stripe-webhook/handler.ts]
    - the public goal page (the [GoalPage] component):
        [src/components/CreateGoalForm.tsx], lines 230-682
    - the edit page: [src/pages/EditGoalPage.tsx], lines 1-625
    - the create page: [src/pages/CreateGoalPage.tsx]

    JavaScript numbers are IEEE 754 binary64 values; they are modelled by
    Rocq's primitive floats, which are the same values with the same
    rounding, so that every arithmetic step below is the one the browser or
    the Lambda runtime performs. *)

From Stdlib Require Import Floats ZArith List String Bool Lia Permutation.
From Stdlib Require Import DecimalString Sorting.Sorted.
Import ListNotations.

Set Implicit Arguments.

(* Decimal literals such as 0.01 denote the nearest binary64 value, as in
   JavaScript source text. *)
Set Warnings "-inexact-float".

(** ** JavaScript values used by the code *)

Module JS.

Definition number := float.

(** [a > b] and [a >= b] on numbers; both are false when an operand is NaN. *)
Definition gt (a b : number) : bool := PrimFloat.ltb b a.
Definition ge (a b : number) : bool := PrimFloat.leb b a.

(** [Math.abs]. *)
Definition Math_abs (x : number) : number := PrimFloat.abs x.

(** [Math.min(x, y)]: NaN if either argument is NaN, and -0 is smaller
    than +0. *)
Definition Math_min (x y : number) : number :=
  if is_nan x || is_nan y then nan
  else if PrimFloat.ltb x y then x
  else if PrimFloat.ltb y x then y
  else if get_sign y then y else x.

(** Truthiness of a number: 0, -0 and NaN are falsy. *)
Definition truthy (x : number) : bool := negb (is_zero x || is_nan x).

(** [x || 0] on a number. *)
Definition or_zero (x : number) : number := if truthy x then x else 0%float.

(** [Number(x) || 0] where [x] already is a number. *)
Definition Number_or_zero (x : number) : number := or_zero x.

(** A number that [JSON.stringify] can write: NaN and the infinities are
    written as [null]. *)
Definition is_finite (x : number) : bool := negb (is_nan x || is_infinity x).

(** [s || d] on an optional string: [undefined], [null] and the empty
    string are falsy. *)
Definition str_or (s : option string) (d : string) : string :=
  match s with
  | Some v => if String.eqb v EmptyString then d else v
  | None => d
  end.

(** [!s] on an optional string. *)
Definition str_falsy (s : option string) : bool :=
  match s with
  | Some v => String.eqb v EmptyString
  | None => true
  end.

(** [Array.prototype.sort] with a comparator is stable; [le a b] says that
    the comparator does not put [b] strictly before [a]. *)
Section Sort.
Variable A : Type.
Variable le : A -> A -> bool.

Fixpoint insert (x : A) (l : list A) : list A :=
  match l with
  | [] => [x]
  | y :: r => if le x y then x :: y :: r else y :: insert x r
  end.

Definition sort (l : list A) : list A := fold_right insert [] l.
End Sort.

End JS.

(** ** The schema: [amplify/data/resource.ts]
       ([src/pages/EditGoalPage.tsx], lines 626-674) *)

Definition ID := string.

Inductive DonationStatus := pending | completed | failed.

Definition DonationStatus_eqb (a b : DonationStatus) : bool :=
  match a, b with
  | pending, pending | completed, completed | failed, failed => true
  | _, _ => false
  end.

Record Goal := {
  goal_id : ID;
  goal_name : string;
  goal_description : option string;
  goal_targetAmount : JS.number;
  goal_stripeAccountId : string;
  goal_editPassword : string   (* hashed password *)
}.

Record Milestone := {
  ms_id : ID;
  ms_goalId : ID;
  ms_name : string;
  ms_targetAmount : JS.number;
  ms_order : Z
}.

Record Donation := {
  don_id : ID;
  don_goalId : ID;
  don_amount : JS.number;
  don_donorName : option string;
  don_message : option string;
  don_stripePaymentId : string;
  don_status : option DonationStatus;   (* the enum field is not required *)
  don_createdAt : Z                     (* milliseconds since the epoch *)
}.

(** [d.status === 'completed'] *)
Definition is_completed (d : Donation) : bool :=
  match don_status d with
  | Some completed => true
  | _ => false
  end.

(** ** The Amplify Data store

    Three tables, one per model.  Records get their [id] from the backend
    (a fresh one on every create) and donations their [createdAt] from the
    backend clock; both are modelled by counters.  No model declares an
    identifier or an index other than the default [id], so a create never
    looks at the other records of the table. *)

Record Store := {
  st_goals : list Goal;
  st_milestones : list Milestone;
  st_donations : list Donation;
  st_nextId : nat;
  st_clock : Z
}.

Definition emptyStore : Store :=
  {| st_goals := []; st_milestones := []; st_donations := [];
     st_nextId := 0; st_clock := 0 |}.

(** The identifier the backend generates for the [n]-th record. *)
Definition freshId (n : nat) : ID :=
  String.append "id-" (NilEmpty.string_of_uint (Nat.to_uint n)).

(** What a call to the Data API can do: perform the operation, answer with
    [errors] (nothing is written and nothing is thrown), or reject (nothing
    is written and the awaiting code throws). *)
Inductive CallOutcome := CallOk | CallErrors | CallRejects.

Definition rejects (o : CallOutcome) : bool :=
  match o with CallRejects => true | _ => false end.

Module Data.

(** [client.models.Goal.get({ id })] *)
Definition Goal_get (st : Store) (id : ID) : option Goal :=
  find (fun g => String.eqb (goal_id g) id) (st_goals st).

(** [client.models.Goal.create({...})]: returns the store and the record. *)
Definition Goal_create (st : Store) (name : string) (description : string)
    (targetAmount : JS.number) (stripeAccountId : string)
    (editPassword : string) : Store * Goal :=
  let g := {| goal_id := freshId (st_nextId st);
              goal_name := name;
              goal_description := Some description;
              goal_targetAmount := targetAmount;
              goal_stripeAccountId := stripeAccountId;
              goal_editPassword := editPassword |} in
  ({| st_goals := st_goals st ++ [g];
      st_milestones := st_milestones st;
      st_donations := st_donations st;
      st_nextId := S (st_nextId st);
      st_clock := st_clock st |}, g).

(** [client.models.Goal.update({ id, name, description, targetAmount })] *)
Definition Goal_update (st : Store) (id : ID) (name : string)
    (description : string) (targetAmount : JS.number) : Store :=
  {| st_goals :=
       map (fun g =>
              if String.eqb (goal_id g) id then
                {| goal_id := goal_id g;
                   goal_name := name;
                   goal_description := Some description;
                   goal_targetAmount := targetAmount;
                   goal_stripeAccountId := goal_stripeAccountId g;
                   goal_editPassword := goal_editPassword g |}
              else g) (st_goals st);
     st_milestones := st_milestones st;
     st_donations := st_donations st;
     st_nextId := st_nextId st;
     st_clock := st_clock st |}.

(** [client.models.Milestone.list({ filter: { goalId: { eq } } })] *)
Definition Milestone_list (st : Store) (goalId : ID) : list Milestone :=
  filter (fun m => String.eqb (ms_goalId m) goalId) (st_milestones st).

(** [client.models.Milestone.delete({ id })] *)
Definition Milestone_delete (st : Store) (id : ID) : Store :=
  {| st_goals := st_goals st;
     st_milestones :=
       filter (fun m => negb (String.eqb (ms_id m) id)) (st_milestones st);
     st_donations := st_donations st;
     st_nextId := st_nextId st;
     st_clock := st_clock st |}.

(** [client.models.Milestone.create({ goalId, name, targetAmount, order })] *)
Definition Milestone_create (st : Store) (goalId : ID) (name : string)
    (targetAmount : JS.number) (order : Z) : Store :=
  {| st_goals := st_goals st;
     st_milestones :=
       st_milestones st ++
       [{| ms_id := freshId (st_nextId st);
           ms_goalId := goalId;
           ms_name := name;
           ms_targetAmount := targetAmount;
           ms_order := order |}];
     st_donations := st_donations st;
     st_nextId := S (st_nextId st);
     st_clock := st_clock st |}.

(** [client.models.Donation.list({ filter: { goalId: { eq } } })] *)
Definition Donation_list (st : Store) (goalId : ID) : list Donation :=
  filter (fun d => String.eqb (don_goalId d) goalId) (st_donations st).

(** The variables of the [createDonation] mutation, as the caller built
    them.  [goalId], [amount] and [stripePaymentId] are required by the
    schema; a required variable that is [undefined] or [null], or a number
    that JSON cannot write, makes the mutation fail. *)
Record CreateDonationInput := {
  in_goalId : option ID;
  in_amount : JS.number;
  in_donorName : option string;
  in_message : option string;
  in_stripePaymentId : option string;
  in_status : option DonationStatus
}.

(** The [createDonation] mutation: [None] when the input is refused,
    otherwise the store with one more record, and that record. *)
Definition createDonation (st : Store) (input : CreateDonationInput)
  : option (Store * Donation) :=
  match in_goalId input, in_stripePaymentId input with
  | Some goalId, Some paymentId =>
      if JS.is_finite (in_amount input) then
        let d := {| don_id := freshId (st_nextId st);
                    don_goalId := goalId;
                    don_amount := in_amount input;
                    don_donorName := in_donorName input;
                    don_message := in_message input;
                    don_stripePaymentId := paymentId;
                    don_status := in_status input;
                    don_createdAt := st_clock st |} in
        Some ({| st_goals := st_goals st;
                 st_milestones := st_milestones st;
                 st_donations := st_donations st ++ [d];
                 st_nextId := S (st_nextId st);
                 st_clock := (st_clock st + 1)%Z |}, d)
      else None
  | _, _ => None
  end.

End Data.

(** ** The public goal page: the [GoalPage] component
       ([src/components/CreateGoalForm.tsx], lines 240-373) *)

Module GoalPage.

(** [items.sort((a, b) => a.order - b.order)] *)
Definition sortMilestones (items : list Milestone) : list Milestone :=
  JS.sort (fun a b => (ms_order a <=? ms_order b)%Z) items.

(** [items.sort((a, b) => new Date(b.createdAt).getTime() -
    new Date(a.createdAt).getTime())]: newest first. *)
Definition sortDonations (items : list Donation) : list Donation :=
  JS.sort (fun a b => (don_createdAt b <=? don_createdAt a)%Z) items.

(** The component state after [loadGoal]. *)
Record State := {
  goal : option Goal;
  milestones : list Milestone;
  donations : list Donation
}.

Definition loadGoal (st : Store) (goalId : ID) : State :=
  match Data.Goal_get st goalId with
  | None => {| goal := None; milestones := []; donations := [] |}
  | Some g =>
      {| goal := Some g;
         milestones := sortMilestones (Data.Milestone_list st goalId);
         donations := sortDonations (Data.Donation_list st goalId) |}
  end.

(** The three [observeQuery] subscriptions: each sets its part of the
    state, whether or not the goal exists. *)
Definition observe (st : Store) (goalId : ID) : State :=
  {| goal := Data.Goal_get st goalId;
     milestones := sortMilestones (Data.Milestone_list st goalId);
     donations := sortDonations (Data.Donation_list st goalId) |}.

(** [donations.filter((d) => d.status === 'completed')
             .reduce((sum, d) => sum + d.amount, 0)] *)
Definition currentAmount (donations : list Donation) : JS.number :=
  fold_left (fun sum d => (sum + don_amount d)%float)
            (filter is_completed donations) 0%float.

(** [goal ? Math.min((currentAmount / goal.targetAmount) * 100, 100) : 0] *)
Definition progressPercent (goal : option Goal) (currentAmount : JS.number)
  : JS.number :=
  match goal with
  | Some g =>
      JS.Math_min ((currentAmount / goal_targetAmount g) * 100)%float
                  100%float
  | None => 0%float
  end.

Record MilestonePosition := {
  mp_milestone : Milestone;
  position : JS.number;
  reached : bool
}.

(** The body of [milestones.map((m) => ...)], with the [runningTotal]
    variable that the callback updates threaded through. *)
Fixpoint positionsFrom (targetAmount currentAmount runningTotal : JS.number)
    (ms : list Milestone) : list MilestonePosition :=
  match ms with
  | [] => []
  | m :: rest =>
      let runningTotal := (runningTotal + ms_targetAmount m)%float in
      {| mp_milestone := m;
         position := ((runningTotal / targetAmount) * 100)%float;
         reached := JS.ge currentAmount runningTotal |}
      :: positionsFrom targetAmount currentAmount runningTotal rest
  end.

Definition milestonePositions (goal : option Goal)
    (milestones : list Milestone) (currentAmount : JS.number)
  : list MilestonePosition :=
  match goal, milestones with
  | None, _ => []
  | _, [] => []
  | Some g, _ =>
      positionsFrom (goal_targetAmount g) currentAmount 0%float milestones
  end.

(** The donation feed: [donations.filter((d) => d.status === 'completed')] *)
Definition feed (donations : list Donation) : list Donation :=
  filter is_completed donations.

(** What the page shows for a goal of the store. *)
Definition raised (st : Store) (goalId : ID) : JS.number :=
  currentAmount (donations (observe st goalId)).

End GoalPage.

(** ** The payment webhook: [amplify/functions/stripe-webhook/handler.ts] *)

Module Webhook.

(** [session.metadata] of a Stripe checkout session: a string map, of which
    the handler reads three keys. *)
Record Metadata := {
  md_goalId : option string;
  md_donorName : option string;
  md_message : option string
}.

(** [stripeEvent.data.object].  [metadata] and [amount_total] and
    [payment_intent] are nullable in Stripe's API. *)
Record Session := {
  metadata : option Metadata;
  amount_total : option JS.number;
  payment_intent : option string
}.

(** The value of [JSON.parse(...)] as far as the handler looks at it:
    [ev_type] is [stripeEvent.type] ([None] when absent or not a string),
    [ev_object] is [stripeEvent.data.object] ([None] when reading it
    throws or gives no object). *)
Record StripeEvent := {
  ev_type : option string;
  ev_object : option Session
}.

(** [event.body]: text that does not parse (or that parses to [null]),
    for which the handler throws, or a parsed value. *)
Inductive Body :=
| Unparseable
| Parsed (e : StripeEvent).

Record APIGatewayProxyEvent := {
  headers : list (string * string);
  body : option Body     (* [None]: no body, the handler parses ['{}'] *)
}.

Inductive ResponseBody :=
| MissingSignatureHeader           (* error: 'Missing stripe-signature header' *)
| Received                         (* received: true *)
| ReceivedType (t : option string) (* received: true, type *)
| ProcessingFailed.                (* error: 'Webhook processing failed' *)

Record Response := {
  statusCode : Z;
  response_body : ResponseBody
}.

(** [event.headers[name]] *)
Fixpoint header (hs : list (string * string)) (name : string)
  : option string :=
  match hs with
  | [] => None
  | (k, v) :: r => if String.eqb k name then Some v else header r name
  end.

(** [JSON.parse(event.body || '{}')] *)
Definition parseBody (b : option Body) : Body :=
  match b with
  | Some p => p
  | None => Parsed {| ev_type := None; ev_object := None |}
  end.

(** [session.amount_total / 100]; [null / 100] is [0]. *)
Definition amountOf (session : Session) : JS.number :=
  match amount_total session with
  | Some n => (n / 100)%float
  | None => (0 / 100)%float
  end.

(** The [input] object of the mutation. *)
Definition donationInput (session : Session) (md : Metadata)
  : Data.CreateDonationInput :=
  {| Data.in_goalId := md_goalId md;
     Data.in_amount := amountOf session;
     Data.in_donorName := Some (JS.str_or (md_donorName md) "Anonymous");
     Data.in_message := Some (JS.str_or (md_message md) "");
     Data.in_stripePaymentId := payment_intent session;
     Data.in_status := Some completed |}.

Definition failed500 : Response :=
  {| statusCode := 500; response_body := ProcessingFailed |}.

(** [stripeEvent.type === 'checkout.session.completed'] *)
Definition is_checkout_completed (t : option string) : bool :=
  match t with
  | Some v => String.eqb v "checkout.session.completed"
  | None => false
  end.

(** [handler(event)].  [api] says whether the call to the Data API goes
    through; the handler's [catch] turns every throw into a 500. *)
Definition handler (api : CallOutcome) (st : Store)
    (event : APIGatewayProxyEvent) : Response * Store :=
  let signature := header (headers event) "stripe-signature" in
  if JS.str_falsy signature then
    ({| statusCode := 400; response_body := MissingSignatureHeader |}, st)
  else
    match parseBody (body event) with
    | Unparseable => (failed500, st)
    | Parsed stripeEvent =>
        if is_checkout_completed (ev_type stripeEvent) then
          match ev_object stripeEvent with
          | None => (failed500, st)
          | Some session =>
              match metadata session with
              | None => (failed500, st)
              | Some md =>
                  match api with
                  | CallOk =>
                      match Data.createDonation st
                              (donationInput session md) with
                      | Some (st', _) =>
                          ({| statusCode := 200;
                              response_body := Received |}, st')
                      | None => (failed500, st)
                      end
                  | _ => (failed500, st)
                  end
              end
          end
        else
          ({| statusCode := 200;
              response_body := ReceivedType (ev_type stripeEvent) |}, st)
    end.

(** The handler run on a sequence of deliveries. *)
Fixpoint deliver (st : Store) (events : list (CallOutcome * APIGatewayProxyEvent))
  : Store :=
  match events with
  | [] => st
  | (api, e) :: r => deliver (snd (handler api st e)) r
  end.

End Webhook.

(** ** The bcryptjs library, as the pages use it

    Modelled from the library's documented behaviour, the package not being
    part of the repository: a hash is computed from a password and a salt,
    the salt can be read back from the hash, [bcrypt.hash(s, 10)] draws a
    salt and hashes with it, and [bcrypt.compare(s, h)] hashes [s] with the
    salt of [h] and compares the result with [h]. *)

Class Bcrypt := {
  hashWithSalt : string -> string -> string;   (* password, salt *)
  getSalt : string -> string
}.

Definition bcrypt_hash {B : Bcrypt} (s : string) (salt : string) : string :=
  hashWithSalt s salt.

Definition bcrypt_compare {B : Bcrypt} (s : string) (hash : string) : bool :=
  String.eqb (hashWithSalt s (getSalt hash)) hash.

(** ** The forms of the create and edit pages *)

Record MilestoneInput := {
  mi_name : string;
  mi_targetAmount : JS.number
}.

Record GoalFormData := {
  fd_name : string;
  fd_description : option string;
  fd_targetAmount : JS.number;
  fd_milestones : list MilestoneInput
}.

Module Form.

(** [goalSchema], the zod schema behind [handleSubmit]. *)
Definition milestoneSchema (m : MilestoneInput) : bool :=
  negb (String.eqb (mi_name m) "") && JS.ge (mi_targetAmount m) 0.01%float.

Definition goalSchema (d : GoalFormData) : bool :=
  negb (String.eqb (fd_name d) "")
  && JS.ge (fd_targetAmount d) 0.01%float
  && forallb milestoneSchema (fd_milestones d)
  && negb (Nat.eqb (List.length (fd_milestones d)) 0).

(** [watch('targetAmount') || 0] *)
Definition watchedTarget (form : GoalFormData) : JS.number :=
  JS.or_zero (fd_targetAmount form).

(** [milestones.map((_, index) => ({ ...,
      targetAmount: watch(`milestones.${index}.targetAmount`) || 0 }))],
    where [rows] is [milestones.length]: one entry per displayed row, read
    from the form values at that index. *)
Definition watchedMilestones (rows : nat) (form : GoalFormData)
  : list JS.number :=
  map (fun index =>
         match nth_error (fd_milestones form) index with
         | Some m => JS.or_zero (mi_targetAmount m)
         | None => 0%float
         end) (seq 0 rows).

(** [milestoneRunningTotals]: the callback adds [Number(m.targetAmount) || 0]
    to [runningTotal] and returns it. *)
Fixpoint runningTotalsFrom (runningTotal : JS.number) (ws : list JS.number)
  : list JS.number :=
  match ws with
  | [] => []
  | w :: r =>
      let runningTotal := (runningTotal + JS.Number_or_zero w)%float in
      runningTotal :: runningTotalsFrom runningTotal r
  end.

Definition milestoneRunningTotals (rows : nat) (form : GoalFormData)
  : list JS.number :=
  runningTotalsFrom 0%float (watchedMilestones rows form).

(** [milestoneRunningTotals[milestoneRunningTotals.length - 1] || 0] *)
Definition totalMilestoneAmount (rows : nat) (form : GoalFormData)
  : JS.number :=
  match rev (milestoneRunningTotals rows form) with
  | t :: _ => JS.or_zero t
  | [] => 0%float
  end.

(** [Math.abs(totalMilestoneAmount - watchedTarget) > 0.01] *)
Definition mismatch (rows : nat) (form : GoalFormData) : bool :=
  JS.gt (JS.Math_abs (totalMilestoneAmount rows form - watchedTarget form)%float)
        0.01%float.

End Form.

(** Outcomes of the Data API calls a save makes: the goal write, and one
    call per milestone, by position in the list the calls are mapped over. *)
Record Network := {
  net_goal : CallOutcome;
  net_delete : nat -> CallOutcome;
  net_create : nat -> CallOutcome
}.

Definition reliable : Network :=
  {| net_goal := CallOk;
     net_delete := fun _ => CallOk;
     net_create := fun _ => CallOk |}.

Module Batch.

(** [await Promise.all(items.map((x, index) => call(x, index)))]: every
    call is issued; the ones that go through take effect; the [await]
    throws when at least one call rejects.  Calls are applied in list
    order, starting at position [index]. *)
Section All.
Variable A : Type.
Variable call : Store -> A -> nat -> Store.
Variable outcome : nat -> CallOutcome.

Fixpoint all (st : Store) (items : list A) (index : nat) : Store * bool :=
  match items with
  | [] => (st, false)
  | x :: r =>
      let st' := match outcome index with
                 | CallOk => call st x index
                 | _ => st
                 end in
      let (st'', thrown) := all st' r (S index) in
      (st'', rejects (outcome index) || thrown)
  end.
End All.

End Batch.

(** ** The create page: [src/pages/CreateGoalPage.tsx] *)

Module CreateGoalPage.

Record State := {
  stripeAccountId : string;
  rows : nat;                 (* [milestones.length] *)
  form : GoalFormData         (* the current values of the form *)
}.

Inductive Result :=
| MilestoneMismatch
| CreationFailed
| Created (goalId : ID) (editPassword : string).

(** [onSubmit(data)].  [editPassword] is the string the two
    [Math.random()] calls produce and [salt] the salt [bcrypt.hash]
    draws. *)
Definition onSubmit {B : Bcrypt} (net : Network) (st : Store) (s : State)
    (data : GoalFormData) (editPassword salt : string) : Result * Store :=
  if Form.mismatch (rows s) (form s) then (MilestoneMismatch, st)
  else
    let hashedPassword := bcrypt_hash editPassword salt in
    match net_goal net with
    | CallOk =>
        let (st1, g) :=
          Data.Goal_create st (fd_name data)
            (JS.str_or (fd_description data) "") (fd_targetAmount data)
            (stripeAccountId s) hashedPassword in
        let goalId := goal_id g in
        let (st2, thrown) :=
          Batch.all
            (fun st milestone index =>
               Data.Milestone_create st goalId (mi_name milestone)
                 (mi_targetAmount milestone) (Z.of_nat index))
            (net_create net) st1 (fd_milestones data) 0 in
        if thrown then (CreationFailed, st2)
        else (Created goalId editPassword, st2)
    | _ => (CreationFailed, st)
    end.

End CreateGoalPage.

(** ** The edit page: [src/pages/EditGoalPage.tsx] *)

Module EditGoalPage.

Record State := {
  goalId : ID;
  existingMilestones : list Milestone;
  rows : nat;                 (* [milestones.length] *)
  form : GoalFormData         (* the current values of the form *)
}.

Inductive LoadResult :=
| GoalNotFound
| InvalidPassword
| LoadFailed
| Loaded (s : State).

(** [loadGoal()], for the [goalId] and [password] of the URL.  [apiGet]
    and [apiList] are the outcomes of the two reads; the function writes
    nothing.  On every result but [Loaded] the page shows a dialog and
    navigates to ['/'], so the form is never rendered. *)
Definition loadGoal {B : Bcrypt} (apiGet apiList : CallOutcome) (st : Store)
    (goalId : ID) (password : string) : LoadResult :=
  match apiGet with
  | CallRejects => LoadFailed
  | CallErrors => GoalNotFound
  | CallOk =>
      match Data.Goal_get st goalId with
      | None => GoalNotFound
      | Some g =>
          let isValid := bcrypt_compare password (goal_editPassword g) in
          if negb isValid then InvalidPassword
          else
            match apiList with
            | CallRejects => LoadFailed
            | _ =>
                let sortedMilestones :=
                  match apiList with
                  | CallOk =>
                      GoalPage.sortMilestones
                        (Data.Milestone_list st goalId)
                  | _ => []
                  end in
                Loaded
                  {| goalId := goalId;
                     existingMilestones := sortedMilestones;
                     rows := List.length sortedMilestones;
                     form :=
                       {| fd_name := goal_name g;
                          fd_description :=
                            Some (JS.str_or (goal_description g) "");
                          fd_targetAmount := goal_targetAmount g;
                          fd_milestones :=
                            map (fun m =>
                                   {| mi_name := ms_name m;
                                      mi_targetAmount := ms_targetAmount m |})
                                sortedMilestones |} |}
            end
      end
  end.

Inductive SubmitResult :=
| MilestoneMismatch          (* the 'Milestone Mismatch' dialog *)
| Saved                      (* 'Goal updated successfully' *)
| SaveFailed.                (* 'Failed to update goal. Please try again.' *)

(** [onSubmit(data)] *)
Definition onSubmit (net : Network) (st : Store) (s : State)
    (data : GoalFormData) : SubmitResult * Store :=
  if Form.mismatch (rows s) (form s) then (MilestoneMismatch, st)
  else
    (* Update goal *)
    let st1 :=
      match net_goal net with
      | CallOk =>
          Data.Goal_update st (goalId s) (fd_name data)
            (JS.str_or (fd_description data) "") (fd_targetAmount data)
      | _ => st
      end in
    if rejects (net_goal net) then (SaveFailed, st1)
    else
      (* Delete old milestones *)
      let (st2, thrown) :=
        Batch.all (fun st m _ => Data.Milestone_delete st (ms_id m))
                  (net_delete net) st1 (existingMilestones s) 0 in
      if thrown then (SaveFailed, st2)
      else
        (* Create new milestones *)
        let (st3, thrown) :=
          Batch.all
            (fun st milestone index =>
               Data.Milestone_create st (goalId s) (mi_name milestone)
                 (mi_targetAmount milestone) (Z.of_nat index))
            (net_create net) st2 (fd_milestones data) 0 in
        if thrown then (SaveFailed, st3) else (Saved, st3).

Inductive FlowResult :=
| NotShown (r : LoadResult)  (* the page left without rendering the form *)
| FormErrors                 (* zod refused the values, nothing submitted *)
| Submitted (r : SubmitResult).

(** [handleSubmit(onSubmit)]: the resolver validates the form values and
    passes them to [onSubmit]. *)
Definition handleSubmit (net : Network) (st : Store) (s : State)
  : FlowResult * Store :=
  if Form.goalSchema (form s) then
    let (r, st') := onSubmit net st s (form s) in (Submitted r, st')
  else (FormErrors, st).

(** One visit of [/goal/:goalId/edit/:password]: the page loads; when the
    form is shown the creator changes rows and values ([edit]) and presses
    save. *)
Definition editFlow {B : Bcrypt} (apiGet apiList : CallOutcome)
    (net : Network) (st : Store) (goalId : ID) (password : string)
    (edit : State -> nat * GoalFormData) : FlowResult * Store :=
  match loadGoal apiGet apiList st goalId password with
  | Loaded s =>
      let (rows', form') := edit s in
      handleSubmit net st
        {| goalId := EditGoalPage.goalId s;
           existingMilestones := existingMilestones s;
           rows := rows';
           form := form' |}
  | r => (NotShown r, st)
  end.

End EditGoalPage.

(** ** The form while the creator edits it

    What the two pages keep of the form is [milestones.length], which says
    how many rows are displayed, and the values of the form.  The rows are
    keyed by their index.  [useForm] is called without [shouldUnregister],
    and on the edit page the values are set by [reset]: the form keeps the
    value of an input that is no longer displayed. *)

Module Editing.

Definition View : Type := nat * GoalFormData.

(** Typing into the target amount input
    ([register('targetAmount', { valueAsNumber: true })]). *)
Definition typeTarget (v : JS.number) (w : View) : View :=
  (fst w,
   {| fd_name := fd_name (snd w);
      fd_description := fd_description (snd w);
      fd_targetAmount := v;
      fd_milestones := fd_milestones (snd w) |}).

(** [addMilestone()]: [setMilestones([...milestones, {...}])]; no form
    value is set. *)
Definition addMilestone (w : View) : View := (S (fst w), snd w).

(** [removeMilestone(index)]:
    [setMilestones(milestones.filter((_, i) => i !== index))]; no form
    value is changed. *)
Definition removeMilestone (index : nat) (w : View) : View :=
  (List.length (filter (fun i => negb (Nat.eqb i index)) (seq 0 (fst w))),
   snd w).

(** The remove button of the row at [index], which is rendered for a
    displayed row while [milestones.length > 1]. *)
Definition pressRemove (index : nat) (w : View) : View :=
  if Nat.ltb 1 (fst w) && Nat.ltb index (fst w) then removeMilestone index w
  else w.

End Editing.

(** ** Quantities the specification names *)

(** The cumulative threshold of the milestone at position [i]: the sum of
    its own [targetAmount] and of the [targetAmount]s of the milestones
    before it, added in list order starting from 0. *)
Definition cumulativeThreshold (ms : list Milestone) (i : nat) : JS.number :=
  fold_left (fun acc m => (acc + ms_targetAmount m)%float)
            (firstn (S i) ms) 0%float.

(** The sum of the amounts of a list of donations, added in list order
    starting from 0. *)
Definition sumAmounts (ds : list Donation) : JS.number :=
  fold_left (fun sum d => (sum + don_amount d)%float) ds 0%float.

(** The donations of the ledger that count for a goal. *)
Definition completedFor (goalId : ID) (d : Donation) : bool :=
  is_completed d && String.eqb (don_goalId d) goalId.

(** The number of stored donations that carry a payment identifier. *)
Definition paymentCount (st : Store) (paymentId : string) : nat :=
  List.length
    (filter (fun d => String.eqb (don_stripePaymentId d) paymentId)
            (st_donations st)).

(** The sum of the submitted milestone amounts, added in form order
    starting from 0. *)
Definition submittedSum (d : GoalFormData) : JS.number :=
  fold_left (fun acc m => (acc + mi_targetAmount m)%float)
            (fd_milestones d) 0%float.

(** A donation as the webhook is meant to write it. *)
Definition named_completed (d : Donation) : Prop :=
  don_status d = Some completed
  /\ exists n, don_donorName d = Some n /\ n <> EmptyString.

(** [x] has the identifier of one of the milestones [ms]. *)
Definition idIn (x : Milestone) (ms : list Milestone) : bool :=
  existsb (fun m => String.eqb (ms_id x) (ms_id m)) ms.

(** The records a save installs for the submitted milestones: fresh
    identifiers from [n] on, [order] the position in the form. *)
Fixpoint installed (goalId : ID) (n index : nat) (ms : list MilestoneInput)
  : list Milestone :=
  match ms with
  | [] => []
  | m :: r =>
      {| ms_id := freshId n;
         ms_goalId := goalId;
         ms_name := mi_name m;
         ms_targetAmount := mi_targetAmount m;
         ms_order := Z.of_nat index |} :: installed goalId (S n) (S index) r
  end.

(** [min(a, b)] as the specification writes it: the smaller of the two
    numbers, and NaN when one of them is. *)
Definition minimum (a b : JS.number) : JS.number :=
  if is_nan a then a else if PrimFloat.leb a b then a else b.

(** The percentage as the specification writes it,
    [min(100, 100 * currentAmount / targetAmount)], read as an expression
    over numbers: the product is formed first, then the quotient, then the
    smaller of 100 and the result is taken. *)
Definition specifiedPercent (currentAmount targetAmount : JS.number)
  : JS.number :=
  minimum 100%float (100 * currentAmount / targetAmount)%float.

(** ** Predicates on binary64 values *)

(** The result of a rounding, by sign: a zero, a finite number or an
    infinity of sign [s], and not NaN. *)
Definition signed (s : bool) (x : spec_float) : Prop :=
  match x with
  | S754_nan => False
  | S754_zero s' | S754_infinity s' | S754_finite s' _ _ => s' = s
  end.

(** A number above zero is a finite number or the infinity, of positive
    sign. *)
Definition above_zero (x : spec_float) : Prop :=
  match x with
  | S754_infinity s | S754_finite s _ _ => s = false
  | _ => False
  end.

(** A number that is not NaN and not below zero; -0 counts as zero. *)
Definition nonneg (x : spec_float) : Prop :=
  match x with
  | S754_nan => False
  | S754_zero _ => True
  | S754_infinity s | S754_finite s _ _ => s = false
  end.

(** ** Sample data *)

Local Open Scope string_scope.
Local Open Scope list_scope.

Module Sample.

Definition milestone (n : nat) (name : string) (amount : JS.number)
  : Milestone :=
  {| ms_id := freshId n; ms_goalId := "goal-1"; ms_name := name;
     ms_targetAmount := amount; ms_order := Z.of_nat n |}.

Definition goalWith (target : JS.number) : Goal :=
  {| goal_id := "goal-1"; goal_name := "Honeymoon";
     goal_description := None; goal_targetAmount := target;
     goal_stripeAccountId := "acct_1"; goal_editPassword := "" |}.

(** Cumulative thresholds 1000, 2500, 3000. *)
Definition ladder : list Milestone :=
  [milestone 0 "Flights" 1000; milestone 1 "Hotel" 1500;
   milestone 2 "Upgrade" 500]%float.

(** Two milestones of 600 under a target of 1000. *)
Definition overshoot : list Milestone :=
  [milestone 0 "Flights" 600; milestone 1 "Hotel" 600]%float.

(** A form the milestone check lets through: one milestone of 100.005
    under a target of 100. *)
Definition nearlyMatching : GoalFormData :=
  {| fd_name := "Trip"; fd_description := None;
     fd_targetAmount := 100%float;
     fd_milestones :=
       [{| mi_name := "Trip"; mi_targetAmount := 100.005%float |}] |}.

(** A [checkout.session.completed] notification for goal-1. *)
Definition checkout (signature paymentIntent : string) (cents : JS.number)
    (donor : option string) : Webhook.APIGatewayProxyEvent :=
  {| Webhook.headers :=
       [("content-type", "application/json");
        ("stripe-signature", signature)];
     Webhook.body :=
       Some (Webhook.Parsed
         {| Webhook.ev_type := Some "checkout.session.completed";
            Webhook.ev_object :=
              Some {| Webhook.metadata :=
                        Some {| Webhook.md_goalId := Some "goal-1";
                                Webhook.md_donorName := donor;
                                Webhook.md_message := None |};
                      Webhook.amount_total := Some cents;
                      Webhook.payment_intent := Some paymentIntent |} |}) |}.

(** Donations of 56.30, 32.90 and 10.80. *)
Definition ann := checkout "t=1,v1=5257a869" "pi_1" 5630%float (Some "Ann").
Definition bob := checkout "t=2,v1=1b2c3d4e" "pi_2" 3290%float None.
Definition cyd := checkout "t=3,v1=99aa88bb" "pi_3" 1080%float (Some "").

(** The same three payments confirmed in two orders. *)
Definition annFirst : Store :=
  Webhook.deliver emptyStore [(CallOk, ann); (CallOk, bob); (CallOk, cyd)].
Definition cydFirst : Store :=
  Webhook.deliver emptyStore [(CallOk, cyd); (CallOk, bob); (CallOk, ann)].

(** Three completed donations of 0.10, 0.20 and 0.30. *)
Definition dime (n : nat) (amount : JS.number) : Donation :=
  {| don_id := freshId n; don_goalId := "goal-1"; don_amount := amount;
     don_donorName := Some "Anonymous"; don_message := Some "";
     don_stripePaymentId := String.append "pi_" (freshId n);
     don_status := Some completed; don_createdAt := Z.of_nat n |}.

Definition dimes : list Donation :=
  [dime 0 0.1; dime 1 0.2; dime 2 0.3]%float.

(** The notification for pi_1 delivered once, and delivered twice. *)
Definition once : Store := Webhook.deliver emptyStore [(CallOk, ann)].
Definition twice : Store :=
  Webhook.deliver emptyStore [(CallOk, ann); (CallOk, ann)].

(** A notification whose signature header was made up by the sender. *)
Definition forged := checkout "not-a-signature" "pi_9" 50000%float (Some "Eve").

(** A stored goal with two milestones, and an edit of it. *)
Definition stored : Store :=
  {| st_goals := [goalWith 1000%float];
     st_milestones := [milestone 0 "Flights" 600; milestone 1 "Hotel" 400]%float;
     st_donations := [];
     st_nextId := 2;
     st_clock := 0 |}.

Definition newForm : GoalFormData :=
  {| fd_name := "Honeymoon"; fd_description := Some "Greece";
     fd_targetAmount := 1000%float;
     fd_milestones :=
       [{| mi_name := "Ferry"; mi_targetAmount := 300%float |};
        {| mi_name := "Villa"; mi_targetAmount := 700%float |}] |}.

Definition badForm : GoalFormData :=
  {| fd_name := "Honeymoon"; fd_description := Some "Greece";
     fd_targetAmount := 1000%float;
     fd_milestones :=
       [{| mi_name := "Ferry"; mi_targetAmount := 300%float |};
        {| mi_name := "Villa"; mi_targetAmount := 600%float |}] |}.

Definition editing (form : GoalFormData) : EditGoalPage.State :=
  {| EditGoalPage.goalId := "goal-1";
     EditGoalPage.existingMilestones := st_milestones stored;
     EditGoalPage.rows := 2;
     EditGoalPage.form := form |}.

(** What the creator does in the edit of goal-1 that escapes the milestone
    check: the target is lowered to 600 and the Hotel row is removed. *)
Definition lowerAndRemove (s : EditGoalPage.State) : Editing.View :=
  Editing.pressRemove 1
    (Editing.typeTarget 600%float (EditGoalPage.rows s, EditGoalPage.form s)).

(** The values the form then holds: Flights 600 and Hotel 400 under a
    target of 600. *)
Definition lowered : GoalFormData :=
  {| fd_name := "Honeymoon"; fd_description := Some "";
     fd_targetAmount := 600%float;
     fd_milestones :=
       [{| mi_name := "Flights"; mi_targetAmount := 600%float |};
        {| mi_name := "Hotel"; mi_targetAmount := 400%float |}] |}.

(** Values of a form in which two rows were filled, Flights 1000 and
    Hotel 400, under a target of 1000. *)
Definition twoFilled : GoalFormData :=
  {| fd_name := "Honeymoon"; fd_description := Some "Greece";
     fd_targetAmount := 1000%float;
     fd_milestones :=
       [{| mi_name := "Flights"; mi_targetAmount := 1000%float |};
        {| mi_name := "Hotel"; mi_targetAmount := 400%float |}] |}.

(** The Data API answers the first delete with [errors]. *)
Definition firstDeleteErrors : Network :=
  {| net_goal := CallOk;
     net_delete := fun i => match i with 0 => CallErrors | _ => CallOk end;
     net_create := fun _ => CallOk |}.

(** A stand-in for bcrypt that keeps salt and password readable: the
    hash is the salt (two characters), then the password. *)
Definition toyBcrypt : Bcrypt :=
  {| hashWithSalt := fun s salt => String.append salt s;
     getSalt := fun hash => substring 0 2 hash |}.

Definition protectedGoal : Goal :=
  {| goal_id := "goal-1"; goal_name := "Honeymoon";
     goal_description := None; goal_targetAmount := 1000%float;
     goal_stripeAccountId := "acct_1";
     goal_editPassword :=
       @bcrypt_hash toyBcrypt "k3x9q0secret" "Zq" |}.

Definition protectedStore : Store :=
  {| st_goals := [protectedGoal];
     st_milestones := st_milestones stored;
     st_donations := [];
     st_nextId := 2;
     st_clock := 0 |}.

End Sample.

(** ** More of the forms: the rows and the total banner *)

Module Rows.

(** An entry of the [milestones] state of the create and edit pages. *)
Record Row := {
  row_id : option ID;
  row_name : string;
  row_targetAmount : JS.number
}.

(** [setMilestones([...milestones, { name: '', targetAmount: 0 }])] *)
Definition addMilestone (milestones : list Row) : list Row :=
  milestones ++ [{| row_id := None; row_name := ""; row_targetAmount := 0%float |}].

(** [milestones.filter((_, i) => i !== index)], the callback being given
    the position [i] of each element, counted from [start]. *)
Fixpoint filterIndex (index start : nat) (milestones : list Row) : list Row :=
  match milestones with
  | [] => []
  | m :: r =>
      if negb (Nat.eqb start index) then m :: filterIndex index (S start) r
      else filterIndex index (S start) r
  end.

(** [setMilestones(milestones.filter((_, i) => i !== index))] *)
Definition removeMilestone (milestones : list Row) (index : nat) : list Row :=
  filterIndex index 0 milestones.

(** What the creator can press: "+ Add Milestone", or the remove button of
    a row, which is rendered only for a displayed row and only while
    [milestones.length > 1]. *)
Inductive Click :=
| PressAdd
| PressRemove (index : nat).

Definition press (milestones : list Row) (c : Click) : list Row :=
  match c with
  | PressAdd => addMilestone milestones
  | PressRemove index =>
      if Nat.ltb 1 (List.length milestones)
         && Nat.ltb index (List.length milestones)
      then removeMilestone milestones index
      else milestones
  end.

Definition presses (milestones : list Row) (cs : list Click) : list Row :=
  fold_left press cs milestones.

End Rows.

Module Banner.

(** [const remaining = watchedTarget - totalMilestoneAmount] *)
Definition remaining (rows : nat) (form : GoalFormData) : JS.number :=
  (Form.watchedTarget form - Form.totalMilestoneAmount rows form)%float.

(** [watchedTarget > 0 && totalMilestoneAmount > 0]: the total banner is
    rendered. *)
Definition shown (rows : nat) (form : GoalFormData) : bool :=
  JS.gt (Form.watchedTarget form) 0%float
  && JS.gt (Form.totalMilestoneAmount rows form) 0%float.

(** [Math.abs(remaining) < 0.01]: the banner reads "Perfect!". *)
Definition perfect (rows : nat) (form : GoalFormData) : bool :=
  PrimFloat.ltb (JS.Math_abs (remaining rows form)) 0.01%float.

End Banner.

(** ** [Math.round] *)

(** The float of an integer below 2^53. *)
Definition number_of_Z (n : Z) : JS.number :=
  SF2Prim (binary_normalize prec emax n 0%Z false).

(** [Math.round(x)]: the integer nearest to [x], halves going up; NaN, the
    infinities, the zeros and the numbers that already are integers are
    returned as they are, and a result of zero keeps the sign of [x]. *)
Definition Math_round (x : JS.number) : JS.number :=
  match Prim2SF x with
  | S754_finite s m e =>
      if (0 <=? e)%Z then x
      else
        let d := (2 ^ (- e))%Z in
        if s then (- number_of_Z ((2 * Zpos m + d - 1) / (2 * d)))%float
        else number_of_Z ((2 * Zpos m + d) / (2 * d))
  | _ => x
  end.

(** ** The Stripe API, as the two functions call it

    Every call either answers or throws; the answers are the environment's.
    The calls a function makes are recorded in order. *)

Record Account := {
  acct_id : string;
  charges_enabled : bool;
  details_submitted : bool
}.

(** The parameters of [stripe.accountLinks.create] that vary. *)
Record AccountLinkParams := {
  al_account : string;
  al_refresh_url : string;
  al_return_url : string
}.

(** The parameters of [stripe.checkout.sessions.create] that vary. *)
Record SessionParams := {
  sp_unit_amount : JS.number;
  sp_success_url : string;
  sp_cancel_url : string;
  sp_goalId : string;              (* metadata.goalId *)
  sp_donorName : string;           (* metadata.donorName *)
  sp_message : string;             (* metadata.message *)
  sp_application_fee_amount : Z;
  sp_destination : string          (* transfer_data.destination *)
}.

Record StripeApi := {
  accounts_create : option Account;
  accounts_retrieve : string -> option Account;
  accountLinks_create : AccountLinkParams -> option string;    (* the url *)
  checkout_sessions_create : SessionParams -> option string    (* the url *)
}.

Inductive StripeCall :=
| AccountsCreate
| AccountsRetrieve (id : string)
| AccountLinksCreate (p : AccountLinkParams)
| SessionsCreate (p : SessionParams).

(** ** The checkout function:
       [amplify/functions/stripe-checkout/handler.ts] ([src/unnamed/part_006]) *)

Module Checkout.

(** The parsed body, as far as the handler destructures it. *)
Record Request := {
  goalId : option string;
  amount : option JS.number;
  stripeAccountId : option string;
  donorName : option string;
  message : option string
}.

Inductive Body :=
| Unparseable
| Parsed (r : Request).

Inductive ResponseBody :=
| MissingRequiredFields            (* error: 'Missing required fields' *)
| OnboardingIncomplete (onboardingUrl : string)
| SessionUrl (url : string)
| Failed.                          (* the error of the catch block *)

Record Response := {
  statusCode : Z;
  response_body : ResponseBody
}.

(** [JSON.parse(event.body || '{}')] *)
Definition parseBody (b : option Body) : Body :=
  match b with
  | Some p => p
  | None => Parsed {| goalId := None; amount := None; stripeAccountId := None;
                      donorName := None; message := None |}
  end.

(** [!amount] *)
Definition amount_falsy (a : option JS.number) : bool :=
  match a with
  | Some x => negb (JS.truthy x)
  | None => true
  end.

Definition failed500 : Response :=
  {| statusCode := 500; response_body := Failed |}.

(** The argument of [stripe.checkout.sessions.create]. *)
Definition sessionParams (APP_URL goalId stripeAccountId : string)
    (amount : JS.number) (donorName message : option string) : SessionParams :=
  {| sp_unit_amount := Math_round (amount * 100)%float;
     sp_success_url :=
       String.append APP_URL
         (String.append "/goal/" (String.append goalId "?success=true"));
     sp_cancel_url := String.append APP_URL (String.append "/goal/" goalId);
     sp_goalId := goalId;
     sp_donorName := JS.str_or donorName "Anonymous";
     sp_message := JS.str_or message "";
     sp_application_fee_amount := 0;
     sp_destination := stripeAccountId |}.

(** [handler(event)], with the value of [process.env.APP_URL]: the response
    and the calls made to Stripe. *)
Definition handler (stripe : StripeApi) (APP_URL : string)
    (body : option Body) : Response * list StripeCall :=
  match parseBody body with
  | Unparseable => (failed500, [])
  | Parsed r =>
      if JS.str_falsy (goalId r) || amount_falsy (amount r)
         || JS.str_falsy (stripeAccountId r)
      then ({| statusCode := 400; response_body := MissingRequiredFields |}, [])
      else
        match goalId r, amount r, stripeAccountId r with
        | Some goalId, Some amount, Some stripeAccountId =>
            (* Check if account has required capabilities *)
            match accounts_retrieve stripe stripeAccountId with
            | None => (failed500, [AccountsRetrieve stripeAccountId])
            | Some account =>
                if negb (charges_enabled account)
                   || negb (details_submitted account)
                then
                  let link :=
                    {| al_account := stripeAccountId;
                       al_refresh_url :=
                         String.append APP_URL (String.append "/goal/" goalId);
                       al_return_url :=
                         String.append APP_URL (String.append "/goal/" goalId)
                    |} in
                  match accountLinks_create stripe link with
                  | None =>
                      (failed500,
                       [AccountsRetrieve stripeAccountId;
                        AccountLinksCreate link])
                  | Some url =>
                      ({| statusCode := 400;
                          response_body := OnboardingIncomplete url |},
                       [AccountsRetrieve stripeAccountId;
                        AccountLinksCreate link])
                  end
                else
                  let params :=
                    sessionParams APP_URL goalId stripeAccountId amount
                      (donorName r) (message r) in
                  match checkout_sessions_create stripe params with
                  | None =>
                      (failed500,
                       [AccountsRetrieve stripeAccountId;
                        SessionsCreate params])
                  | Some url =>
                      ({| statusCode := 200;
                          response_body := SessionUrl url |},
                       [AccountsRetrieve stripeAccountId;
                        SessionsCreate params])
                  end
            end
        | _, _, _ => (failed500, [])
        end
  end.

End Checkout.

(** ** The connect function: [amplify/functions/stripe-connect/handler.ts] *)

Module Connect.

Record Request := {
  action : option string;
  accountId : option string
}.

Inductive Body :=
| Unparseable
| Parsed (r : Request).

Inductive ResponseBody :=
| Onboarding (accountId url : string)
| Verified (accountId : string) (chargesEnabled detailsSubmitted : bool)
| InvalidAction                    (* error: 'Invalid action' *)
| Failed.                          (* error: 'Failed to process request' *)

Record Response := {
  statusCode : Z;
  response_body : ResponseBody
}.

Definition parseBody (b : option Body) : Body :=
  match b with
  | Some p => p
  | None => Parsed {| action := None; accountId := None |}
  end.

(** [action === name] *)
Definition action_is (a : option string) (name : string) : bool :=
  match a with
  | Some v => String.eqb v name
  | None => false
  end.

Definition failed500 : Response :=
  {| statusCode := 500; response_body := Failed |}.

(** [handler(event)]: the response and the calls made to Stripe. *)
Definition handler (stripe : StripeApi) (APP_URL : string)
    (body : option Body) : Response * list StripeCall :=
  match parseBody body with
  | Unparseable => (failed500, [])
  | Parsed r =>
      if action_is (action r) "create" then
        (* Create a new Connect account *)
        match accounts_create stripe with
        | None => (failed500, [AccountsCreate])
        | Some account =>
            (* Create account link for onboarding *)
            let link :=
              {| al_account := acct_id account;
                 al_refresh_url := String.append APP_URL "/create?refresh=true";
                 al_return_url :=
                   String.append APP_URL
                     (String.append "/create?account=" (acct_id account)) |} in
            match accountLinks_create stripe link with
            | None => (failed500, [AccountsCreate; AccountLinksCreate link])
            | Some url =>
                ({| statusCode := 200;
                    response_body := Onboarding (acct_id account) url |},
                 [AccountsCreate; AccountLinksCreate link])
            end
        end
      else if action_is (action r) "verify"
              && negb (JS.str_falsy (accountId r)) then
        match accountId r with
        | Some id =>
            (* Verify account is fully onboarded *)
            match accounts_retrieve stripe id with
            | None => (failed500, [AccountsRetrieve id])
            | Some account =>
                ({| statusCode := 200;
                    response_body :=
                      Verified (acct_id account) (charges_enabled account)
                               (details_submitted account) |},
                 [AccountsRetrieve id])
            end
        | None => (failed500, [])
        end
      else ({| statusCode := 400; response_body := InvalidAction |}, [])
  end.

End Connect.

(** ** Accessors used to state properties *)

(** The goal a notification is for: [session.metadata.goalId] of the parsed
    body, when there is one. *)
Definition eventGoalId (event : Webhook.APIGatewayProxyEvent) : option string :=
  match Webhook.parseBody (Webhook.body event) with
  | Webhook.Parsed e =>
      match Webhook.ev_object e with
      | Some session =>
          match Webhook.metadata session with
          | Some md => Webhook.md_goalId md
          | None => None
          end
      | None => None
      end
  | Webhook.Unparseable => None
  end.

(** The donor name a notification carries: [session.metadata.donorName] of
    the parsed body, when there is one. *)
Definition eventDonorName (event : Webhook.APIGatewayProxyEvent)
  : option string :=
  match Webhook.parseBody (Webhook.body event) with
  | Webhook.Parsed e =>
      match Webhook.ev_object e with
      | Some session =>
          match Webhook.metadata session with
          | Some md => Webhook.md_donorName md
          | None => None
          end
      | None => None
      end
  | Webhook.Unparseable => None
  end.

(** What a save must not touch of a goal. *)
Definition credentials (g : Goal) : ID * string * string :=
  (goal_id g, goal_editPassword g, goal_stripeAccountId g).

(** The form values of a stored milestone. *)
Definition inputOf (m : Milestone) : MilestoneInput :=
  {| mi_name := ms_name m; mi_targetAmount := ms_targetAmount m |}.

(** * Properties *)

Unset Implicit Arguments.

(** ** Facts about binary64 arithmetic *)

Module FloatFacts.

Lemma SFcompare_antisym x y :
  SFcompare y x =
  match SFcompare x y with Some c => Some (CompOpp c) | None => None end.
Proof.
  destruct x as [sx|sx| |sx mx ex], y as [sy|sy| |sy my ey]; simpl;
    try reflexivity;
    try (destruct sx; reflexivity); try (destruct sy; reflexivity);
    try (destruct sx, sy; reflexivity).
  destruct sx, sy; simpl; try reflexivity;
    rewrite (Z.compare_antisym ex ey); destruct (ex ?= ey)%Z; simpl;
    try reflexivity;
    rewrite Pos.compare_cont_antisym; simpl;
    destruct (Pos.compare_cont Eq mx my); reflexivity.
Qed.

Lemma SFcompare_refl x :
  SFcompare x x = match x with S754_nan => None | _ => Some Eq end.
Proof.
  destruct x as [s|s| |s m e]; simpl; try reflexivity.
  - destruct s; reflexivity.
  - destruct s; rewrite Z.compare_refl, Pos.compare_cont_refl; reflexivity.
Qed.

Lemma SFcompare_Eq a b :
  SFcompare a b = Some Eq ->
  a = b \/ exists s1 s2, a = S754_zero s1 /\ b = S754_zero s2.
Proof.
  destruct a as [sa|sa| |sa ma ea], b as [sb|sb| |sb mb eb]; simpl;
    try discriminate;
    try (destruct sa; discriminate); try (destruct sb; discriminate).
  - intros _. right. eauto.
  - destruct sa, sb; try discriminate; intros _; left; reflexivity.
  - intros H. left.
    assert (Hc : sa = sb /\ (ea ?= eb)%Z = Eq
                 /\ Pos.compare_cont Eq ma mb = Eq).
    { destruct sa, sb; try discriminate H;
        destruct (ea ?= eb)%Z; try discriminate H;
        destruct (Pos.compare_cont Eq ma mb); try discriminate H; auto. }
    destruct Hc as (-> & He & Hm).
    apply Z.compare_eq in He. apply Pos.compare_eq in Hm. subst.
    reflexivity.
Qed.

(** [<] is asymmetric and irreflexive, NaN included. *)
Lemma ltb_asym (x y : float) :
  PrimFloat.ltb x y = true -> PrimFloat.ltb y x = false.
Proof.
  rewrite !ltb_spec. unfold SFltb.
  rewrite (SFcompare_antisym (Prim2SF x) (Prim2SF y)).
  destruct (SFcompare (Prim2SF x) (Prim2SF y)) as [[]|]; simpl; congruence.
Qed.

Lemma ltb_irrefl (x : float) : PrimFloat.ltb x x = false.
Proof.
  destruct (PrimFloat.ltb x x) eqn:E; [|reflexivity].
  pose proof (ltb_asym _ _ E). congruence.
Qed.

Lemma ltb_nan_r x : PrimFloat.ltb x nan = false.
Proof.
  rewrite ltb_spec. unfold SFltb. change (Prim2SF nan) with S754_nan.
  destruct (Prim2SF x); reflexivity.
Qed.

Lemma is_nan_false x : is_nan x = false -> Prim2SF x <> S754_nan.
Proof.
  unfold is_nan. rewrite FloatAxioms.eqb_spec. unfold SFeqb. intros H E.
  rewrite E in H. discriminate H.
Qed.

(** Nothing that [Math.min(x, y)] returns is above [y]. *)
Lemma Math_min_not_above (x y : float) :
  PrimFloat.ltb y (JS.Math_min x y) = false.
Proof.
  unfold JS.Math_min.
  destruct (is_nan x || is_nan y); [apply ltb_nan_r|].
  destruct (PrimFloat.ltb x y) eqn:Hxy; [apply ltb_asym; assumption|].
  destruct (PrimFloat.ltb y x) eqn:Hyx; [apply ltb_irrefl|].
  destruct (get_sign y); [apply ltb_irrefl | assumption].
Qed.

Lemma Math_min_comm (x y : float) : JS.Math_min x y = JS.Math_min y x.
Proof.
  unfold JS.Math_min. rewrite (orb_comm (is_nan y)).
  destruct (is_nan x) eqn:Nx; [reflexivity|].
  destruct (is_nan y) eqn:Ny; [reflexivity|]. simpl.
  destruct (PrimFloat.ltb x y) eqn:Hxy.
  - rewrite (ltb_asym _ _ Hxy). reflexivity.
  - destruct (PrimFloat.ltb y x) eqn:Hyx; [reflexivity|].
    apply is_nan_false in Nx, Ny.
    rewrite ltb_spec in Hxy, Hyx. unfold SFltb in Hxy, Hyx.
    rewrite (SFcompare_antisym (Prim2SF x) (Prim2SF y)) in Hyx.
    assert (E : SFcompare (Prim2SF x) (Prim2SF y) = Some Eq).
    { destruct (SFcompare (Prim2SF x) (Prim2SF y)) as [[]|] eqn:C;
        simpl in *; try discriminate; try reflexivity.
      destruct (Prim2SF x), (Prim2SF y); simpl in C; congruence. }
    destruct (SFcompare_Eq _ _ E) as [H | (s1 & s2 & H1 & H2)].
    + apply Prim2SF_inj in H. subst y. destruct (get_sign x); reflexivity.
    + rewrite <- (SF2Prim_Prim2SF x), <- (SF2Prim_Prim2SF y), H1, H2.
      destruct s1, s2; reflexivity.
Qed.

Lemma SFmul_comm p e a b : SFmul p e a b = SFmul p e b a.
Proof.
  destruct a as [sa|sa| |sa ma ea], b as [sb|sb| |sb mb eb]; simpl;
    try reflexivity; try (rewrite (xorb_comm sa sb); reflexivity).
  rewrite (xorb_comm sa sb), (Pos.mul_comm ma mb), (Z.add_comm ea eb).
  reflexivity.
Qed.

Lemma mul_comm (x y : float) : (x * y = y * x)%float.
Proof. apply Prim2SF_inj. rewrite !mul_spec. apply SFmul_comm. Qed.

Lemma is_zero_spec x : is_zero x = true -> exists s, Prim2SF x = S754_zero s.
Proof.
  unfold is_zero. rewrite FloatAxioms.eqb_spec. unfold SFeqb.
  change (Prim2SF zero) with (S754_zero false).
  destruct (SFcompare (Prim2SF x) (S754_zero false)) as [[]|] eqn:E;
    try discriminate.
  intros _. destruct (SFcompare_Eq _ _ E) as [H | (s1 & _ & H & _)];
    eauto.
Qed.

Lemma is_zero_false x s : Prim2SF x = S754_zero s -> is_zero x = true.
Proof.
  intros H. unfold is_zero. rewrite FloatAxioms.eqb_spec, H. reflexivity.
Qed.

Lemma is_nan_spec x : is_nan x = true -> Prim2SF x = S754_nan.
Proof.
  unfold is_nan. rewrite FloatAxioms.eqb_spec. unfold SFeqb.
  rewrite SFcompare_refl.
  destruct (Prim2SF x); simpl; try reflexivity; discriminate.
Qed.

Lemma ge_cent_truthy x : JS.ge x 0.01%float = true -> JS.truthy x = true.
Proof.
  unfold JS.ge, JS.truthy. rewrite leb_spec. intros H.
  destruct (is_zero x) eqn:Z.
  - destruct (is_zero_spec _ Z) as (s & E). rewrite E in H.
    destruct s; vm_compute in H; discriminate H.
  - destruct (is_nan x) eqn:N; [|reflexivity].
    rewrite (is_nan_spec _ N) in H. vm_compute in H. discriminate H.
Qed.

Lemma or_zero_truthy x : JS.truthy x = true -> JS.or_zero x = x.
Proof. intros H. unfold JS.or_zero. rewrite H. reflexivity. Qed.

Lemma sub_zero_l x t :
  is_zero x = true -> JS.truthy t = true -> (x - t = 0 - t)%float.
Proof.
  intros Zx Tt. apply Prim2SF_inj. rewrite !sub_spec.
  destruct (is_zero_spec _ Zx) as (s & ->).
  change (Prim2SF 0) with (S754_zero false).
  unfold JS.truthy in Tt. apply negb_true_iff, orb_false_iff in Tt.
  destruct Tt as (Zt & Nt).
  destruct (Prim2SF t) as [st| st | | st mt et] eqn:E.
  - rewrite (is_zero_false _ _ E) in Zt. discriminate.
  - reflexivity.
  - exfalso. exact (is_nan_false _ Nt E).
  - reflexivity.
Qed.

Lemma or_zero_sub s t :
  is_nan s = false -> JS.truthy t = true ->
  (JS.or_zero s - t = s - t)%float.
Proof.
  intros Ns Tt. unfold JS.or_zero, JS.truthy. rewrite Ns, orb_false_r.
  destruct (is_zero s) eqn:Z; simpl; [|reflexivity].
  symmetry. apply sub_zero_l; assumption.
Qed.

End FloatFacts.

(** ** Sign and NaN through division and multiplication *)

Module FloatSign.

Lemma shr_1_nonneg mrs : (0 <= shr_m mrs)%Z -> (0 <= shr_m (shr_1 mrs))%Z.
Proof.
  destruct mrs as [m r s]. destruct m as [|p|p]; simpl; intros H; try lia;
    destruct p; simpl; lia.
Qed.

Lemma iter_shr_1_nonneg p : forall mrs,
  (0 <= shr_m mrs)%Z -> (0 <= shr_m (SpecFloat.iter_pos shr_1 p mrs))%Z.
Proof.
  induction p as [p IH|p IH|]; intros mrs H; simpl.
  - apply IH, IH, shr_1_nonneg, H.
  - apply IH, IH, H.
  - apply shr_1_nonneg, H.
Qed.

Lemma shr_fexp_nonneg p e m ex l :
  (0 <= m)%Z -> (0 <= shr_m (fst (shr_fexp p e m ex l)))%Z.
Proof.
  intros H. unfold shr_fexp, shr.
  assert (H0 : (0 <= shr_m (shr_record_of_loc m l))%Z).
  { destruct l as [|[| |]]; exact H. }
  destruct (fexp p e (Zdigits2 m + ex) - ex)%Z; simpl;
    [exact H0 | apply iter_shr_1_nonneg, H0 | exact H0].
Qed.

Lemma round_nearest_even_nonneg m l :
  (0 <= m)%Z -> (0 <= round_nearest_even m l)%Z.
Proof.
  intros H. destruct l as [|[| |]]; simpl; try lia.
  destruct (Z.even m); lia.
Qed.

Lemma binary_round_aux_signed p e s m ex l :
  (0 <= m)%Z -> signed s (binary_round_aux p e s m ex l).
Proof.
  intros H. unfold binary_round_aux.
  pose proof (shr_fexp_nonneg p e m ex l H) as H1.
  destruct (shr_fexp p e m ex l) as [mrs' e']. simpl in H1.
  pose proof (shr_fexp_nonneg p e _ e' loc_Exact
                (round_nearest_even_nonneg _ (loc_of_shr_record mrs') H1)) as H2.
  destruct (shr_fexp p e _ e' loc_Exact) as [mrs'' e'']. simpl in H2.
  destruct (shr_m mrs'') as [|q|q]; simpl; [reflexivity| |lia].
  destruct (e'' <=? e - p)%Z; reflexivity.
Qed.

Lemma SFdiv_signed p e sx mx ex sy my ey :
  signed (xorb sx sy)
    (SFdiv p e (S754_finite sx mx ex) (S754_finite sy my ey)).
Proof.
  unfold SFdiv, SFdiv_core_binary.
  set (m' := match (ex - ey - _)%Z with
             | Z0 => Zpos mx | Zpos _ => Z.shiftl (Zpos mx) _ | Zneg _ => 0%Z
             end).
  assert (Hm : (0 <= m')%Z).
  { subst m'. destruct (ex - ey - _)%Z; try lia.
    apply Z.shiftl_nonneg. lia. }
  pose proof (Z.div_pos m' (Zpos my) Hm ltac:(lia)) as Hq.
  unfold Z.div in Hq.
  destruct (Z.div_eucl m' (Zpos my)) as [q r]. simpl in Hq.
  apply binary_round_aux_signed, Hq.
Qed.

Lemma SFmul_signed p e sx mx ex sy my ey :
  signed (xorb sx sy)
    (SFmul p e (S754_finite sx mx ex) (S754_finite sy my ey)).
Proof. apply binary_round_aux_signed. lia. Qed.


Lemma signed_nonneg x : signed false x -> nonneg x.
Proof. destruct x; simpl; auto. Qed.

Lemma leb_zero_nonneg (x : float) :
  PrimFloat.leb 0 x = true <-> nonneg (Prim2SF x).
Proof.
  rewrite leb_spec. change (Prim2SF 0) with (S754_zero false).
  destruct (Prim2SF x) as [s|s| |s m e]; unfold SFleb; simpl;
    try destruct s; simpl; split; intros H; try exact I; try reflexivity;
    try discriminate H; try contradiction.
Qed.

Lemma ltb_zero_above (t : float) :
  PrimFloat.ltb 0 t = true -> above_zero (Prim2SF t).
Proof.
  rewrite ltb_spec. change (Prim2SF 0) with (S754_zero false).
  destruct (Prim2SF t) as [s|s| |s m e]; unfold SFltb; simpl;
    try destruct s; simpl; intros H; try discriminate H; reflexivity.
Qed.

Lemma is_finite_not_infinity (x : float) s :
  JS.is_finite x = true -> Prim2SF x <> S754_infinity s.
Proof.
  unfold JS.is_finite, is_infinity. intros Hfin E.
  apply negb_true_iff, orb_false_iff in Hfin. destruct Hfin as (_ & Hinf).
  rewrite FloatAxioms.eqb_spec, abs_spec, E in Hinf.
  change (Prim2SF infinity) with (S754_infinity false) in Hinf.
  discriminate Hinf.
Qed.

Lemma SFdiv_nonneg p e x y :
  nonneg x -> above_zero y ->
  (forall s, x <> S754_infinity s) \/ (forall s, y <> S754_infinity s) ->
  nonneg (SFdiv p e x y).
Proof.
  intros Hx Hy Hfin.
  destruct y as [sy|sy| |sy my ey]; simpl in Hy; try contradiction; subst sy.
  - destruct x as [s|s| |s mx ex]; simpl in *; try exact I; try contradiction.
    destruct Hfin as [H | H]; [destruct (H s) | destruct (H false)];
      reflexivity.
  - destruct x as [s|s| |s mx ex]; simpl in Hx; try contradiction.
    + exact I.
    + subst s. reflexivity.
    + subst s. apply signed_nonneg.
      apply (SFdiv_signed p e false mx ex false my ey).
Qed.

Lemma SFmul_nonneg p e x m ex :
  nonneg x -> nonneg (SFmul p e x (S754_finite false m ex)).
Proof.
  destruct x as [s|s| |s mx ex']; intros H.
  - exact I.
  - simpl in *. subst s. reflexivity.
  - contradiction.
  - simpl in H. subst s. apply signed_nonneg.
    apply (SFmul_signed p e false mx ex' false m ex).
Qed.

(** The quotient of an amount that is not below zero by a target above
    zero, times 100, is a number and is not below zero, unless both are
    infinite. *)
Lemma percent_nonneg (c t : float) :
  PrimFloat.ltb 0 t = true ->
  PrimFloat.leb 0 c = true ->
  JS.is_finite t || JS.is_finite c = true ->
  PrimFloat.leb 0 (c / t * 100)%float = true.
Proof.
  intros Hpos Hc Hfin. apply leb_zero_nonneg.
  rewrite mul_spec, div_spec.
  change (Prim2SF 100) with (S754_finite false 7036874417766400 (-46)).
  apply SFmul_nonneg, SFdiv_nonneg.
  - apply leb_zero_nonneg, Hc.
  - apply ltb_zero_above, Hpos.
  - apply orb_true_iff in Hfin. destruct Hfin as [H | H].
    + right. intros s. apply is_finite_not_infinity, H.
    + left. intros s. apply is_finite_not_infinity, H.
Qed.

(** [Math.min(q, 100)] is the smaller of 100 and [q], for every [q]. *)
Lemma Math_min_100 (q : float) : JS.Math_min q 100%float = minimum 100%float q.
Proof.
  unfold JS.Math_min, minimum.
  change (is_nan 100%float) with false. rewrite orb_false_r.
  change (get_sign 100%float) with false.
  destruct (is_nan q) eqn:Hn.
  - apply FloatFacts.is_nan_spec in Hn.
    rewrite leb_spec, Hn.
    change (SFleb (Prim2SF 100) S754_nan) with false. cbv iota.
    apply Prim2SF_inj. rewrite Hn. reflexivity.
  - rewrite !ltb_spec, leb_spec. unfold SFltb, SFleb.
    rewrite (FloatFacts.SFcompare_antisym (Prim2SF 100) (Prim2SF q)).
    destruct (SFcompare (Prim2SF 100) (Prim2SF q)) as [[| |]|] eqn:C; simpl;
      try reflexivity.
    destruct (FloatFacts.SFcompare_Eq _ _ C) as [H | (s1 & s2 & H & _)].
    + symmetry. apply Prim2SF_inj, H.
    + discriminate H.
Qed.

(** The smaller of 100 and a number is not above 100. *)
Lemma minimum_100_le (q : float) :
  is_nan q = false -> PrimFloat.leb (minimum 100%float q) 100%float = true.
Proof.
  intros Hn. unfold minimum. change (is_nan 100%float) with false. cbv iota.
  destruct (PrimFloat.leb 100 q) eqn:L; [reflexivity|].
  pose proof (FloatFacts.is_nan_false q Hn) as Hq.
  rewrite leb_spec in *. unfold SFleb in *.
  rewrite (FloatFacts.SFcompare_antisym (Prim2SF 100) (Prim2SF q)).
  destruct (SFcompare (Prim2SF 100) (Prim2SF q)) as [[| |]|] eqn:C; simpl;
    try reflexivity; try discriminate L.
  exfalso.
  change (Prim2SF 100) with (S754_finite false 7036874417766400 (-46)) in C.
  destruct (Prim2SF q); simpl in C; congruence.
Qed.

Lemma leb_nonnan (x y : float) : PrimFloat.leb x y = true -> is_nan y = false.
Proof.
  rewrite leb_spec. intros H.
  destruct (is_nan y) eqn:E; [|reflexivity].
  apply FloatFacts.is_nan_spec in E. rewrite E in H.
  destruct (Prim2SF x); discriminate.
Qed.

End FloatSign.

(** ** Facts about the stable sort *)

Section SortFacts.
Variable A : Type.
Variable le : A -> A -> bool.

Lemma insert_Permutation x l : Permutation (JS.insert le x l) (x :: l).
Proof.
  induction l as [|y r IH]; simpl; [reflexivity|].
  destruct (le x y); [reflexivity|].
  rewrite IH. apply perm_swap.
Qed.

Lemma sort_Permutation l : Permutation (JS.sort le l) l.
Proof.
  induction l as [|x r IH]; simpl; [reflexivity|].
  rewrite insert_Permutation. constructor. exact IH.
Qed.

Hypothesis le_total : forall a b, le a b = false -> le b a = true.

Lemma insert_Sorted x l :
  Sorted (fun a b => le a b = true) l ->
  Sorted (fun a b => le a b = true) (JS.insert le x l).
Proof.
  induction 1 as [|y r Hs IH Hd]; simpl.
  - repeat constructor.
  - destruct (le x y) eqn:E.
    + constructor; [constructor; assumption | constructor; exact E].
    + constructor; [exact IH|].
      destruct r as [|z r']; simpl.
      * constructor. apply le_total, E.
      * destruct (le x z); constructor.
        -- apply le_total, E.
        -- inversion Hd; assumption.
Qed.

Lemma sort_Sorted l : Sorted (fun a b => le a b = true) (JS.sort le l).
Proof.
  induction l as [|x r IH]; simpl; [constructor|].
  apply insert_Sorted, IH.
Qed.
End SortFacts.

Lemma filter_Permutation (A : Type) (p : A -> bool) (l l' : list A) :
  Permutation l l' -> Permutation (filter p l) (filter p l').
Proof.
  induction 1 as [|x l l' _ IH|x y l|l l' l'' _ IH1 _ IH2]; simpl.
  - constructor.
  - destruct (p x); [constructor|]; exact IH.
  - destruct (p x), (p y); try reflexivity. apply perm_swap.
  - etransitivity; eassumption.
Qed.

Lemma filter_filter (A : Type) (p q : A -> bool) (l : list A) :
  filter p (filter q l) = filter (fun x => p x && q x) l.
Proof.
  induction l as [|x r IH]; simpl; [reflexivity|].
  destruct (q x); simpl; rewrite ?andb_true_r, ?andb_false_r;
    [destruct (p x)|]; rewrite IH; reflexivity.
Qed.

(** ** The progress calculator *)

Lemma currentAmount_feed ds :
  GoalPage.currentAmount ds = sumAmounts (GoalPage.feed ds).
Proof. reflexivity. Qed.

Lemma feed_observe_Permutation st G :
  Permutation (GoalPage.feed (GoalPage.donations (GoalPage.observe st G)))
              (filter (completedFor G) (st_donations st)).
Proof.
  unfold GoalPage.feed, GoalPage.observe, GoalPage.sortDonations,
    Data.Donation_list; simpl.
  rewrite (filter_Permutation _ is_completed _ _ (sort_Permutation _ _ _)).
  rewrite filter_filter. reflexivity.
Qed.

Lemma feed_skips d l1 l2 :
  is_completed d = false ->
  GoalPage.feed (l1 ++ d :: l2) = GoalPage.feed (l1 ++ l2).
Proof.
  intros H. unfold GoalPage.feed. rewrite !filter_app. simpl.
  rewrite H. reflexivity.
Qed.

(** C3, counterexample.  Three completed donations of 0.10, 0.20 and 0.30
    sum to 0.6000000000000001 in that order and to 0.6 in the reverse order.
    The payments of 56.30, 32.90 and 10.80, all completed donations of
    goal-1, are summed newest first by the page: 100 when they were
    confirmed in that order, 99.99999999999999 when they were confirmed in
    the opposite order. *)
Lemma currentAmount_depends_on_order :
  (Permutation Sample.dimes (rev Sample.dimes)
   /\ forallb is_completed Sample.dimes = true
   /\ GoalPage.currentAmount Sample.dimes = (0.1 + 0.2 + 0.3)%float
   /\ GoalPage.currentAmount (rev Sample.dimes) = 0.6%float
   /\ GoalPage.currentAmount Sample.dimes
      <> GoalPage.currentAmount (rev Sample.dimes))
  /\ (let ds := GoalPage.donations
                  (GoalPage.observe Sample.annFirst "goal-1") in
      Permutation ds (rev ds)
      /\ forallb is_completed ds = true
      /\ GoalPage.currentAmount ds = 100%float
      /\ GoalPage.currentAmount (rev ds) = 99.999999999999986%float)
  /\ GoalPage.raised Sample.annFirst "goal-1" = 100%float
  /\ GoalPage.raised Sample.cydFirst "goal-1" = 99.999999999999986%float.
Proof.
  split; [|split; [|split]].
  - split; [apply Permutation_rev|].
    repeat split; try (vm_compute; reflexivity).
    vm_compute. intro H. discriminate H.
  - cbv zeta. split; [apply Permutation_rev|].
    repeat split; vm_compute; reflexivity.
  - vm_compute. reflexivity.
  - vm_compute. reflexivity.
Qed.

(** The same three payments confirmed in the opposite order leave the goal
    page with a different amount raised, and with the 100 milestone not
    reached. *)
Lemma raised_depends_on_arrival :
  GoalPage.raised Sample.annFirst "goal-1" = 100%float
  /\ GoalPage.raised Sample.cydFirst "goal-1" <> 100%float
  /\ map GoalPage.reached
       (GoalPage.milestonePositions (Some (Sample.goalWith 100%float))
          [Sample.milestone 0 "Trip" 100%float]
          (GoalPage.raised Sample.annFirst "goal-1")) = [true]
  /\ map GoalPage.reached
       (GoalPage.milestonePositions (Some (Sample.goalWith 100%float))
          [Sample.milestone 0 "Trip" 100%float]
          (GoalPage.raised Sample.cydFirst "goal-1")) = [false].
Proof.
  repeat split; try (vm_compute; reflexivity).
  vm_compute. intro H. discriminate H.
Qed.

(** C3, as amended.  The amount raised for a goal is the sum, added in the
    order of the feed (newest first) starting from 0, of the amounts of the
    donations of the feed; the feed holds exactly the stored donations that
    are completed and belong to the goal; a donation that is not completed
    contributes nothing wherever it stands; and the result is the same for
    two lists that hold the same completed donations in the same order. *)
Theorem currentAmount_sums_completed :
  (forall st G,
     GoalPage.raised st G
       = sumAmounts (GoalPage.feed (GoalPage.donations (GoalPage.observe st G)))
     /\ Permutation
          (GoalPage.feed (GoalPage.donations (GoalPage.observe st G)))
          (filter (completedFor G) (st_donations st)))
  /\ (forall d l1 l2,
        is_completed d = false ->
        GoalPage.currentAmount (l1 ++ d :: l2)
          = GoalPage.currentAmount (l1 ++ l2))
  /\ (forall ds1 ds2,
        filter is_completed ds1 = filter is_completed ds2 ->
        GoalPage.currentAmount ds1 = GoalPage.currentAmount ds2).
Proof.
  split; [|split].
  - intros st G. split; [reflexivity | apply feed_observe_Permutation].
  - intros d l1 l2 H. rewrite !currentAmount_feed, (feed_skips _ _ _ H).
    reflexivity.
  - intros ds1 ds2 H. unfold GoalPage.currentAmount. rewrite H. reflexivity.
Qed.

Lemma currentAmount_sums_completed_witness :
  let d := {| don_id := "id-7"; don_goalId := "goal-1";
              don_amount := 25%float; don_donorName := None;
              don_message := None; don_stripePaymentId := "pi_7";
              don_status := Some pending; don_createdAt := 7 |} in
  let ds := GoalPage.donations (GoalPage.observe Sample.annFirst "goal-1") in
  is_completed d = false
  /\ GoalPage.currentAmount (ds ++ d :: ds) = GoalPage.currentAmount (ds ++ ds)
  /\ filter is_completed (d :: ds) = filter is_completed (ds ++ [d])
  /\ GoalPage.currentAmount (d :: ds) = GoalPage.currentAmount (ds ++ [d]).
Proof.
  cbv zeta.
  destruct currentAmount_sums_completed as (_ & Hskip & Hsame).
  split; [reflexivity|].
  split; [apply Hskip; reflexivity|].
  split; [vm_compute; reflexivity|].
  apply Hsame. vm_compute. reflexivity.
Defined.

Lemma positionsFrom_nth target current ms : forall runningTotal i m,
  nth_error ms i = Some m ->
  nth_error (GoalPage.positionsFrom target current runningTotal ms) i =
  Some {| GoalPage.mp_milestone := m;
          GoalPage.position :=
            ((fold_left (fun acc m => (acc + ms_targetAmount m)%float)
                        (firstn (S i) ms) runningTotal / target) * 100)%float;
          GoalPage.reached :=
            JS.ge current
              (fold_left (fun acc m => (acc + ms_targetAmount m)%float)
                         (firstn (S i) ms) runningTotal) |}.
Proof.
  induction ms as [|m0 ms IH]; intros runningTotal i m H.
  - destruct i; discriminate H.
  - destruct i as [|i].
    + simpl in H. injection H as ->. reflexivity.
    + simpl in H. simpl GoalPage.positionsFrom. simpl nth_error.
      rewrite (IH _ _ _ H). reflexivity.
Qed.

Lemma milestonePositions_nth g ms current i m :
  nth_error ms i = Some m ->
  nth_error (GoalPage.milestonePositions (Some g) ms current) i =
  Some {| GoalPage.mp_milestone := m;
          GoalPage.position :=
            ((cumulativeThreshold ms i / goal_targetAmount g) * 100)%float;
          GoalPage.reached := JS.ge current (cumulativeThreshold ms i) |}.
Proof.
  intros H. unfold GoalPage.milestonePositions.
  destruct ms as [|m0 ms']; [destruct i; discriminate H|].
  apply positionsFrom_nth, H.
Qed.

Lemma milestonePositions_length g ms current :
  List.length (GoalPage.milestonePositions (Some g) ms current)
  = List.length ms.
Proof.
  unfold GoalPage.milestonePositions. destruct ms as [|m0 ms']; [reflexivity|].
  generalize 0%float. generalize (m0 :: ms'). clear.
  induction l as [|m l IH]; intros r; simpl; [reflexivity|].
  rewrite IH. reflexivity.
Qed.

(** C4.  The page takes the milestones of a goal in ascending [order]; the
    milestone at every position of that list is reported, and it is
    reported reached exactly when [currentAmount >=] its cumulative
    threshold.  With cumulative thresholds 1000, 2500 and 3000, an amount
    of 2400 reports only the first milestone reached and an amount of 3000
    reports all three. *)
Theorem milestone_reached_iff_threshold :
  (forall st G,
     Sorted (fun a b => (ms_order a <= ms_order b)%Z)
            (GoalPage.milestones (GoalPage.observe st G))
     /\ Permutation (GoalPage.milestones (GoalPage.observe st G))
                    (Data.Milestone_list st G))
  /\ (forall g ms current i m,
        nth_error ms i = Some m ->
        exists p,
          nth_error (GoalPage.milestonePositions (Some g) ms current) i = Some p
          /\ GoalPage.mp_milestone p = m
          /\ (GoalPage.reached p = true
              <-> JS.ge current (cumulativeThreshold ms i) = true))
  /\ map (cumulativeThreshold Sample.ladder) [0; 1; 2]
       = [1000; 2500; 3000]%float
  /\ map GoalPage.reached
       (GoalPage.milestonePositions (Some (Sample.goalWith 3000%float))
          Sample.ladder 2400%float) = [true; false; false]
  /\ map GoalPage.reached
       (GoalPage.milestonePositions (Some (Sample.goalWith 3000%float))
          Sample.ladder 3000%float) = [true; true; true].
Proof.
  split; [|split; [|repeat split; vm_compute; reflexivity]].
  - intros st G. split.
    + unfold GoalPage.observe, GoalPage.sortMilestones; simpl.
      pose proof (sort_Sorted Milestone
                    (fun a b => (ms_order a <=? ms_order b)%Z)) as S.
      assert (T : forall a b : Milestone,
                 (ms_order a <=? ms_order b)%Z = false ->
                 (ms_order b <=? ms_order a)%Z = true).
      { intros a b H. apply Z.leb_gt in H. apply Z.leb_le. lia. }
      specialize (S T (Data.Milestone_list st G)).
      induction S as [|x l _ IH Hd]; constructor; [exact IH|].
      destruct Hd as [|y l' Hxy]; constructor. apply Z.leb_le, Hxy.
    + apply sort_Permutation.
  - intros g ms current i m H.
    eexists. split; [apply milestonePositions_nth, H|].
    simpl. split; [reflexivity | tauto].
Qed.

Lemma milestone_reached_iff_threshold_witness :
  exists p,
    nth_error (GoalPage.milestonePositions (Some (Sample.goalWith 3000%float))
                 Sample.ladder 2400%float) 1 = Some p
    /\ ms_name (GoalPage.mp_milestone p) = "Hotel"
    /\ GoalPage.reached p = false.
Proof.
  destruct milestone_reached_iff_threshold as (_ & H & _).
  destruct (H (Sample.goalWith 3000%float) Sample.ladder 2400%float 1
              (Sample.milestone 1 "Hotel" 1500%float) eq_refl)
    as (p & Hp & Hm & Hr).
  exists p. split; [exact Hp|]. split; [rewrite Hm; reflexivity|].
  destruct (GoalPage.reached p); [|reflexivity].
  destruct Hr as [Hr _]. specialize (Hr eq_refl). vm_compute in Hr.
  discriminate Hr.
Defined.

(** C5, counterexample.  7 raised of a target of 100: the page computes
    (7 / 100) * 100, which is 7.000000000000001, where
    min(100, 100 * 7 / 100) is 7; and 23 of 40 is computed as
    57.49999999999999, where min(100, 100 * 23 / 40) is 57.5. *)
Lemma progressPercent_is_not_product_first :
  (PrimFloat.ltb 0 (goal_targetAmount (Sample.goalWith 100%float)) = true
   /\ PrimFloat.leb 0 7%float = true
   /\ GoalPage.progressPercent (Some (Sample.goalWith 100%float)) 7%float
      = 7.0000000000000009%float
   /\ specifiedPercent 7%float (goal_targetAmount (Sample.goalWith 100%float))
      = 7%float
   /\ GoalPage.progressPercent (Some (Sample.goalWith 100%float)) 7%float
      <> specifiedPercent 7%float (goal_targetAmount (Sample.goalWith 100%float)))
  /\ (PrimFloat.ltb 0 (goal_targetAmount (Sample.goalWith 40%float)) = true
      /\ PrimFloat.leb 0 23%float = true
      /\ GoalPage.progressPercent (Some (Sample.goalWith 40%float)) 23%float
         = 57.499999999999993%float
      /\ specifiedPercent 23%float (goal_targetAmount (Sample.goalWith 40%float))
         = 57.5%float
      /\ GoalPage.progressPercent (Some (Sample.goalWith 40%float)) 23%float
         <> specifiedPercent 23%float
              (goal_targetAmount (Sample.goalWith 40%float))).
Proof.
  split; repeat split; try (vm_compute; reflexivity);
    vm_compute; intro H; discriminate H.
Qed.

(** C5, as amended.  Whatever the goal and the amount raised,
    [progressPercent] is the smaller of 100 and
    [(currentAmount / targetAmount) * 100], the quotient being formed and
    rounded first, and it is never above 100.  When the target amount is
    above zero, the amount raised is not below zero and they are not both
    infinite, [progressPercent] is a number between 0 and 100. *)
Theorem progressPercent_is_capped_quotient :
  (forall g currentAmount,
     GoalPage.progressPercent (Some g) currentAmount
       = minimum 100%float (currentAmount / goal_targetAmount g * 100)%float
     /\ JS.gt (GoalPage.progressPercent (Some g) currentAmount) 100%float
        = false)
  /\ (forall g currentAmount,
        PrimFloat.ltb 0 (goal_targetAmount g) = true ->
        PrimFloat.leb 0 currentAmount = true ->
        JS.is_finite (goal_targetAmount g) || JS.is_finite currentAmount
        = true ->
        PrimFloat.leb 0 (GoalPage.progressPercent (Some g) currentAmount)
        = true
        /\ PrimFloat.leb (GoalPage.progressPercent (Some g) currentAmount)
             100%float = true).
Proof.
  assert (E : forall g c,
             GoalPage.progressPercent (Some g) c
             = minimum 100%float (c / goal_targetAmount g * 100)%float).
  { intros g c. apply FloatSign.Math_min_100. }
  split.
  - intros g c. split; [apply E|].
    unfold GoalPage.progressPercent, JS.gt.
    apply FloatFacts.Math_min_not_above.
  - intros g c Hpos Hc Hfin.
    pose proof (FloatSign.percent_nonneg c (goal_targetAmount g) Hpos Hc Hfin)
      as Hq.
    pose proof (FloatSign.leb_nonnan _ _ Hq) as Hn.
    rewrite E. split; [|apply FloatSign.minimum_100_le, Hn].
    unfold minimum. change (is_nan 100%float) with false. cbv iota.
    destruct (PrimFloat.leb 100 (c / goal_targetAmount g * 100));
      [reflexivity | exact Hq].
Qed.

Lemma progressPercent_is_capped_quotient_witness :
  PrimFloat.leb 0
    (GoalPage.progressPercent (Some (Sample.goalWith 1000%float)) 700%float)
  = true
  /\ PrimFloat.leb
       (GoalPage.progressPercent (Some (Sample.goalWith 1000%float)) 1500%float)
       100%float = true.
Proof.
  destruct progressPercent_is_capped_quotient as (_ & H).
  split.
  - destruct (H (Sample.goalWith 1000%float) 700%float
                eq_refl eq_refl eq_refl) as (L & _).
    exact L.
  - destruct (H (Sample.goalWith 1000%float) 1500%float
                eq_refl eq_refl eq_refl) as (_ & L).
    exact L.
Defined.

(** The end-to-end figures of the specification: 700 of 1000 is 70 percent,
    1000 of 1000 is 100, and 1500 of 1000 is still 100. *)
Lemma progressPercent_examples :
  GoalPage.progressPercent (Some (Sample.goalWith 1000%float)) 700%float
    = 70%float
  /\ GoalPage.progressPercent (Some (Sample.goalWith 1000%float)) 1000%float
    = 100%float
  /\ GoalPage.progressPercent (Some (Sample.goalWith 1000%float)) 1500%float
    = 100%float.
Proof. repeat split; vm_compute; reflexivity. Qed.

(** The quotient is rounded before the multiplication: 7 of 100 is shown
    as 7.000000000000001 percent, where (100 * 7) / 100 would be 7. *)
Lemma progressPercent_rounds_the_quotient :
  GoalPage.progressPercent (Some (Sample.goalWith 100%float)) 7%float
    = 7.0000000000000009%float
  /\ (100 * 7 / 100)%float = 7%float.
Proof. split; vm_compute; reflexivity. Qed.

(** The end-to-end scenario of the specification, through the webhook and
    the page: a goal of 1000 with Flights 600 and Hotel 400; after a
    donation of 700 the page shows 70 percent, Flights reached and Hotel
    not; after a further 300 it shows 100 percent and both reached. *)
Lemma end_to_end :
  let page st :=
    let s := GoalPage.observe st "goal-1" in
    let raised := GoalPage.currentAmount (GoalPage.donations s) in
    (GoalPage.progressPercent (GoalPage.goal s) raised,
     map GoalPage.reached
         (GoalPage.milestonePositions (GoalPage.goal s)
            (GoalPage.milestones s) raised)) in
  let first := Sample.checkout "t=1,v1=0a" "pi_a" 70000%float None in
  let second := Sample.checkout "t=2,v1=0b" "pi_b" 30000%float None in
  page (Webhook.deliver Sample.stored [(CallOk, first)])
    = (70%float, [true; false])
  /\ page (Webhook.deliver Sample.stored [(CallOk, first); (CallOk, second)])
    = (100%float, [true; true]).
Proof. split; vm_compute; reflexivity. Qed.

(** C6, counterexample.  Two milestones of 600 under a target of 1000: the
    second marker is computed at 120, above 100.  A single milestone of
    100.005 under a target of 100 passes the check of the forms, and its
    marker is computed at 100.005. *)
Lemma position_not_clamped :
  map GoalPage.position
    (GoalPage.milestonePositions (Some (Sample.goalWith 1000%float))
       Sample.overshoot 0%float) = [60; 120]%float
  /\ JS.gt 120%float 100%float = true
  /\ Form.goalSchema Sample.nearlyMatching = true
  /\ Form.mismatch 1 Sample.nearlyMatching = false
  /\ map GoalPage.position
       (GoalPage.milestonePositions (Some (Sample.goalWith 100%float))
          [Sample.milestone 0 "Trip" 100.005%float] 0%float)
     = [100.005%float]
  /\ JS.gt 100.005%float 100%float = true.
Proof. repeat split; vm_compute; reflexivity. Qed.

(** C6, as amended.  The marker of the milestone at every position is
    [(cumulativeThreshold / targetAmount) * 100], as computed and with no
    clamping. *)
Theorem position_is_unclamped_ratio :
  forall g ms current i m,
    nth_error ms i = Some m ->
    exists p,
      nth_error (GoalPage.milestonePositions (Some g) ms current) i = Some p
      /\ GoalPage.mp_milestone p = m
      /\ GoalPage.position p
         = ((cumulativeThreshold ms i / goal_targetAmount g) * 100)%float.
Proof.
  intros g ms current i m H.
  eexists. split; [apply milestonePositions_nth, H|].
  split; reflexivity.
Qed.

Lemma position_is_unclamped_ratio_witness :
  exists p,
    nth_error (GoalPage.milestonePositions (Some (Sample.goalWith 1000%float))
                 Sample.overshoot 0%float) 1 = Some p
    /\ GoalPage.position p = 120%float.
Proof.
  destruct (position_is_unclamped_ratio (Sample.goalWith 1000%float)
              Sample.overshoot 0%float 1
              (Sample.milestone 1 "Hotel" 600%float) eq_refl)
    as (p & Hp & _ & Hpos).
  exists p. split; [exact Hp|]. rewrite Hpos. vm_compute. reflexivity.
Defined.

(** ** The payment webhook *)

Lemma createDonation_inv st input st' d :
  Data.createDonation st input = Some (st', d) ->
  st_donations st' = st_donations st ++ [d]
  /\ st_goals st' = st_goals st
  /\ st_milestones st' = st_milestones st
  /\ don_id d = freshId (st_nextId st)
  /\ Data.in_goalId input = Some (don_goalId d)
  /\ Data.in_stripePaymentId input = Some (don_stripePaymentId d)
  /\ don_amount d = Data.in_amount input
  /\ don_donorName d = Data.in_donorName input
  /\ don_status d = Data.in_status input.
Proof.
  unfold Data.createDonation.
  destruct (Data.in_goalId input) as [goalId|]; [|discriminate].
  destruct (Data.in_stripePaymentId input) as [paymentId|]; [|discriminate].
  destruct (JS.is_finite (Data.in_amount input)); [|discriminate].
  intros H. injection H as <- <-. simpl. repeat split; reflexivity.
Qed.

(** Either the handler leaves the store as it found it, or the signature
    header was present and non-empty and the store grew by the one record
    the mutation made from the session. *)
Lemma handler_inv api st event :
  snd (Webhook.handler api st event) = st
  \/ exists session md d,
       JS.str_falsy
         (Webhook.header (Webhook.headers event) "stripe-signature") = false
       /\ api = CallOk
       /\ Data.createDonation st (Webhook.donationInput session md)
          = Some (snd (Webhook.handler api st event), d)
       /\ fst (Webhook.handler api st event)
          = {| Webhook.statusCode := 200;
               Webhook.response_body := Webhook.Received |}.
Proof.
  unfold Webhook.handler.
  destruct (JS.str_falsy _) eqn:Hsig; [left; reflexivity|].
  destruct (Webhook.parseBody (Webhook.body event)) as [|e];
    [left; reflexivity|].
  destruct (Webhook.is_checkout_completed (Webhook.ev_type e));
    [|left; reflexivity].
  destruct (Webhook.ev_object e) as [session|]; [|left; reflexivity].
  destruct (Webhook.metadata session) as [md|]; [|left; reflexivity].
  destruct api; try (left; reflexivity).
  destruct (Data.createDonation st (Webhook.donationInput session md))
    as [[st' d]|] eqn:Hc; [|left; reflexivity].
  right. exists session, md, d. simpl. auto.
Qed.

(** A request without the header, or with an empty one, is answered 400 and
    writes nothing. *)
Lemma unsigned_rejected api st event :
  JS.str_falsy (Webhook.header (Webhook.headers event) "stripe-signature")
    = true ->
  Webhook.handler api st event
  = ({| Webhook.statusCode := 400;
        Webhook.response_body := Webhook.MissingSignatureHeader |}, st).
Proof. intros H. unfold Webhook.handler. rewrite H. reflexivity. Qed.

(** The value of the header has no influence on what the handler does. *)
Lemma signature_value_ignored api st hs1 hs2 b :
  JS.str_falsy (Webhook.header hs1 "stripe-signature") = false ->
  JS.str_falsy (Webhook.header hs2 "stripe-signature") = false ->
  Webhook.handler api st {| Webhook.headers := hs1; Webhook.body := b |}
  = Webhook.handler api st {| Webhook.headers := hs2; Webhook.body := b |}.
Proof.
  intros H1 H2. unfold Webhook.handler. simpl. rewrite H1, H2. reflexivity.
Qed.

Lemma str_or_nonempty s d : d <> "" -> JS.str_or s d <> "".
Proof.
  intros Hd. unfold JS.str_or. destruct s as [v|]; [|exact Hd].
  destruct (String.eqb v "") eqn:E; [exact Hd|].
  apply String.eqb_neq, E.
Qed.

(** C1, counterexample.  The notification for payment pi_1 (56.30) delivered
    twice: the second delivery is not a no-op, two records carry pi_1, and
    the amount raised goes from 56.30 to 112.60. *)
Lemma duplicate_delivery_counted_twice :
  Sample.twice = snd (Webhook.handler CallOk Sample.once Sample.ann)
  /\ paymentCount Sample.once "pi_1" = 1
  /\ paymentCount Sample.twice "pi_1" = 2
  /\ List.length (st_donations Sample.twice) = 2
  /\ GoalPage.raised Sample.once "goal-1" = (5630 / 100)%float
  /\ GoalPage.raised Sample.twice "goal-1" = (5630 / 100 + 5630 / 100)%float
  /\ GoalPage.raised Sample.twice "goal-1"
     <> GoalPage.raised Sample.once "goal-1".
Proof.
  repeat split; try (vm_compute; reflexivity).
  vm_compute. intro H. discriminate H.
Qed.

(** C1, as amended.  A completed-checkout notification that carries a
    signature header, a goal identifier, a payment identifier and an amount
    is recorded as one new donation with a fresh [id], whatever the ledger
    already holds: the number of records with its payment identifier grows
    by one, also when it was not zero. *)
Theorem every_delivery_appends_a_record :
  forall st event session md goalId paymentId cents,
    JS.str_falsy
      (Webhook.header (Webhook.headers event) "stripe-signature") = false ->
    Webhook.body event
    = Some (Webhook.Parsed
              {| Webhook.ev_type := Some "checkout.session.completed";
                 Webhook.ev_object := Some session |}) ->
    Webhook.metadata session = Some md ->
    Webhook.md_goalId md = Some goalId ->
    Webhook.payment_intent session = Some paymentId ->
    Webhook.amount_total session = Some cents ->
    JS.is_finite (cents / 100)%float = true ->
    exists d,
      Webhook.handler CallOk st event
      = ({| Webhook.statusCode := 200;
            Webhook.response_body := Webhook.Received |},
         {| st_goals := st_goals st;
            st_milestones := st_milestones st;
            st_donations := st_donations st ++ [d];
            st_nextId := S (st_nextId st);
            st_clock := (st_clock st + 1)%Z |})
      /\ don_id d = freshId (st_nextId st)
      /\ don_goalId d = goalId
      /\ don_stripePaymentId d = paymentId
      /\ don_amount d = (cents / 100)%float
      /\ don_status d = Some completed
      /\ paymentCount (snd (Webhook.handler CallOk st event)) paymentId
         = S (paymentCount st paymentId).
Proof.
  intros st event session md goalId paymentId cents Hsig Hbody Hmd Hg Hp Hc Hfin.
  unfold Webhook.handler. rewrite Hsig, Hbody. simpl. rewrite Hmd.
  unfold Data.createDonation, Webhook.donationInput. simpl.
  unfold Webhook.amountOf. rewrite Hg, Hp, Hc, Hfin.
  eexists. split; [reflexivity|]. simpl.
  repeat split.
  unfold paymentCount. simpl. rewrite filter_app, length_app. simpl.
  rewrite String.eqb_refl. simpl. lia.
Qed.

Lemma every_delivery_appends_a_record_witness :
  exists d,
    st_donations (snd (Webhook.handler CallOk Sample.once Sample.ann))
    = st_donations Sample.once ++ [d]
    /\ don_stripePaymentId d = "pi_1"
    /\ paymentCount Sample.once "pi_1" = 1
    /\ paymentCount (snd (Webhook.handler CallOk Sample.once Sample.ann)) "pi_1"
       = 2.
Proof.
  destruct (every_delivery_appends_a_record Sample.once Sample.ann
              _ _ "goal-1" "pi_1" 5630%float
              eq_refl eq_refl eq_refl eq_refl eq_refl eq_refl eq_refl)
    as (d & Hh & _ & _ & Hp & _ & _ & Hn).
  exists d. rewrite Hh. simpl.
  split; [reflexivity|]. split; [exact Hp|]. split; [reflexivity|].
  rewrite Hh in Hn. exact Hn.
Defined.

(** C2, the failing input.  A notification whose signature header is the
    text "not-a-signature" is answered 200, and its 500.00 are recorded as a
    completed donation and shown as raised. *)
Theorem forged_signature_is_accepted :
  fst (Webhook.handler CallOk emptyStore Sample.forged)
  = {| Webhook.statusCode := 200; Webhook.response_body := Webhook.Received |}
  /\ st_donations (snd (Webhook.handler CallOk emptyStore Sample.forged))
     = [{| don_id := "id-0"; don_goalId := "goal-1";
           don_amount := 500%float; don_donorName := Some "Eve";
           don_message := Some ""; don_stripePaymentId := "pi_9";
           don_status := Some completed; don_createdAt := 0 |}]
  /\ GoalPage.raised (snd (Webhook.handler CallOk emptyStore Sample.forged))
       "goal-1" = 500%float.
Proof. repeat split; vm_compute; reflexivity. Qed.

Lemma handler_keeps_named_completed api st event :
  Forall named_completed (st_donations st) ->
  Forall named_completed (st_donations (snd (Webhook.handler api st event))).
Proof.
  intros H.
  destruct (handler_inv api st event) as [-> | (session & md & d & _ & _ & Hc & _)];
    [exact H|].
  apply createDonation_inv in Hc.
  destruct Hc as (Hd & _ & _ & _ & _ & _ & _ & Hn & Hs).
  rewrite Hd. apply Forall_app. split; [exact H|].
  constructor; [|constructor]. split; [exact Hs|].
  exists (JS.str_or (Webhook.md_donorName md) "Anonymous").
  split; [exact Hn|]. apply str_or_nonempty. discriminate.
Qed.

Lemma deliver_keeps_named_completed events : forall st,
  Forall named_completed (st_donations st) ->
  Forall named_completed (st_donations (Webhook.deliver st events)).
Proof.
  induction events as [|[api e] r IH]; intros st H; simpl; [exact H|].
  apply IH, handler_keeps_named_completed, H.
Qed.

Lemma completed_in_feed st d :
  In d (st_donations st) ->
  is_completed d = true ->
  In d (GoalPage.feed (GoalPage.donations (GoalPage.observe st (don_goalId d)))).
Proof.
  intros Hin Hc.
  apply (Permutation_in d
           (Permutation_sym (feed_observe_Permutation st (don_goalId d)))).
  apply filter_In. split; [exact Hin|].
  unfold completedFor. rewrite Hc, String.eqb_refl. reflexivity.
Qed.

(** What one run of the handler stores: nothing, or one record made from
    the session of the notification. *)
Lemma handler_written_record api st event :
  snd (Webhook.handler api st event) = st
  \/ exists d,
       st_donations (snd (Webhook.handler api st event))
       = st_donations st ++ [d]
       /\ don_status d = Some completed
       /\ don_donorName d
          = Some (JS.str_or (eventDonorName event) "Anonymous").
Proof.
  unfold Webhook.handler, eventDonorName.
  destruct (JS.str_falsy _); [left; reflexivity|].
  destruct (Webhook.parseBody (Webhook.body event)) as [|e];
    [left; reflexivity|].
  destruct (Webhook.is_checkout_completed (Webhook.ev_type e));
    [|left; reflexivity].
  destruct (Webhook.ev_object e) as [session|]; [|left; reflexivity].
  destruct (Webhook.metadata session) as [md|]; [|left; reflexivity].
  destruct api; try (left; reflexivity).
  destruct (Data.createDonation st (Webhook.donationInput session md))
    as [[st' d]|] eqn:Hc; [|left; reflexivity].
  right. exists d. apply createDonation_inv in Hc.
  destruct Hc as (Hd & _ & _ & _ & _ & _ & _ & Hn & Hs). simpl.
  repeat split; assumption.
Qed.

Lemma handler_created api st event :
  exists created,
    st_donations (snd (Webhook.handler api st event))
    = st_donations st ++ created
    /\ Forall named_completed created.
Proof.
  destruct (handler_written_record api st event) as [-> | (d & Hd & Hs & Hn)].
  - exists []. split; [symmetry; apply app_nil_r | constructor].
  - exists [d]. split; [exact Hd|].
    constructor; [|constructor]. split; [exact Hs|].
    eexists. split; [exact Hn|]. apply str_or_nonempty. discriminate.
Qed.

Lemma deliver_created events : forall st,
  exists created,
    st_donations (Webhook.deliver st events) = st_donations st ++ created
    /\ Forall named_completed created.
Proof.
  induction events as [|[api e] r IH]; intros st; simpl.
  - exists []. split; [symmetry; apply app_nil_r | constructor].
  - destruct (handler_created api st e) as (c1 & H1 & F1).
    destruct (IH (snd (Webhook.handler api st e))) as (c2 & H2 & F2).
    exists (c1 ++ c2). split.
    + rewrite H2, H1. symmetry. apply app_assoc.
    + apply Forall_app. split; assumption.
Qed.

(** C10.  Whatever the store holds and whatever is delivered, the donations
    the webhook adds all have status completed (so neither pending nor
    failed) and a non-empty donor name, and each is in the feed of the page
    of its goal, whose amounts are the ones summed into [currentAmount];
    the record made from a session without a donor name, or with an empty
    one, has the name Anonymous, and it is one more entry of the feed of
    its goal; and a ledger in which every donation is completed and named
    stays so under deliveries. *)
Theorem webhook_donations_completed_and_named :
  (forall st events,
     exists created,
       st_donations (Webhook.deliver st events) = st_donations st ++ created
       /\ forall d,
            In d created ->
            don_status d = Some completed
            /\ don_status d <> Some pending
            /\ don_status d <> Some failed
            /\ (exists n, don_donorName d = Some n /\ n <> "")
            /\ In d (GoalPage.feed
                       (GoalPage.donations
                          (GoalPage.observe (Webhook.deliver st events)
                                            (don_goalId d))))
            /\ GoalPage.raised (Webhook.deliver st events) (don_goalId d)
               = sumAmounts
                   (GoalPage.feed
                      (GoalPage.donations
                         (GoalPage.observe (Webhook.deliver st events)
                                           (don_goalId d)))))
  /\ (forall api st event d,
        st_donations (snd (Webhook.handler api st event))
        = st_donations st ++ [d] ->
        (JS.str_falsy (eventDonorName event) = true ->
         don_donorName d = Some "Anonymous")
        /\ Permutation
             (GoalPage.feed
                (GoalPage.donations
                   (GoalPage.observe (snd (Webhook.handler api st event))
                                     (don_goalId d))))
             (d :: GoalPage.feed
                     (GoalPage.donations
                        (GoalPage.observe st (don_goalId d)))))
  /\ (forall st events,
        Forall named_completed (st_donations st) ->
        Forall named_completed (st_donations (Webhook.deliver st events))).
Proof.
  split; [|split].
  - intros st events.
    destruct (deliver_created events st) as (created & Hd & F).
    exists created. split; [exact Hd|]. intros d Hin.
    rewrite Forall_forall in F. destruct (F d Hin) as (Hs & Hn).
    split; [exact Hs|].
    split; [rewrite Hs; discriminate|].
    split; [rewrite Hs; discriminate|].
    split; [exact Hn|].
    split; [|reflexivity].
    apply completed_in_feed.
    + rewrite Hd. apply in_or_app. right. exact Hin.
    + unfold is_completed. rewrite Hs. reflexivity.
  - intros api st event d Hd.
    destruct (handler_written_record api st event)
      as [E | (d' & Hd' & Hs & Hn)].
    { rewrite E in Hd. apply (f_equal (@List.length Donation)) in Hd.
      rewrite length_app in Hd. simpl in Hd. lia. }
    rewrite Hd in Hd'. apply app_inv_head in Hd'. injection Hd' as <-.
    split.
    + intros Hf. rewrite Hn. f_equal. unfold JS.str_or.
      destruct (eventDonorName event) as [v|]; [|reflexivity].
      simpl in Hf. rewrite Hf. reflexivity.
    + rewrite !feed_observe_Permutation, Hd, filter_app. simpl.
      unfold completedFor at 2. unfold is_completed.
      rewrite Hs, String.eqb_refl. simpl.
      rewrite <- Permutation_cons_append. reflexivity.
  - intros st events. apply deliver_keeps_named_completed.
Qed.

Lemma webhook_donations_completed_and_named_witness :
  let d := {| don_id := "id-3"; don_goalId := "goal-1";
              don_amount := (3290 / 100)%float;
              don_donorName := Some "Anonymous"; don_message := Some "";
              don_stripePaymentId := "pi_2";
              don_status := Some completed; don_createdAt := 1 |} in
  let st := Webhook.deliver Sample.stored
              [(CallOk, Sample.ann); (CallOk, Sample.bob);
               (CallOk, Sample.cyd)] in
  Data.Goal_get st "goal-1" = Some (Sample.goalWith 1000%float)
  /\ In d (st_donations st)
  /\ In d (GoalPage.feed (GoalPage.donations (GoalPage.observe st "goal-1")))
  /\ (forall d',
        st_donations (snd (Webhook.handler CallOk Sample.stored Sample.cyd))
        = st_donations Sample.stored ++ [d'] ->
        don_donorName d' = Some "Anonymous").
Proof.
  cbv zeta.
  destruct webhook_donations_completed_and_named as (Hall & Hone & _).
  split; [reflexivity|].
  destruct (Hall Sample.stored
              [(CallOk, Sample.ann); (CallOk, Sample.bob);
               (CallOk, Sample.cyd)]) as (created & Hd & Hc).
  change (st_donations Sample.stored ++ created) with created in Hd.
  assert (Hin : In {| don_id := "id-3"; don_goalId := "goal-1";
                      don_amount := (3290 / 100)%float;
                      don_donorName := Some "Anonymous";
                      don_message := Some "";
                      don_stripePaymentId := "pi_2";
                      don_status := Some completed; don_createdAt := 1 |}
                   created).
  { rewrite <- Hd. vm_compute. right. left. reflexivity. }
  split; [rewrite Hd; exact Hin|].
  split.
  - destruct (Hc _ Hin) as (_ & _ & _ & _ & Hfeed & _). exact Hfeed.
  - intros d' Hd'. apply (Hone CallOk Sample.stored Sample.cyd d' Hd').
    reflexivity.
Defined.

(** ** The milestone check of the forms *)

Lemma map_nth_error_seq (A B : Type) (f : A -> B) (d : B) (l : list A) :
  map (fun i => match nth_error l i with Some a => f a | None => d end)
      (seq 0 (List.length l)) = map f l.
Proof.
  induction l as [|a l IH]; simpl; [reflexivity|].
  f_equal. rewrite <- seq_shift, map_map. exact IH.
Qed.

Lemma runningTotals_last ws : forall r,
  ws <> [] ->
  Forall (fun w => JS.truthy w = true) ws ->
  exists tl,
    rev (Form.runningTotalsFrom r ws)
    = fold_left PrimFloat.add ws r :: tl.
Proof.
  induction ws as [|w ws IH]; intros r Hne Hall; [congruence|].
  inversion Hall as [|? ? Hw Hws]; subst.
  simpl. unfold JS.Number_or_zero. rewrite (FloatFacts.or_zero_truthy _ Hw).
  destruct ws as [|w' ws'].
  - exists []. reflexivity.
  - destruct (IH (r + w)%float ltac:(discriminate) Hws) as (tl & E).
    rewrite E. eexists. reflexivity.
Qed.

Lemma fold_left_amounts ms : forall r,
  fold_left PrimFloat.add (map mi_targetAmount ms) r
  = fold_left (fun acc m => (acc + mi_targetAmount m)%float) ms r.
Proof. induction ms as [|m ms IH]; intros r; simpl; [|rewrite IH]; reflexivity. Qed.

Lemma total_in_sync rows form :
  rows = List.length (fd_milestones form) ->
  Form.goalSchema form = true ->
  Form.totalMilestoneAmount rows form = JS.or_zero (submittedSum form)
  /\ Form.watchedTarget form = fd_targetAmount form.
Proof.
  intros -> V. unfold Form.goalSchema in V.
  apply andb_true_iff in V. destruct V as (V & Hne).
  apply andb_true_iff in V. destruct V as (V & Hms).
  apply andb_true_iff in V. destruct V as (_ & Ht).
  split.
  - unfold Form.totalMilestoneAmount, Form.milestoneRunningTotals,
      Form.watchedMilestones.
    rewrite map_nth_error_seq.
    assert (Hall : Forall (fun m => JS.truthy (mi_targetAmount m) = true)
                          (fd_milestones form)).
    { apply Forall_forall. intros m Hin.
      rewrite forallb_forall in Hms. specialize (Hms m Hin).
      apply andb_true_iff in Hms. apply FloatFacts.ge_cent_truthy, Hms. }
    rewrite (map_ext_in _ mi_targetAmount).
    2:{ intros m Hin. rewrite Forall_forall in Hall.
        apply FloatFacts.or_zero_truthy, Hall, Hin. }
    destruct (runningTotals_last (map mi_targetAmount (fd_milestones form))
                0%float) as (tl & E).
    + destruct (fd_milestones form); [discriminate Hne | discriminate].
    + apply Forall_map. exact Hall.
    + rewrite E, fold_left_amounts. reflexivity.
  - apply FloatFacts.or_zero_truthy, FloatFacts.ge_cent_truthy, Ht.
Qed.

Lemma mismatch_in_sync rows form :
  rows = List.length (fd_milestones form) ->
  Form.goalSchema form = true ->
  is_nan (submittedSum form) = false ->
  Form.mismatch rows form
  = JS.gt (JS.Math_abs (submittedSum form - fd_targetAmount form)%float)
          0.01%float.
Proof.
  intros Hr V N. unfold Form.mismatch.
  destruct (total_in_sync rows form Hr V) as (-> & Ht).
  rewrite Ht, FloatFacts.or_zero_sub; [reflexivity | exact N |].
  rewrite <- Ht. unfold Form.watchedTarget.
  unfold Form.goalSchema in V.
  apply andb_true_iff in V. destruct V as (V & _).
  apply andb_true_iff in V. destruct V as (V & _).
  apply andb_true_iff in V. destruct V as (_ & Hge).
  rewrite (FloatFacts.or_zero_truthy _ (FloatFacts.ge_cent_truthy _ Hge)).
  apply FloatFacts.ge_cent_truthy, Hge.
Qed.

Lemma edit_onSubmit_mismatch net st s data :
  Form.mismatch (EditGoalPage.rows s) (EditGoalPage.form s) = true ->
  EditGoalPage.onSubmit net st s data = (EditGoalPage.MilestoneMismatch, st).
Proof. intros H. unfold EditGoalPage.onSubmit. rewrite H. reflexivity. Qed.

(** While every value of the form has its row on the page, a save whose
    submitted milestone amounts sum to more than 0.01 away from the
    submitted target is answered with the Milestone Mismatch dialog and
    writes nothing, whatever the Data API would have answered. *)
Lemma in_step_mismatch_is_refused net st s :
  EditGoalPage.rows s = List.length (fd_milestones (EditGoalPage.form s)) ->
  Form.goalSchema (EditGoalPage.form s) = true ->
  is_nan (submittedSum (EditGoalPage.form s)) = false ->
  JS.gt (JS.Math_abs (submittedSum (EditGoalPage.form s)
                      - fd_targetAmount (EditGoalPage.form s))%float)
        0.01%float = true ->
  EditGoalPage.handleSubmit net st s
  = (EditGoalPage.Submitted EditGoalPage.MilestoneMismatch, st).
Proof.
  intros Hr V N H. unfold EditGoalPage.handleSubmit.
  rewrite V, edit_onSubmit_mismatch; [reflexivity|].
  rewrite (mismatch_in_sync _ _ Hr V N). exact H.
Qed.

(** Ferry 300 and Villa 600 under a target of 1000, both rows displayed:
    refused, and the store is as it was. *)
Lemma in_step_mismatch_example :
  submittedSum Sample.badForm = 900%float
  /\ EditGoalPage.handleSubmit reliable Sample.stored
       (Sample.editing Sample.badForm)
     = (EditGoalPage.Submitted EditGoalPage.MilestoneMismatch, Sample.stored).
Proof.
  split; [vm_compute; reflexivity|].
  apply in_step_mismatch_is_refused; vm_compute; reflexivity.
Qed.

(** The check of the two pages reads the target and the values of the
    displayed rows only: two forms that agree on these are treated alike,
    whatever else they hold. *)
Lemma mismatch_reads_displayed_rows rows f1 f2 :
  fd_targetAmount f1 = fd_targetAmount f2 ->
  firstn rows (fd_milestones f1) = firstn rows (fd_milestones f2) ->
  Form.mismatch rows f1 = Form.mismatch rows f2.
Proof.
  intros Ht Hm.
  unfold Form.mismatch, Form.watchedTarget, Form.totalMilestoneAmount,
    Form.milestoneRunningTotals, Form.watchedMilestones.
  rewrite Ht.
  assert (E : forall index, In index (seq 0 rows) ->
                nth_error (fd_milestones f1) index
                = nth_error (fd_milestones f2) index).
  { intros index Hin. apply in_seq in Hin.
    assert (F : forall l : list MilestoneInput,
                  nth_error (firstn rows l) index = nth_error l index).
    { intros l. rewrite nth_error_firstn.
      destruct (Nat.ltb_spec index rows); [reflexivity | lia]. }
    rewrite <- (F (fd_milestones f1)), <- (F (fd_milestones f2)), Hm.
    reflexivity. }
  assert (M : forall f : option MilestoneInput -> JS.number,
                map (fun index => f (nth_error (fd_milestones f1) index))
                    (seq 0 rows)
                = map (fun index => f (nth_error (fd_milestones f2) index))
                      (seq 0 rows)).
  { intros f. apply map_ext_in. intros index Hin. rewrite (E index Hin).
    reflexivity. }
  rewrite (M (fun o => match o with
                       | Some m => JS.or_zero (mi_targetAmount m)
                       | None => 0%float
                       end)).
  reflexivity.
Qed.

(** C7, the failing input.  The creator opens the edit page of goal-1
    (target 1000; Flights 600, Hotel 400), lowers the target to 600 and
    removes the Hotel row.  One row is displayed, the banner reads
    "Perfect!", and the form still holds both milestones.  The save submits
    both: their amounts sum to 1000, 400 away from the submitted target of
    600, yet the answer is "Saved" and the store is written: the goal now
    has target 600 and the milestones Flights 600 and Hotel 400.  On the
    create page a form with the rows Flights 1000 and Hotel 400 filled
    under a target of 1000, of which the second was removed, is created
    with both milestones. *)
Theorem removed_row_is_saved_unchecked :
  (exists s,
     @EditGoalPage.loadGoal Sample.toyBcrypt CallOk CallOk
       Sample.protectedStore "goal-1" "k3x9q0secret" = EditGoalPage.Loaded s
     /\ EditGoalPage.rows s = 2
     /\ map mi_targetAmount (fd_milestones (EditGoalPage.form s))
        = [600; 400]%float
     /\ Sample.lowerAndRemove s = (1, Sample.lowered))
  /\ Form.goalSchema Sample.lowered = true
  /\ submittedSum Sample.lowered = 1000%float
  /\ fd_targetAmount Sample.lowered = 600%float
  /\ JS.gt (JS.Math_abs (submittedSum Sample.lowered
                         - fd_targetAmount Sample.lowered)%float)
           0.01%float = true
  /\ Banner.perfect 1 Sample.lowered = true
  /\ fst (@EditGoalPage.editFlow Sample.toyBcrypt CallOk CallOk reliable
            Sample.protectedStore "goal-1" "k3x9q0secret"
            Sample.lowerAndRemove)
     = EditGoalPage.Submitted EditGoalPage.Saved
  /\ (let st := snd (@EditGoalPage.editFlow Sample.toyBcrypt CallOk CallOk
                       reliable Sample.protectedStore "goal-1"
                       "k3x9q0secret" Sample.lowerAndRemove) in
      st <> Sample.protectedStore
      /\ option_map goal_targetAmount (Data.Goal_get st "goal-1")
         = Some 600%float
      /\ map inputOf (Data.Milestone_list st "goal-1")
         = fd_milestones Sample.lowered
      /\ map ms_id (Data.Milestone_list st "goal-1") = ["id-2"; "id-3"]
      /\ map GoalPage.position
           (GoalPage.milestonePositions (Data.Goal_get st "goal-1")
              (GoalPage.sortMilestones (Data.Milestone_list st "goal-1"))
              0%float)
         = [100; 166.66666666666669]%float)
  /\ (let s := {| CreateGoalPage.stripeAccountId := "acct_1";
                  CreateGoalPage.rows := 1;
                  CreateGoalPage.form := Sample.twoFilled |} in
      let r := @CreateGoalPage.onSubmit Sample.toyBcrypt reliable emptyStore
                 s Sample.twoFilled "k3x9q0secret" "Zq" in
      Form.goalSchema Sample.twoFilled = true
      /\ JS.gt (JS.Math_abs (submittedSum Sample.twoFilled
                             - fd_targetAmount Sample.twoFilled)%float)
               0.01%float = true
      /\ fst r = CreateGoalPage.Created "id-0" "k3x9q0secret"
      /\ map inputOf (Data.Milestone_list (snd r) "id-0")
         = fd_milestones Sample.twoFilled).
Proof.
  split.
  { eexists. split; [reflexivity|]. repeat split; vm_compute; reflexivity. }
  cbv zeta.
  repeat split; try (vm_compute; reflexivity).
  vm_compute. intro H. discriminate H.
Qed.

(** ** Replacing the milestones *)

Lemma deletes_ok ms : forall st index,
  let r := Batch.all (fun st m (_ : nat) => Data.Milestone_delete st (ms_id m))
                     (fun _ => CallOk) st ms index in
  snd r = false
  /\ st_goals (fst r) = st_goals st
  /\ st_donations (fst r) = st_donations st
  /\ st_nextId (fst r) = st_nextId st
  /\ st_clock (fst r) = st_clock st
  /\ st_milestones (fst r)
     = filter (fun x => negb (idIn x ms)) (st_milestones st).
Proof.
  induction ms as [|m ms IH]; intros st index; simpl.
  - repeat split. symmetry. apply filter_true.
  - specialize (IH (Data.Milestone_delete st (ms_id m)) (S index)).
    simpl in IH.
    destruct (Batch.all _ _ (Data.Milestone_delete st (ms_id m)) ms (S index))
      as [st'' thrown].
    simpl in *. destruct IH as (-> & -> & -> & -> & -> & ->).
    repeat split. rewrite filter_filter. apply filter_ext.
    intros x. rewrite negb_orb, andb_comm. reflexivity.
Qed.

Lemma creates_ok goalId ms : forall st index,
  let r := Batch.all
             (fun st milestone index =>
                Data.Milestone_create st goalId (mi_name milestone)
                  (mi_targetAmount milestone) (Z.of_nat index))
             (fun _ => CallOk) st ms index in
  snd r = false
  /\ st_goals (fst r) = st_goals st
  /\ st_donations (fst r) = st_donations st
  /\ st_milestones (fst r)
     = st_milestones st ++ installed goalId (st_nextId st) index ms.
Proof.
  induction ms as [|m ms IH]; intros st index; simpl.
  - repeat split. symmetry. apply app_nil_r.
  - specialize (IH (Data.Milestone_create st goalId (mi_name m)
                      (mi_targetAmount m) (Z.of_nat index)) (S index)).
    simpl in IH.
    destruct (Batch.all _ _ (Data.Milestone_create st goalId (mi_name m)
                               (mi_targetAmount m) (Z.of_nat index))
                        ms (S index)) as [st'' thrown].
    simpl in *. destruct IH as (-> & -> & -> & ->).
    repeat split. rewrite <- app_assoc. reflexivity.
Qed.

Lemma installed_goal goalId ms : forall n index,
  filter (fun m => String.eqb (ms_goalId m) goalId)
         (installed goalId n index ms) = installed goalId n index ms.
Proof.
  induction ms as [|m ms IH]; intros n index; simpl; [reflexivity|].
  rewrite String.eqb_refl, IH. reflexivity.
Qed.

Lemma installed_other goalId G ms : forall n index,
  G <> goalId ->
  filter (fun m => String.eqb (ms_goalId m) G)
         (installed goalId n index ms) = [].
Proof.
  induction ms as [|m ms IH]; intros n index H; simpl; [reflexivity|].
  destruct (String.eqb goalId G) eqn:E.
  - apply String.eqb_eq in E. congruence.
  - apply IH, H.
Qed.

Lemma NoDup_map_eq (A B : Type) (f : A -> B) (l : list A) a b :
  NoDup (map f l) -> In a l -> In b l -> f a = f b -> a = b.
Proof.
  induction l as [|x l IH]; simpl; intros N Ha Hb E; [contradiction|].
  inversion N as [|? ? Hx Hl]; subst.
  destruct Ha as [-> | Ha], Hb as [-> | Hb]; auto.
  - exfalso. apply Hx. rewrite E. apply in_map, Hb.
  - exfalso. apply Hx. rewrite <- E. apply in_map, Ha.
Qed.

Lemma filter_nil_of (A : Type) (p : A -> bool) (l : list A) :
  (forall x, In x l -> p x = false) -> filter p l = [].
Proof.
  intros H. rewrite (filter_ext_in p (fun _ => false) l H).
  apply filter_false.
Qed.

Lemma idIn_In x ms : idIn x ms = true <-> exists m, In m ms /\ ms_id x = ms_id m.
Proof.
  unfold idIn. rewrite existsb_exists. split; intros (m & Hin & E);
    exists m; (split; [exact Hin|]); apply String.eqb_eq, E.
Qed.

(** C8, counterexample.  The goal has the milestones Flights and Hotel and
    the creator saves Ferry and Villa.  When the Data API answers the first
    delete with errors, the save reports success and the goal is left with
    Flights, Ferry and Villa; when the second create rejects, the save
    reports failure and the goal is left with Ferry alone. *)
Lemma save_is_not_atomic :
  (let r := EditGoalPage.onSubmit Sample.firstDeleteErrors Sample.stored
              (Sample.editing Sample.newForm) Sample.newForm in
   fst r = EditGoalPage.Saved
   /\ map ms_name (Data.Milestone_list (snd r) "goal-1")
      = ["Flights"; "Ferry"; "Villa"])
  /\ (let r := EditGoalPage.onSubmit
                 {| net_goal := CallOk;
                    net_delete := fun _ => CallOk;
                    net_create := fun i => match i with
                                           | 1 => CallRejects
                                           | _ => CallOk
                                           end |}
                 Sample.stored (Sample.editing Sample.newForm)
                 Sample.newForm in
      fst r = EditGoalPage.SaveFailed
      /\ map ms_name (Data.Milestone_list (snd r) "goal-1") = ["Ferry"])
  /\ map ms_name (Data.Milestone_list Sample.stored "goal-1")
     = ["Flights"; "Hotel"]
  /\ map mi_name (fd_milestones Sample.newForm) = ["Ferry"; "Villa"].
Proof. repeat split; vm_compute; reflexivity. Qed.

(** C8, as amended.  A save whose milestone check fails writes nothing.  A
    save whose check passes and whose calls to the Data API all go through,
    made from a page whose [existingMilestones] are the stored milestones of
    the goal, ends with Saved, leaves the goal with exactly the submitted
    milestones, in form order, with [order] the position in the form, and
    leaves the milestones of every other goal and all donations as they
    were. *)
Theorem save_replaces_when_every_call_goes_through :
  (forall net st s data,
     Form.mismatch (EditGoalPage.rows s) (EditGoalPage.form s) = true ->
     EditGoalPage.onSubmit net st s data
     = (EditGoalPage.MilestoneMismatch, st))
  /\ (forall st s data,
        NoDup (map ms_id (st_milestones st)) ->
        Permutation (EditGoalPage.existingMilestones s)
                    (Data.Milestone_list st (EditGoalPage.goalId s)) ->
        Form.mismatch (EditGoalPage.rows s) (EditGoalPage.form s) = false ->
        let r := EditGoalPage.onSubmit reliable st s data in
        fst r = EditGoalPage.Saved
        /\ Data.Milestone_list (snd r) (EditGoalPage.goalId s)
           = installed (EditGoalPage.goalId s) (st_nextId st) 0
                       (fd_milestones data)
        /\ (forall G, G <> EditGoalPage.goalId s ->
                      Data.Milestone_list (snd r) G = Data.Milestone_list st G)
        /\ st_donations (snd r) = st_donations st).
Proof.
  split; [apply edit_onSubmit_mismatch|].
  intros st s data Hnd Hperm Hm.
  unfold EditGoalPage.onSubmit. rewrite Hm. simpl.
  set (st1 := Data.Goal_update st (EditGoalPage.goalId s) (fd_name data)
                (JS.str_or (fd_description data) "") (fd_targetAmount data)).
  pose proof (deletes_ok (EditGoalPage.existingMilestones s) st1 0) as D.
  simpl in D.
  destruct (Batch.all _ _ st1 (EditGoalPage.existingMilestones s) 0)
    as [st2 thrown2].
  simpl in D. destruct D as (-> & _ & D2 & D3 & _ & D5).
  pose proof (creates_ok (EditGoalPage.goalId s) (fd_milestones data) st2 0)
    as C.
  simpl in C.
  destruct (Batch.all _ _ st2 (fd_milestones data) 0) as [st3 thrown3].
  simpl in C. destruct C as (-> & _ & C2 & C3).
  simpl.
  assert (Hex : forall x, In x (EditGoalPage.existingMilestones s) <->
                          In x (st_milestones st)
                          /\ ms_goalId x = EditGoalPage.goalId s).
  { intros x. split.
    - intros H. apply (Permutation_in _ Hperm) in H.
      apply filter_In in H. destruct H as (H & E).
      split; [exact H | apply String.eqb_eq, E].
    - intros (H & E). apply (Permutation_in _ (Permutation_sym Hperm)).
      apply filter_In. split; [exact H | apply String.eqb_eq, E]. }
  split; [reflexivity|].
  unfold Data.Milestone_list. rewrite C3, D5, D3. simpl st_milestones.
  split; [|split].
  - rewrite filter_app, installed_goal, filter_filter, filter_nil_of;
      [reflexivity|].
    intros x Hin.
    destruct (String.eqb (ms_goalId x) (EditGoalPage.goalId s)) eqn:E;
      [|reflexivity].
    simpl. apply negb_false_iff, idIn_In. exists x. split; [|reflexivity].
    apply Hex. split; [exact Hin | apply String.eqb_eq, E].
  - intros G HG.
    rewrite filter_app, (installed_other _ _ _ _ _ HG), app_nil_r,
      filter_filter.
    apply filter_ext_in. intros x Hin.
    destruct (String.eqb (ms_goalId x) G) eqn:E; [|reflexivity].
    simpl. apply negb_true_iff.
    destruct (idIn x (EditGoalPage.existingMilestones s)) eqn:I;
      [|reflexivity].
    exfalso. apply idIn_In in I. destruct I as (m & Hm' & Eid).
    apply Hex in Hm'. destruct Hm' as (Hmin & Hmg).
    pose proof (NoDup_map_eq _ _ ms_id _ x m Hnd Hin Hmin Eid) as ->.
    apply String.eqb_eq in E. congruence.
  - rewrite C2, D2. reflexivity.
Qed.

Lemma save_replaces_when_every_call_goes_through_witness :
  let r := EditGoalPage.onSubmit reliable Sample.stored
             (Sample.editing Sample.newForm) Sample.newForm in
  fst r = EditGoalPage.Saved
  /\ map ms_name (Data.Milestone_list (snd r) "goal-1") = ["Ferry"; "Villa"]
  /\ map ms_order (Data.Milestone_list (snd r) "goal-1") = [0%Z; 1%Z]
  /\ EditGoalPage.onSubmit reliable Sample.stored
       (Sample.editing Sample.badForm) Sample.badForm
     = (EditGoalPage.MilestoneMismatch, Sample.stored).
Proof.
  destruct save_replaces_when_every_call_goes_through as (Hbad & Hok).
  assert (Hnd : NoDup (map ms_id (st_milestones Sample.stored))).
  { vm_compute. repeat constructor; simpl; intuition discriminate. }
  destruct (Hok Sample.stored (Sample.editing Sample.newForm) Sample.newForm
              Hnd (Permutation_refl _) eq_refl) as (H1 & H2 & _ & _).
  change (EditGoalPage.goalId (Sample.editing Sample.newForm))
    with "goal-1" in H2.
  cbv zeta. split; [exact H1|].
  split; [rewrite H2; reflexivity|].
  split; [rewrite H2; reflexivity|].
  apply Hbad. vm_compute. reflexivity.
Defined.

(** ** Authorization of the edit page *)

Section EditAuthorization.
Context {B : Bcrypt}.

(** What bcrypt guarantees for the salt a hash was made with. *)
Variables (issued salt : string).
Hypothesis salt_read_back : getSalt (hashWithSalt issued salt) = salt.

(** The secret issued at creation opens the edit page. *)
Lemma issued_secret_accepted :
  bcrypt_compare issued (bcrypt_hash issued salt) = true.
Proof.
  unfold bcrypt_compare, bcrypt_hash. rewrite salt_read_back.
  apply String.eqb_refl.
Qed.

Lemma other_secret_refused presented :
  hashWithSalt presented salt <> hashWithSalt issued salt ->
  bcrypt_compare presented (bcrypt_hash issued salt) = false.
Proof.
  intros H. unfold bcrypt_compare, bcrypt_hash. rewrite salt_read_back.
  apply String.eqb_neq, H.
Qed.

(** C9.  Let the stored hash of a goal be the hash of the secret issued
    at its creation.  For every presented secret whose hash under the
    stored salt differs from the stored hash, [bcrypt.compare] recomputes
    the hash of the presented secret and finds it different, [loadGoal]
    answers Invalid Password, the form is never shown, and the visit
    leaves the store, goal and milestones included, exactly as it was. *)
Theorem wrong_secret_is_refused :
  forall apiList net st goalId g presented edit,
    Data.Goal_get st goalId = Some g ->
    goal_editPassword g = bcrypt_hash issued salt ->
    presented <> issued ->
    hashWithSalt presented salt <> hashWithSalt issued salt ->
    String.eqb (hashWithSalt presented (getSalt (goal_editPassword g)))
               (goal_editPassword g) = false
    /\ EditGoalPage.loadGoal CallOk apiList st goalId presented
       = EditGoalPage.InvalidPassword
    /\ EditGoalPage.editFlow CallOk apiList net st goalId presented edit
       = (EditGoalPage.NotShown EditGoalPage.InvalidPassword, st)
    /\ (forall apiGet,
          snd (EditGoalPage.editFlow apiGet apiList net st goalId
                 presented edit) = st).
Proof.
  intros apiList net st goalId g presented edit Hg Hh _ Hne.
  pose proof (other_secret_refused presented Hne) as Hc.
  rewrite <- Hh in Hc.
  assert (Hl : EditGoalPage.loadGoal CallOk apiList st goalId presented
               = EditGoalPage.InvalidPassword).
  { unfold EditGoalPage.loadGoal. rewrite Hg, Hc. reflexivity. }
  split; [exact Hc|]. split; [exact Hl|].
  split.
  - unfold EditGoalPage.editFlow. rewrite Hl. reflexivity.
  - intros apiGet. unfold EditGoalPage.editFlow.
    destruct apiGet; [rewrite Hl; reflexivity | |];
      unfold EditGoalPage.loadGoal; reflexivity.
Qed.

End EditAuthorization.

Lemma wrong_secret_is_refused_witness :
  @bcrypt_compare Sample.toyBcrypt "k3x9q0secret"
     (goal_editPassword Sample.protectedGoal) = true
  /\ @EditGoalPage.editFlow Sample.toyBcrypt CallOk CallOk reliable
       Sample.protectedStore "goal-1" "guess"
       (fun _ => (2, Sample.newForm))
     = (EditGoalPage.NotShown EditGoalPage.InvalidPassword,
        Sample.protectedStore)
  /\ fst (@EditGoalPage.editFlow Sample.toyBcrypt CallOk CallOk reliable
            Sample.protectedStore "goal-1" "k3x9q0secret"
            (fun _ => (2, Sample.newForm)))
     = EditGoalPage.Submitted EditGoalPage.Saved.
Proof.
  split; [vm_compute; reflexivity|].
  split; [|vm_compute; reflexivity].
  refine (proj1 (proj2 (proj2
    (@wrong_secret_is_refused Sample.toyBcrypt "k3x9q0secret" "Zq" eq_refl
       CallOk reliable Sample.protectedStore "goal-1" Sample.protectedGoal
       "guess" (fun _ => (2, Sample.newForm)) eq_refl eq_refl _ _)))).
  - discriminate.
  - vm_compute. discriminate.
Defined.

Lemma creates_keep_goals goalId outcome ms : forall st index,
  st_goals
    (fst (Batch.all
            (fun st milestone index =>
               Data.Milestone_create st goalId (mi_name milestone)
                 (mi_targetAmount milestone) (Z.of_nat index))
            outcome st ms index)) = st_goals st.
Proof.
  induction ms as [|m ms IH]; intros st index; simpl; [reflexivity|].
  match goal with
  | |- context [Batch.all ?c ?o ?s ms (S index)] =>
      specialize (IH s (S index)); destruct (Batch.all c o s ms (S index))
  end.
  simpl in *. rewrite IH. destruct (outcome index); reflexivity.
Qed.

Lemma find_last_fresh (l : list Goal) g id :
  (forall x, In x l -> goal_id x <> id) ->
  goal_id g = id ->
  find (fun x => String.eqb (goal_id x) id) (l ++ [g]) = Some g.
Proof.
  intros Hl Hg. induction l as [|x l IH]; simpl.
  - rewrite Hg, String.eqb_refl. reflexivity.
  - destruct (String.eqb (goal_id x) id) eqn:E.
    + apply String.eqb_eq in E. exfalso. apply (Hl x); [left; reflexivity|exact E].
    + apply IH. intros y Hy. apply Hl. right. exact Hy.
Qed.

(** The create page stores the hash of the secret it issues, and nothing
    else of it. *)
Lemma created_goal_stores_hash (B : Bcrypt) net st s data editPassword salt
      goalId issuedPassword st' :
  (forall x, In x (st_goals st) -> goal_id x <> freshId (st_nextId st)) ->
  CreateGoalPage.onSubmit net st s data editPassword salt
  = (CreateGoalPage.Created goalId issuedPassword, st') ->
  issuedPassword = editPassword
  /\ exists g, Data.Goal_get st' goalId = Some g
               /\ goal_editPassword g = bcrypt_hash editPassword salt.
Proof.
  intros Hfresh. unfold CreateGoalPage.onSubmit.
  destruct (Form.mismatch _ _); [discriminate|].
  destruct (net_goal net); try discriminate.
  simpl.
  match goal with
  | |- context [Batch.all ?c ?o ?s ?l 0] =>
      pose proof (creates_keep_goals (freshId (st_nextId st)) o l s 0) as K;
      destruct (Batch.all c o s l 0) as [st2 thrown]
  end.
  destruct thrown; [discriminate|].
  intros H. injection H as <- <- <-. split; [reflexivity|].
  simpl in K. unfold Data.Goal_get. rewrite K.
  rewrite find_last_fresh; [|exact Hfresh|reflexivity].
  eexists. split; reflexivity.
Qed.

(** ** Further properties of the payment webhook *)

Lemma handler_store_shape api st event :
  st_goals (snd (Webhook.handler api st event)) = st_goals st
  /\ st_milestones (snd (Webhook.handler api st event)) = st_milestones st
  /\ exists added,
       st_donations (snd (Webhook.handler api st event))
       = st_donations st ++ added.
Proof.
  destruct (handler_inv api st event)
    as [-> | (session & md & d & _ & _ & Hc & _)].
  - repeat split. exists []. symmetry. apply app_nil_r.
  - apply createDonation_inv in Hc.
    destruct Hc as (Hd & Hg & Hm & _). repeat split; try assumption.
    exists [d]. exact Hd.
Qed.

(** X1.  Whatever is delivered, and whatever the Data API answers, the
    webhook leaves goals and milestones alone and only appends to the
    ledger: the donations stored before are still there, unchanged and in
    the same order, at the front. *)
Theorem webhook_only_appends_donations :
  forall events st,
    st_goals (Webhook.deliver st events) = st_goals st
    /\ st_milestones (Webhook.deliver st events) = st_milestones st
    /\ exists added,
         st_donations (Webhook.deliver st events) = st_donations st ++ added.
Proof.
  induction events as [|[api e] r IH]; intros st; simpl.
  - repeat split. exists []. symmetry. apply app_nil_r.
  - destruct (IH (snd (Webhook.handler api st e))) as (Hg & Hm & added & Hd).
    destruct (handler_store_shape api st e) as (Hg' & Hm' & added' & Hd').
    rewrite Hg, Hm, Hd, Hg', Hm', Hd'. repeat split.
    exists (added' ++ added). symmetry. apply app_assoc.
Qed.

(** X2.  The handler writes exactly when the request carries a non-empty
    signature header, its body parses to a checkout.session.completed event
    whose session has metadata with a goal identifier, a payment intent and
    an amount JSON can carry, and the Data API call goes through. *)
Theorem webhook_writes_exactly_when :
  forall api st event,
    snd (Webhook.handler api st event) <> st
    <-> (JS.str_falsy
           (Webhook.header (Webhook.headers event) "stripe-signature") = false
         /\ api = CallOk
         /\ exists e session md goalId paymentId,
              Webhook.parseBody (Webhook.body event) = Webhook.Parsed e
              /\ Webhook.is_checkout_completed (Webhook.ev_type e) = true
              /\ Webhook.ev_object e = Some session
              /\ Webhook.metadata session = Some md
              /\ Webhook.md_goalId md = Some goalId
              /\ Webhook.payment_intent session = Some paymentId
              /\ JS.is_finite (Webhook.amountOf session) = true).
Proof.
  intros api st event. unfold Webhook.handler.
  destruct (JS.str_falsy _) eqn:Hsig.
  { simpl. split; [intros H; congruence|]. intros (H & _). discriminate. }
  destruct (Webhook.parseBody (Webhook.body event)) as [|e] eqn:Hb.
  { simpl. split; [congruence|]. intros (_ & _ & e & ? & ? & ? & ? & H & _).
    discriminate. }
  destruct (Webhook.is_checkout_completed (Webhook.ev_type e)) eqn:Ht.
  2:{ simpl. split; [congruence|].
      intros (_ & _ & e' & ? & ? & ? & ? & H & H' & _).
      injection H as <-. congruence. }
  destruct (Webhook.ev_object e) as [session|] eqn:Ho.
  2:{ simpl. split; [congruence|].
      intros (_ & _ & e' & ? & ? & ? & ? & H & _ & H' & _).
      injection H as <-. congruence. }
  destruct (Webhook.metadata session) as [md|] eqn:Hm.
  2:{ simpl. split; [congruence|].
      intros (_ & _ & e' & s' & ? & ? & ? & H & _ & H' & H'' & _).
      injection H as <-. rewrite Ho in H'. injection H' as <-. congruence. }
  destruct api; simpl;
    try (split; [congruence | intros (_ & H & _); discriminate]).
  unfold Data.createDonation, Webhook.donationInput. simpl.
  destruct (Webhook.md_goalId md) as [goalId|] eqn:Hg.
  2:{ simpl. split; [congruence|].
      intros (_ & _ & e' & s' & md' & ? & ? & H & _ & H' & H'' & H3 & _).
      injection H as <-. rewrite Ho in H'. injection H' as <-.
      rewrite Hm in H''. injection H'' as <-. congruence. }
  destruct (Webhook.payment_intent session) as [paymentId|] eqn:Hp.
  2:{ simpl. split; [congruence|].
      intros (_ & _ & e' & s' & md' & ? & ? & H & _ & H' & _ & _ & H3 & _).
      injection H as <-. rewrite Ho in H'. injection H' as <-. congruence. }
  destruct (JS.is_finite (Webhook.amountOf session)) eqn:Hf.
  2:{ simpl. split; [congruence|].
      intros (_ & _ & e' & s' & md' & ? & ? & H & _ & H' & _ & _ & _ & H3).
      injection H as <-. rewrite Ho in H'. injection H' as <-. congruence. }
  simpl. split.
  - intros _. repeat split. exists e, session, md, goalId, paymentId.
    repeat split; assumption.
  - intros _ H. apply (f_equal st_nextId) in H. simpl in H. lia.
Qed.

Lemma webhook_writes_exactly_when_witness :
  snd (Webhook.handler CallOk emptyStore Sample.forged) <> emptyStore
  /\ snd (Webhook.handler CallErrors emptyStore Sample.forged) = emptyStore.
Proof.
  split.
  - apply webhook_writes_exactly_when.
    split; [reflexivity|]. split; [reflexivity|].
    do 5 eexists. repeat split; reflexivity.
  - destruct (webhook_writes_exactly_when CallErrors emptyStore Sample.forged)
      as [H _].
    reflexivity.
Defined.

(** X3.  An answer other than 200, which makes Stripe deliver the
    notification again, is never given after a write: with it the store is
    exactly as it was. *)
Theorem webhook_failure_answers_write_nothing :
  forall api st event,
    Webhook.statusCode (fst (Webhook.handler api st event)) <> 200%Z ->
    snd (Webhook.handler api st event) = st.
Proof.
  intros api st event H.
  destruct (handler_inv api st event) as [E | (? & ? & ? & _ & _ & _ & E)];
    [exact E|].
  rewrite E in H. exfalso. apply H. reflexivity.
Qed.

Lemma webhook_failure_answers_write_nothing_witness :
  Webhook.statusCode
    (fst (Webhook.handler CallRejects Sample.once Sample.bob)) = 500%Z
  /\ snd (Webhook.handler CallRejects Sample.once Sample.bob) = Sample.once.
Proof.
  split; [reflexivity|].
  apply webhook_failure_answers_write_nothing. vm_compute. discriminate.
Defined.

Lemma handler_written_goal api st event :
  snd (Webhook.handler api st event) = st
  \/ exists d,
       st_donations (snd (Webhook.handler api st event))
       = st_donations st ++ [d]
       /\ st_goals (snd (Webhook.handler api st event)) = st_goals st
       /\ st_milestones (snd (Webhook.handler api st event))
          = st_milestones st
       /\ eventGoalId event = Some (don_goalId d).
Proof.
  unfold Webhook.handler, eventGoalId.
  destruct (JS.str_falsy _); [left; reflexivity|].
  destruct (Webhook.parseBody (Webhook.body event)) as [|e];
    [left; reflexivity|].
  destruct (Webhook.is_checkout_completed (Webhook.ev_type e));
    [|left; reflexivity].
  destruct (Webhook.ev_object e) as [session|]; [|left; reflexivity].
  destruct (Webhook.metadata session) as [md|]; [|left; reflexivity].
  destruct api; try (left; reflexivity).
  destruct (Data.createDonation st (Webhook.donationInput session md))
    as [[st' d]|] eqn:Hc; [|left; reflexivity].
  right. exists d. apply createDonation_inv in Hc.
  destruct Hc as (Hd & Hg & Hm & _ & Hgoal & _). simpl.
  repeat split; assumption.
Qed.

(** X4.  Goals are independent: a notification for another goal, or for
    none, changes nothing of what the page of a goal shows, neither the
    goal, nor its milestones, nor its donations, nor the amount raised. *)
Theorem webhook_other_goal_untouched :
  forall api st event G,
    eventGoalId event <> Some G ->
    GoalPage.observe (snd (Webhook.handler api st event)) G
    = GoalPage.observe st G
    /\ GoalPage.raised (snd (Webhook.handler api st event)) G
       = GoalPage.raised st G.
Proof.
  intros api st event G H.
  assert (E : GoalPage.observe (snd (Webhook.handler api st event)) G
              = GoalPage.observe st G).
  { destruct (handler_written_goal api st event)
      as [-> | (d & Hd & Hg & Hm & He)]; [reflexivity|].
    unfold GoalPage.observe, Data.Goal_get, Data.Milestone_list,
      Data.Donation_list.
    rewrite Hd, Hg, Hm, filter_app. simpl.
    destruct (String.eqb (don_goalId d) G) eqn:Eq.
    - apply String.eqb_eq in Eq. subst G. contradiction.
    - rewrite app_nil_r. reflexivity. }
  split; [exact E|]. unfold GoalPage.raised. rewrite E. reflexivity.
Qed.

Lemma webhook_other_goal_untouched_witness :
  GoalPage.raised (snd (Webhook.handler CallOk Sample.once Sample.bob)) "goal-2"
  = GoalPage.raised Sample.once "goal-2"
  /\ st_donations (snd (Webhook.handler CallOk Sample.once Sample.bob))
     <> st_donations Sample.once.
Proof.
  split.
  - apply webhook_other_goal_untouched. vm_compute. discriminate.
  - vm_compute. discriminate.
Defined.

(** ** Further facts about binary64 arithmetic *)

Module FloatOrder.

Lemma SFleb_trans x y z :
  SFleb x y = true -> SFleb y z = true -> SFleb x z = true.
Proof.
  unfold SFleb.
  destruct x as [sx|sx| |sx mx ex], y as [sy|sy| |sy my ey],
           z as [sz|sz| |sz mz ez];
    simpl; try discriminate; try reflexivity;
    try (destruct sx; simpl; try discriminate; try reflexivity);
    try (destruct sy; simpl; try discriminate; try reflexivity);
    try (destruct sz; simpl; try discriminate; try reflexivity);
    repeat (simpl;
      match goal with
      | |- context [(?a ?= ?b)%Z] => destruct (Z.compare_spec a b)
      | |- context [Pos.compare_cont Eq ?a ?b] =>
          change (Pos.compare_cont Eq a b) with (Pos.compare a b);
          destruct (Pos.compare_spec a b)
      end); simpl; try discriminate; try reflexivity; intros; exfalso; lia.
Qed.

(** [<=] on numbers is transitive. *)
Lemma leb_trans (x y z : float) :
  PrimFloat.leb x y = true -> PrimFloat.leb y z = true ->
  PrimFloat.leb x z = true.
Proof. rewrite !leb_spec. apply SFleb_trans. Qed.

Lemma SFabs_binary_round_aux p e s s' m ex l :
  SFabs (binary_round_aux p e s m ex l)
  = SFabs (binary_round_aux p e s' m ex l).
Proof.
  unfold binary_round_aux.
  destruct (shr_fexp p e m ex l) as [mrs' e'].
  destruct (shr_fexp p e _ e' loc_Exact) as [mrs'' e''].
  destruct (shr_m mrs''); try reflexivity.
  destruct (e'' <=? e - p)%Z; reflexivity.
Qed.

Lemma SFabs_binary_normalize p e z ez :
  SFabs (binary_normalize p e (- z) ez false)
  = SFabs (binary_normalize p e z ez false).
Proof.
  unfold binary_normalize, binary_round.
  destruct z as [|m|m]; simpl; try reflexivity;
    destruct (shl_align m ez _) as [mz ez']; apply SFabs_binary_round_aux.
Qed.

Lemma SFabs_sub_sym p e x y : SFabs (SFsub p e x y) = SFabs (SFsub p e y x).
Proof.
  destruct x as [sx|sx| |sx mx ex], y as [sy|sy| |sy my ey]; simpl;
    try reflexivity;
    try (destruct sx, sy; reflexivity).
  rewrite (Z.min_comm ey ex).
  rewrite <- SFabs_binary_normalize. f_equal. f_equal. lia.
Qed.

(** [Math.abs(a - b)] is [Math.abs(b - a)]. *)
Lemma abs_sub_sym (a b : float) : abs (a - b) = abs (b - a).
Proof.
  apply Prim2SF_inj. rewrite !abs_spec, !sub_spec. apply SFabs_sub_sym.
Qed.

(** [0 / t] is [0] for every [t > 0]. *)
Lemma zero_div_pos (t : float) :
  PrimFloat.ltb 0 t = true -> (0 / t = 0)%float.
Proof.
  intros H. apply Prim2SF_inj. rewrite div_spec.
  rewrite ltb_spec in H. change (Prim2SF 0) with (S754_zero false) in *.
  destruct (Prim2SF t) as [s|s| |s m e]; simpl in *; try discriminate;
    destruct s; try discriminate; reflexivity.
Qed.

End FloatOrder.

(** ** Further properties of the goal page *)

Lemma StronglySorted_filter (A : Type) (R : A -> A -> Prop) (p : A -> bool)
      (l : list A) :
  StronglySorted R l -> StronglySorted R (filter p l).
Proof.
  induction 1 as [|x l Hs IH Hall]; simpl; [constructor|].
  destruct (p x); [|exact IH].
  constructor; [exact IH|].
  rewrite Forall_forall in *. intros y Hy. apply filter_In in Hy.
  apply Hall, Hy.
Qed.

(** X5.  The donation feed of a goal holds exactly the stored donations of
    that goal that are completed, and lists them newest first: every entry
    was created no earlier than every entry after it. *)
Theorem feed_is_newest_first :
  forall st G,
    StronglySorted (fun a b => (don_createdAt b <= don_createdAt a)%Z)
      (GoalPage.feed (GoalPage.donations (GoalPage.observe st G)))
    /\ (forall d,
          In d (GoalPage.feed (GoalPage.donations (GoalPage.observe st G)))
          <-> In d (st_donations st)
              /\ is_completed d = true /\ don_goalId d = G).
Proof.
  intros st G. split.
  - apply StronglySorted_filter.
    unfold GoalPage.observe, GoalPage.sortDonations. simpl.
    apply Sorted_StronglySorted.
    + intros a b c Hab Hbc. lia.
    + pose proof (sort_Sorted Donation
                    (fun a b => (don_createdAt b <=? don_createdAt a)%Z)) as S.
      assert (T : forall a b : Donation,
                 (don_createdAt b <=? don_createdAt a)%Z = false ->
                 (don_createdAt a <=? don_createdAt b)%Z = true).
      { intros a b H. apply Z.leb_gt in H. apply Z.leb_le. lia. }
      specialize (S T (Data.Donation_list st G)).
      induction S as [|x l _ IH Hd]; constructor; [exact IH|].
      destruct Hd as [|y l' Hxy]; constructor. apply Z.leb_le, Hxy.
  - intros d. split.
    + intros H.
      apply (Permutation_in d (feed_observe_Permutation st G)) in H.
      apply filter_In in H. destruct H as (Hin & Hc).
      unfold completedFor in Hc. apply andb_true_iff in Hc.
      destruct Hc as (Hc & Hg). apply String.eqb_eq in Hg. auto.
    + intros (Hin & Hc & Hg).
      apply (Permutation_in d
               (Permutation_sym (feed_observe_Permutation st G))).
      apply filter_In. split; [exact Hin|].
      unfold completedFor. rewrite Hc. apply String.eqb_eq in Hg.
      rewrite Hg. reflexivity.
Qed.

Lemma positionsFrom_milestones target current ms : forall runningTotal,
  map GoalPage.mp_milestone
      (GoalPage.positionsFrom target current runningTotal ms) = ms.
Proof.
  induction ms as [|m ms IH]; intros r; simpl; [reflexivity|].
  rewrite IH. reflexivity.
Qed.

(** X6.  The page reports the milestones it was given, all of them and in
    the same order, once the goal is loaded; before that, and for a goal
    without milestones, it reports none. *)
Theorem positions_keep_the_milestones :
  forall goal ms current,
    map GoalPage.mp_milestone (GoalPage.milestonePositions goal ms current)
    = match goal with Some _ => ms | None => [] end.
Proof.
  intros [g|] ms current; [|reflexivity].
  unfold GoalPage.milestonePositions.
  destruct ms as [|m ms]; [reflexivity|].
  apply positionsFrom_milestones.
Qed.

(** X7.  A milestone that is reported reached stays reported reached when
    the amount raised grows. *)
Theorem reached_stays_reached :
  forall g ms current current' i p,
    nth_error (GoalPage.milestonePositions (Some g) ms current) i = Some p ->
    GoalPage.reached p = true ->
    JS.ge current' current = true ->
    exists p',
      nth_error (GoalPage.milestonePositions (Some g) ms current') i = Some p'
      /\ GoalPage.mp_milestone p' = GoalPage.mp_milestone p
      /\ GoalPage.reached p' = true.
Proof.
  intros g ms current current' i p Hp Hr Hge.
  assert (Hi : i < List.length ms).
  { rewrite <- (milestonePositions_length g ms current).
    apply nth_error_Some. congruence. }
  destruct (nth_error ms i) as [m|] eqn:Hm;
    [|apply nth_error_None in Hm; lia].
  rewrite (milestonePositions_nth g ms current i m Hm) in Hp.
  injection Hp as <-. simpl in Hr.
  eexists. split; [apply milestonePositions_nth, Hm|].
  simpl. split; [reflexivity|].
  unfold JS.ge in *.
  exact (FloatOrder.leb_trans _ _ _ Hr Hge).
Qed.

Lemma reached_stays_reached_witness :
  exists p',
    nth_error (GoalPage.milestonePositions (Some (Sample.goalWith 3000%float))
                 Sample.ladder 2600%float) 1 = Some p'
    /\ GoalPage.reached p' = true.
Proof.
  destruct (reached_stays_reached (Sample.goalWith 3000%float) Sample.ladder
              2500%float 2600%float 1 _ eq_refl eq_refl eq_refl)
    as (p' & Hp & _ & Hr).
  exists p'. split; assumption.
Defined.

(** X8.  While a goal with a positive target has no completed donation,
    whatever pending or failed ones it has, the page shows 0 raised and 0
    percent. *)
Theorem nothing_completed_shows_zero :
  forall g ds,
    JS.gt (goal_targetAmount g) 0%float = true ->
    forallb (fun d => negb (is_completed d)) ds = true ->
    GoalPage.currentAmount ds = 0%float
    /\ GoalPage.progressPercent (Some g) (GoalPage.currentAmount ds) = 0%float
    /\ GoalPage.feed ds = [].
Proof.
  intros g ds Ht Hn.
  assert (F : filter is_completed ds = []).
  { apply filter_nil_of. intros d Hd. rewrite forallb_forall in Hn.
    apply negb_true_iff, Hn, Hd. }
  assert (C : GoalPage.currentAmount ds = 0%float).
  { unfold GoalPage.currentAmount. rewrite F. reflexivity. }
  split; [exact C|]. split; [|exact F].
  rewrite C. unfold GoalPage.progressPercent.
  rewrite (FloatOrder.zero_div_pos _ Ht). reflexivity.
Qed.

Lemma nothing_completed_shows_zero_witness :
  let d := {| don_id := "id-7"; don_goalId := "goal-1";
              don_amount := 25%float; don_donorName := None;
              don_message := None; don_stripePaymentId := "pi_7";
              don_status := Some failed; don_createdAt := 7 |} in
  GoalPage.progressPercent (Some (Sample.goalWith 1000%float))
    (GoalPage.currentAmount [d; d]) = 0%float.
Proof.
  cbv zeta.
  apply (nothing_completed_shows_zero (Sample.goalWith 1000%float));
    reflexivity.
Defined.

(** ** Further properties of the forms *)

Lemma perfect_not_mismatch rows form :
  Banner.perfect rows form = true -> Form.mismatch rows form = false.
Proof.
  unfold Banner.perfect, Banner.remaining, Form.mismatch, JS.gt, JS.Math_abs.
  rewrite FloatOrder.abs_sub_sym. apply FloatFacts.ltb_asym.
Qed.

(** X9.  When the total banner of the form reads "Perfect!", pressing save
    is never answered with Milestone Mismatch, on the edit page and on the
    create page. *)
Theorem perfect_banner_is_never_refused :
  (forall net st s data,
     Banner.perfect (EditGoalPage.rows s) (EditGoalPage.form s) = true ->
     fst (EditGoalPage.onSubmit net st s data)
     <> EditGoalPage.MilestoneMismatch)
  /\ (forall (B : Bcrypt) net st s data editPassword salt,
        Banner.perfect (CreateGoalPage.rows s) (CreateGoalPage.form s) = true ->
        fst (CreateGoalPage.onSubmit net st s data editPassword salt)
        <> CreateGoalPage.MilestoneMismatch).
Proof.
  split.
  - intros net st s data H. unfold EditGoalPage.onSubmit.
    rewrite (perfect_not_mismatch _ _ H).
    destruct (rejects (net_goal net)); [discriminate|].
    destruct (Batch.all _ _ _ (EditGoalPage.existingMilestones s) 0)
      as [st2 [|]]; [discriminate|].
    destruct (Batch.all _ _ st2 (fd_milestones data) 0) as [st3 [|]];
      discriminate.
  - intros B net st s data pw salt H. unfold CreateGoalPage.onSubmit.
    rewrite (perfect_not_mismatch _ _ H).
    destruct (net_goal net); try discriminate. simpl.
    destruct (Batch.all _ _ _ (fd_milestones data) 0) as [st2 [|]];
      discriminate.
Qed.

Lemma perfect_banner_is_never_refused_witness :
  Banner.perfect 2 Sample.newForm = true
  /\ fst (EditGoalPage.onSubmit Sample.firstDeleteErrors Sample.stored
            (Sample.editing Sample.newForm) Sample.newForm)
     <> EditGoalPage.MilestoneMismatch.
Proof.
  split; [vm_compute; reflexivity|].
  apply perfect_banner_is_never_refused. vm_compute. reflexivity.
Defined.

Lemma filterIndex_spec index ms : forall start,
  Rows.filterIndex index start ms
  = if Nat.ltb index start then ms
    else firstn (index - start) ms ++ skipn (S (index - start)) ms.
Proof.
  induction ms as [|m ms IH]; intros start; simpl.
  - destruct (Nat.ltb index start); [reflexivity|].
    rewrite firstn_nil. reflexivity.
  - rewrite IH.
    destruct (Nat.eqb start index) eqn:E; simpl.
    + apply Nat.eqb_eq in E. subst start.
      replace (Nat.ltb index (S index)) with true
        by (symmetry; apply Nat.ltb_lt; lia).
      rewrite Nat.ltb_irrefl, Nat.sub_diag. reflexivity.
    + apply Nat.eqb_neq in E.
      destruct (Nat.ltb index start) eqn:L.
      * apply Nat.ltb_lt in L.
        replace (Nat.ltb index (S start)) with true
          by (symmetry; apply Nat.ltb_lt; lia).
        reflexivity.
      * apply Nat.ltb_ge in L.
        replace (Nat.ltb index (S start)) with false
          by (symmetry; apply Nat.ltb_ge; lia).
        replace (index - start) with (S (index - S start)) by lia.
        reflexivity.
Qed.

Lemma removeMilestone_spec ms index :
  Rows.removeMilestone ms index = firstn index ms ++ skipn (S index) ms.
Proof.
  unfold Rows.removeMilestone. rewrite filterIndex_spec.
  change (Nat.ltb index 0) with false. cbv iota.
  rewrite Nat.sub_0_r. reflexivity.
Qed.

(** X10.  Removing the row at a position keeps the rows before and after
    it, in order; a position past the end removes nothing; and removing the
    row that "+ Add Milestone" has just appended gives back the rows there
    were. *)
Theorem removeMilestone_drops_one_row :
  (forall ms index,
     Rows.removeMilestone ms index = firstn index ms ++ skipn (S index) ms)
  /\ (forall ms index,
        List.length ms <= index -> Rows.removeMilestone ms index = ms)
  /\ (forall ms index,
        index < List.length ms ->
        S (List.length (Rows.removeMilestone ms index)) = List.length ms)
  /\ (forall ms,
        Rows.removeMilestone (Rows.addMilestone ms) (List.length ms) = ms).
Proof.
  pose proof removeMilestone_spec as H.
  split; [exact H|]. split; [|split].
  - intros ms index L. rewrite H, firstn_all2 by exact L.
    rewrite skipn_all2 by lia. apply app_nil_r.
  - intros ms index L. rewrite H, length_app, length_firstn, length_skipn.
    lia.
  - intros ms. rewrite H. unfold Rows.addMilestone.
    rewrite skipn_all2 by (rewrite length_app; simpl; lia).
    rewrite firstn_app, Nat.sub_diag, firstn_all. simpl.
    rewrite !app_nil_r. reflexivity.
Qed.

Lemma removeMilestone_drops_one_row_witness :
  let a := {| Rows.row_id := None; Rows.row_name := "Flights";
              Rows.row_targetAmount := 600%float |} in
  let b := {| Rows.row_id := None; Rows.row_name := "Hotel";
              Rows.row_targetAmount := 400%float |} in
  Rows.removeMilestone [a; b] 5 = [a; b]
  /\ S (List.length (Rows.removeMilestone [a; b] 0)) = 2.
Proof.
  cbv zeta.
  destruct removeMilestone_drops_one_row as (_ & Hout & Hin & _).
  split; [apply Hout; simpl; lia | apply Hin; simpl; lia].
Defined.

Lemma press_keeps_a_row ms c : ms <> [] -> Rows.press ms c <> [].
Proof.
  intros H. destruct c as [|index]; simpl.
  - unfold Rows.addMilestone. destruct ms; discriminate.
  - destruct (Nat.ltb 1 (List.length ms)) eqn:L; simpl; [|exact H].
    destruct (Nat.ltb index (List.length ms)) eqn:I; [|exact H].
    apply Nat.ltb_lt in L, I. intros E.
    assert (S (List.length (Rows.removeMilestone ms index)) = List.length ms).
    { rewrite removeMilestone_spec, length_app, length_firstn, length_skipn.
      lia. }
    rewrite E in H0. simpl in H0. lia.
Qed.

(** X11.  Once the form has a row it never loses its last one: whatever
    sequence of "+ Add Milestone" and remove buttons is pressed, at least
    one row is left. *)
Theorem form_never_loses_its_last_row :
  forall cs ms, ms <> [] -> Rows.presses ms cs <> [].
Proof.
  unfold Rows.presses.
  induction cs as [|c cs IH]; intros ms H; simpl; [exact H|].
  apply IH, press_keeps_a_row, H.
Qed.

Lemma form_never_loses_its_last_row_witness :
  Rows.presses (Rows.addMilestone [])
    [Rows.PressRemove 0; Rows.PressAdd; Rows.PressRemove 1;
     Rows.PressRemove 0; Rows.PressRemove 0] <> [].
Proof.
  apply form_never_loses_its_last_row. discriminate.
Defined.

Lemma runningTotals_nth ws : forall r i,
  Forall (fun w => JS.truthy w = true) ws ->
  i < List.length ws ->
  nth_error (Form.runningTotalsFrom r ws) i
  = Some (fold_left PrimFloat.add (firstn (S i) ws) r).
Proof.
  induction ws as [|w ws IH]; intros r i Hall Hi; [simpl in Hi; lia|].
  inversion Hall as [|? ? Hw Hws]; subst.
  simpl Form.runningTotalsFrom. unfold JS.Number_or_zero.
  rewrite (FloatFacts.or_zero_truthy _ Hw).
  destruct i as [|i]; [reflexivity|].
  simpl in Hi. simpl nth_error. rewrite IH by (auto; lia). reflexivity.
Qed.

Lemma installed_amounts G ms : forall n index,
  map ms_targetAmount (installed G n index ms) = map mi_targetAmount ms.
Proof.
  induction ms as [|m ms IH]; intros n index; simpl; [reflexivity|].
  rewrite IH. reflexivity.
Qed.

Lemma fold_left_thresholds (l : list Milestone) : forall r,
  fold_left (fun acc m => (acc + ms_targetAmount m)%float) l r
  = fold_left PrimFloat.add (map ms_targetAmount l) r.
Proof. induction l as [|m l IH]; intros r; simpl; [|rewrite IH]; reflexivity. Qed.

(** X12.  For values the form schema accepts, the running total shown
    beside row [i] of the form is the cumulative threshold at which the
    public page reports the milestone saved from that row as reached. *)
Theorem running_total_is_the_threshold :
  forall form G n i,
    Form.goalSchema form = true ->
    i < List.length (fd_milestones form) ->
    nth_error
      (Form.milestoneRunningTotals (List.length (fd_milestones form)) form) i
    = Some (cumulativeThreshold (installed G n 0 (fd_milestones form)) i).
Proof.
  intros form G n i V Hi.
  unfold Form.goalSchema in V.
  apply andb_true_iff in V. destruct V as (V & _).
  apply andb_true_iff in V. destruct V as (_ & Hms).
  assert (Hall : Forall (fun m => JS.truthy (mi_targetAmount m) = true)
                        (fd_milestones form)).
  { apply Forall_forall. intros m Hin.
    rewrite forallb_forall in Hms. specialize (Hms m Hin).
    apply andb_true_iff in Hms. apply FloatFacts.ge_cent_truthy, Hms. }
  unfold Form.milestoneRunningTotals, Form.watchedMilestones.
  rewrite map_nth_error_seq.
  rewrite (map_ext_in _ mi_targetAmount).
  2:{ intros m Hin. rewrite Forall_forall in Hall.
      apply FloatFacts.or_zero_truthy, Hall, Hin. }
  rewrite runningTotals_nth.
  - unfold cumulativeThreshold.
    rewrite fold_left_thresholds, <- firstn_map, installed_amounts.
    reflexivity.
  - apply Forall_map. exact Hall.
  - rewrite length_map. exact Hi.
Qed.

Lemma running_total_is_the_threshold_witness :
  nth_error (Form.milestoneRunningTotals 2 Sample.newForm) 1
  = Some 1000%float.
Proof.
  change 2 with (List.length (fd_milestones Sample.newForm)) at 1.
  rewrite (running_total_is_the_threshold Sample.newForm "goal-1" 2 1
             eq_refl); [vm_compute; reflexivity | simpl; lia].
Defined.

(** ** Further properties of the edit and create pages *)

(** X13.  The edit form is shown only for a stored goal and a password that
    bcrypt accepts for its stored hash; it then carries the goal's name and
    target, one row per loaded milestone with that milestone's name and
    amount, and, when the milestones were read, the loaded milestones are
    the stored milestones of the goal in ascending order. *)
Theorem loaded_form_mirrors_the_store :
  forall (B : Bcrypt) apiGet apiList st G password s,
    EditGoalPage.loadGoal apiGet apiList st G password
    = EditGoalPage.Loaded s ->
    exists g,
      Data.Goal_get st G = Some g
      /\ bcrypt_compare password (goal_editPassword g) = true
      /\ EditGoalPage.goalId s = G
      /\ fd_name (EditGoalPage.form s) = goal_name g
      /\ fd_targetAmount (EditGoalPage.form s) = goal_targetAmount g
      /\ fd_milestones (EditGoalPage.form s)
         = map inputOf (EditGoalPage.existingMilestones s)
      /\ EditGoalPage.rows s
         = List.length (fd_milestones (EditGoalPage.form s))
      /\ (apiList = CallOk ->
          Permutation (EditGoalPage.existingMilestones s)
                      (Data.Milestone_list st G)
          /\ Sorted (fun a b => (ms_order a <= ms_order b)%Z)
                    (EditGoalPage.existingMilestones s)).
Proof.
  intros B apiGet apiList st G password s. unfold EditGoalPage.loadGoal.
  destruct apiGet; try discriminate.
  destruct (Data.Goal_get st G) as [g|]; [|discriminate].
  destruct (bcrypt_compare password (goal_editPassword g)) eqn:Hc;
    [|discriminate].
  simpl. destruct apiList; try discriminate; intros H; injection H as <-;
    exists g; simpl; rewrite ?length_map;
    repeat (split; [first [assumption | reflexivity]|]);
    try (intros E; discriminate E).
  intros _. split.
  - apply sort_Permutation.
  - pose proof (sort_Sorted Milestone
                  (fun a b => (ms_order a <=? ms_order b)%Z)) as S.
    assert (T : forall a b : Milestone,
               (ms_order a <=? ms_order b)%Z = false ->
               (ms_order b <=? ms_order a)%Z = true).
    { intros a b H. apply Z.leb_gt in H. apply Z.leb_le. lia. }
    specialize (S T (Data.Milestone_list st G)).
    unfold GoalPage.sortMilestones.
    induction S as [|x l _ IH Hd]; constructor; [exact IH|].
    destruct Hd as [|y l' Hxy]; constructor. apply Z.leb_le, Hxy.
Qed.

Lemma loaded_form_mirrors_the_store_witness :
  exists s,
    @EditGoalPage.loadGoal Sample.toyBcrypt CallOk CallOk
       Sample.protectedStore "goal-1" "k3x9q0secret" = EditGoalPage.Loaded s
    /\ EditGoalPage.rows s
       = List.length (fd_milestones (EditGoalPage.form s))
    /\ fd_milestones (EditGoalPage.form s)
       = map inputOf (EditGoalPage.existingMilestones s).
Proof.
  destruct (@EditGoalPage.loadGoal Sample.toyBcrypt CallOk CallOk
              Sample.protectedStore "goal-1" "k3x9q0secret") as [| | |s] eqn:E;
    try (vm_compute in E; discriminate E).
  exists s. split; [reflexivity|].
  destruct (@loaded_form_mirrors_the_store Sample.toyBcrypt CallOk CallOk
              Sample.protectedStore "goal-1" "k3x9q0secret" s E)
    as (g & _ & _ & _ & _ & _ & Hm & Hr & _).
  split; assumption.
Defined.

Lemma loaded_load (B : Bcrypt) apiGet st G password s :
  EditGoalPage.loadGoal apiGet CallOk st G password = EditGoalPage.Loaded s ->
  exists g,
    Data.Goal_get st G = Some g
    /\ EditGoalPage.goalId s = G
    /\ Permutation (EditGoalPage.existingMilestones s)
                   (Data.Milestone_list st G).
Proof.
  unfold EditGoalPage.loadGoal.
  destruct apiGet; try discriminate.
  destruct (Data.Goal_get st G) as [g|]; [|discriminate].
  destruct (bcrypt_compare password (goal_editPassword g)); [|discriminate].
  simpl. intros H. injection H as <-. exists g. simpl.
  repeat split. apply sort_Permutation.
Qed.

Section BatchKeeps.
Variables (A T : Type).
Variable call : Store -> A -> nat -> Store.
Variable outcome : nat -> CallOutcome.
Variable f : Store -> T.
Hypothesis call_keeps : forall st x i, f (call st x i) = f st.

Lemma all_keeps items : forall st index,
  f (fst (Batch.all call outcome st items index)) = f st.
Proof.
  induction items as [|x r IH]; intros st index; simpl; [reflexivity|].
  match goal with
  | |- context [Batch.all call outcome ?s r (S index)] =>
      specialize (IH s (S index));
      destruct (Batch.all call outcome s r (S index))
  end.
  simpl in *. rewrite IH. destruct (outcome index); auto.
Qed.
End BatchKeeps.

Lemma goal_update_credentials st id name description target :
  map credentials (st_goals (Data.Goal_update st id name description target))
  = map credentials (st_goals st).
Proof.
  simpl. rewrite map_map. apply map_ext. intros g.
  destruct (String.eqb (goal_id g) id); reflexivity.
Qed.

(** X14.  Whatever the Data API answers, a save of the edit page changes no
    donation, adds or removes no goal, and leaves the identifier, the
    stored password hash and the payout account of every goal as they
    were. *)
Theorem save_keeps_donations_and_credentials :
  forall net st s data,
    st_donations (snd (EditGoalPage.onSubmit net st s data)) = st_donations st
    /\ map credentials (st_goals (snd (EditGoalPage.onSubmit net st s data)))
       = map credentials (st_goals st).
Proof.
  intros net st s data. unfold EditGoalPage.onSubmit.
  destruct (Form.mismatch _ _); [split; reflexivity|].
  set (st1 := match net_goal net with
              | CallOk => Data.Goal_update st (EditGoalPage.goalId s)
                            (fd_name data) (JS.str_or (fd_description data) "")
                            (fd_targetAmount data)
              | _ => st
              end).
  assert (H1 : st_donations st1 = st_donations st
               /\ map credentials (st_goals st1)
                  = map credentials (st_goals st)).
  { unfold st1. destruct (net_goal net); split; try reflexivity.
    apply goal_update_credentials. }
  destruct H1 as (H1d & H1g).
  destruct (rejects (net_goal net)); [split; assumption|].
  pose proof (all_keeps _ _ (fun st m (_ : nat) =>
                           Data.Milestone_delete st (ms_id m))
                (net_delete net) st_donations (fun _ _ _ => eq_refl)
                (EditGoalPage.existingMilestones s) st1 0) as D1.
  pose proof (all_keeps _ _ (fun st m (_ : nat) =>
                           Data.Milestone_delete st (ms_id m))
                (net_delete net) st_goals (fun _ _ _ => eq_refl)
                (EditGoalPage.existingMilestones s) st1 0) as D2.
  destruct (Batch.all _ _ st1 (EditGoalPage.existingMilestones s) 0)
    as [st2 thrown2].
  simpl in D1, D2.
  destruct thrown2; [simpl; rewrite D1, D2; split; assumption|].
  pose proof (all_keeps _ _ (fun st milestone index =>
                 Data.Milestone_create st (EditGoalPage.goalId s)
                   (mi_name milestone) (mi_targetAmount milestone)
                   (Z.of_nat index))
                (net_create net) st_donations (fun _ _ _ => eq_refl)
                (fd_milestones data) st2 0) as C1.
  pose proof (all_keeps _ _ (fun st milestone index =>
                 Data.Milestone_create st (EditGoalPage.goalId s)
                   (mi_name milestone) (mi_targetAmount milestone)
                   (Z.of_nat index))
                (net_create net) st_goals (fun _ _ _ => eq_refl)
                (fd_milestones data) st2 0) as C2.
  destruct (Batch.all _ _ st2 (fd_milestones data) 0) as [st3 thrown3].
  simpl in C1, C2.
  destruct thrown3; simpl; rewrite C1, C2, D1, D2; split; assumption.
Qed.

Lemma save_reliable st s data :
  NoDup (map ms_id (st_milestones st)) ->
  Permutation (EditGoalPage.existingMilestones s)
              (Data.Milestone_list st (EditGoalPage.goalId s)) ->
  Form.mismatch (EditGoalPage.rows s) (EditGoalPage.form s) = false ->
  let r := EditGoalPage.onSubmit reliable st s data in
  fst r = EditGoalPage.Saved
  /\ Data.Milestone_list (snd r) (EditGoalPage.goalId s)
     = installed (EditGoalPage.goalId s) (st_nextId st) 0 (fd_milestones data)
  /\ (forall G, G <> EditGoalPage.goalId s ->
                Data.Milestone_list (snd r) G = Data.Milestone_list st G)
  /\ st_goals (snd r)
     = st_goals (Data.Goal_update st (EditGoalPage.goalId s) (fd_name data)
                   (JS.str_or (fd_description data) "")
                   (fd_targetAmount data)).
Proof.
  intros Hnd Hperm Hm.
  unfold EditGoalPage.onSubmit. rewrite Hm. simpl.
  set (st1 := Data.Goal_update st (EditGoalPage.goalId s) (fd_name data)
                (JS.str_or (fd_description data) "") (fd_targetAmount data)).
  pose proof (deletes_ok (EditGoalPage.existingMilestones s) st1 0) as D.
  simpl in D.
  destruct (Batch.all _ _ st1 (EditGoalPage.existingMilestones s) 0)
    as [st2 thrown2].
  simpl in D. destruct D as (-> & D1 & _ & D3 & _ & D5).
  pose proof (creates_ok (EditGoalPage.goalId s) (fd_milestones data) st2 0)
    as C.
  simpl in C.
  destruct (Batch.all _ _ st2 (fd_milestones data) 0) as [st3 thrown3].
  simpl in C. destruct C as (-> & C1 & _ & C3).
  simpl.
  assert (Hex : forall x, In x (EditGoalPage.existingMilestones s) <->
                          In x (st_milestones st)
                          /\ ms_goalId x = EditGoalPage.goalId s).
  { intros x. split.
    - intros H. apply (Permutation_in _ Hperm) in H.
      apply filter_In in H. destruct H as (H & E).
      split; [exact H | apply String.eqb_eq, E].
    - intros (H & E). apply (Permutation_in _ (Permutation_sym Hperm)).
      apply filter_In. split; [exact H | apply String.eqb_eq, E]. }
  split; [reflexivity|].
  unfold Data.Milestone_list. rewrite C3, D5, D3. simpl st_milestones.
  split; [|split].
  - rewrite filter_app, installed_goal, filter_filter, filter_nil_of;
      [reflexivity|].
    intros x Hin.
    destruct (String.eqb (ms_goalId x) (EditGoalPage.goalId s)) eqn:E;
      [|reflexivity].
    simpl. apply negb_false_iff, idIn_In. exists x. split; [|reflexivity].
    apply Hex. split; [exact Hin | apply String.eqb_eq, E].
  - intros G HG.
    rewrite filter_app, (installed_other _ _ _ _ _ HG), app_nil_r,
      filter_filter.
    apply filter_ext_in. intros x Hin.
    destruct (String.eqb (ms_goalId x) G) eqn:E; [|reflexivity].
    simpl. apply negb_true_iff.
    destruct (idIn x (EditGoalPage.existingMilestones s)) eqn:I;
      [|reflexivity].
    exfalso. apply idIn_In in I. destruct I as (m & Hm' & Eid).
    apply Hex in Hm'. destruct Hm' as (Hmin & Hmg).
    pose proof (NoDup_map_eq _ _ ms_id _ x m Hnd Hin Hmin Eid) as ->.
    apply String.eqb_eq in E. congruence.
  - rewrite C1, D1. reflexivity.
Qed.

Lemma sort_installed G ms : forall n index,
  GoalPage.sortMilestones (installed G n index ms) = installed G n index ms.
Proof.
  unfold GoalPage.sortMilestones.
  induction ms as [|m ms IH]; intros n index; simpl; [reflexivity|].
  rewrite IH. destruct ms as [|m' ms']; [reflexivity|].
  cbn [installed JS.insert ms_order].
  assert (E : (Z.of_nat index <=? Z.of_nat (S index))%Z = true)
    by (apply Z.leb_le; lia).
  rewrite E. reflexivity.
Qed.

Lemma inputOf_installed G ms : forall n index,
  map inputOf (installed G n index ms) = ms.
Proof.
  induction ms as [|[name amount] ms IH]; intros n index; simpl;
    [reflexivity|].
  rewrite IH. reflexivity.
Qed.

Lemma find_updated (goals : list Goal) id name description target :
  find (fun g => String.eqb (goal_id g) id)
       (st_goals (Data.Goal_update
                    {| st_goals := goals; st_milestones := [];
                       st_donations := []; st_nextId := 0; st_clock := 0 |}
                    id name description target))
  = match find (fun g => String.eqb (goal_id g) id) goals with
    | Some g =>
        Some {| goal_id := goal_id g; goal_name := name;
                goal_description := Some description;
                goal_targetAmount := target;
                goal_stripeAccountId := goal_stripeAccountId g;
                goal_editPassword := goal_editPassword g |}
    | None => None
    end.
Proof.
  simpl. induction goals as [|g goals IH]; simpl; [reflexivity|].
  destruct (String.eqb (goal_id g) id) eqn:E; simpl; rewrite E;
    [reflexivity | exact IH].
Qed.

(** X15.  A visit of the edit page with an accepted password, followed by a
    save of values the form schema accepts and the milestone check lets
    through, all calls going through: the save is reported, the goal keeps
    its identifier, password hash and payout account and takes the
    submitted name and target, the public page then shows exactly the
    submitted milestones in form order, and the milestones of the other
    goals are as before. *)
Theorem edit_flow_installs_the_form :
  forall (B : Bcrypt) st G password edit s rows' form',
    NoDup (map ms_id (st_milestones st)) ->
    EditGoalPage.loadGoal CallOk CallOk st G password
    = EditGoalPage.Loaded s ->
    edit s = (rows', form') ->
    Form.goalSchema form' = true ->
    Form.mismatch rows' form' = false ->
    let r := EditGoalPage.editFlow CallOk CallOk reliable st G password edit in
    fst r = EditGoalPage.Submitted EditGoalPage.Saved
    /\ GoalPage.milestones (GoalPage.observe (snd r) G)
       = installed G (st_nextId st) 0 (fd_milestones form')
    /\ (forall G', G' <> G ->
                   Data.Milestone_list (snd r) G' = Data.Milestone_list st G')
    /\ exists g g',
         Data.Goal_get st G = Some g
         /\ Data.Goal_get (snd r) G = Some g'
         /\ credentials g' = credentials g
         /\ goal_name g' = fd_name form'
         /\ goal_targetAmount g' = fd_targetAmount form'.
Proof.
  intros B st G password edit s rows' form' Hnd Hl He Hv Hm.
  destruct (loaded_load _ _ _ _ _ _ Hl) as (g & Hg & HG & Hperm).
  unfold EditGoalPage.editFlow. rewrite Hl, He.
  unfold EditGoalPage.handleSubmit. simpl EditGoalPage.form. rewrite Hv.
  set (s' := {| EditGoalPage.goalId := EditGoalPage.goalId s;
                EditGoalPage.existingMilestones :=
                  EditGoalPage.existingMilestones s;
                EditGoalPage.rows := rows';
                EditGoalPage.form := form' |}).
  destruct (save_reliable st s' form' Hnd
              ltac:(simpl; rewrite HG; exact Hperm) Hm)
    as (H1 & H2 & H3 & H4).
  destruct (EditGoalPage.onSubmit reliable st s' form') as [res st'].
  simpl in *. rewrite HG in *. subst res.
  split; [reflexivity|]. split; [|split].
  - unfold GoalPage.observe. simpl. rewrite H2. apply sort_installed.
  - exact H3.
  - unfold Data.Goal_get in *. rewrite H4.
    pose proof (find_updated (st_goals st) G (fd_name form')
                  (JS.str_or (fd_description form') "")
                  (fd_targetAmount form')) as F.
    simpl in F. simpl. rewrite F, Hg.
    eexists _, _. split; [reflexivity|]. split; [reflexivity|].
    repeat split.
Qed.

Lemma edit_flow_installs_the_form_witness :
  let r := @EditGoalPage.editFlow Sample.toyBcrypt CallOk CallOk reliable
             Sample.protectedStore "goal-1" "k3x9q0secret"
             (fun _ => (2, Sample.newForm)) in
  fst r = EditGoalPage.Submitted EditGoalPage.Saved
  /\ map ms_name (GoalPage.milestones (GoalPage.observe (snd r) "goal-1"))
     = ["Ferry"; "Villa"].
Proof.
  destruct (@EditGoalPage.loadGoal Sample.toyBcrypt CallOk CallOk
              Sample.protectedStore "goal-1" "k3x9q0secret") as [| | |s] eqn:E;
    try (vm_compute in E; discriminate E).
  assert (Hnd : NoDup (map ms_id (st_milestones Sample.protectedStore))).
  { vm_compute. repeat constructor; simpl; intuition discriminate. }
  destruct (@edit_flow_installs_the_form Sample.toyBcrypt
              Sample.protectedStore "goal-1" "k3x9q0secret"
              (fun _ => (2, Sample.newForm)) s 2 Sample.newForm
              Hnd E eq_refl eq_refl eq_refl) as (H1 & H2 & _).
  cbv zeta. split; [exact H1|]. rewrite H2. reflexivity.
Defined.

Section CreateGrows.
Variable goalId : ID.
Variable outcome : nat -> CallOutcome.

Lemma creates_append ms : forall st index,
  exists added,
    st_milestones
      (fst (Batch.all
              (fun st milestone index =>
                 Data.Milestone_create st goalId (mi_name milestone)
                   (mi_targetAmount milestone) (Z.of_nat index))
              outcome st ms index)) = st_milestones st ++ added
    /\ Forall (fun m => ms_goalId m = goalId) added.
Proof.
  induction ms as [|m ms IH]; intros st index; simpl.
  - exists []. split; [symmetry; apply app_nil_r | constructor].
  - match goal with
    | |- context [Batch.all ?c ?o ?s ms (S index)] =>
        destruct (IH s (S index)) as (added & Ha & Hf);
        destruct (Batch.all c o s ms (S index)) as [st'' thrown]
    end.
    simpl in *. rewrite Ha. destruct (outcome index); simpl.
    + eexists. rewrite <- app_assoc. split; [reflexivity|].
      constructor; [reflexivity | exact Hf].
    + exists added. auto.
    + exists added. auto.
Qed.
End CreateGrows.

(** X16.  Whatever the Data API answers, creating a goal changes nothing
    that was stored: donations are untouched, the goals and milestones
    stored before are still there, at most one goal is added, and every
    milestone added belongs to that new goal.  When the goal itself cannot
    be created, nothing at all is written. *)
Theorem create_only_adds :
  forall (B : Bcrypt) net st s data editPassword salt,
    let st' := snd (CreateGoalPage.onSubmit net st s data editPassword salt) in
    st_donations st' = st_donations st
    /\ (exists newGoals,
          st_goals st' = st_goals st ++ newGoals
          /\ List.length newGoals <= 1)
    /\ (exists newMilestones,
          st_milestones st' = st_milestones st ++ newMilestones
          /\ Forall (fun m => ms_goalId m = freshId (st_nextId st))
                    newMilestones)
    /\ (net_goal net <> CallOk -> st' = st).
Proof.
  intros B net st s data pw salt. cbv zeta.
  unfold CreateGoalPage.onSubmit.
  assert (Same : st_donations st = st_donations st
                 /\ (exists newGoals, st_goals st = st_goals st ++ newGoals
                                      /\ List.length newGoals <= 1)
                 /\ (exists newMilestones,
                       st_milestones st = st_milestones st ++ newMilestones
                       /\ Forall (fun m => ms_goalId m = freshId (st_nextId st))
                                 newMilestones)).
  { split; [reflexivity|]. split; exists []; rewrite app_nil_r; simpl; auto. }
  destruct (Form.mismatch _ _); [simpl; tauto|].
  destruct (net_goal net); try (simpl; tauto).
  simpl.
  match goal with
  | |- context [Batch.all ?c ?o ?s ?l 0] =>
      pose proof (creates_keep_goals (freshId (st_nextId st)) o l s 0) as K;
      pose proof (all_keeps _ _ c o st_donations (fun _ _ _ => eq_refl) l s 0)
        as Kd;
      destruct (creates_append (freshId (st_nextId st)) o l s 0)
        as (added & Ha & Hf);
      destruct (Batch.all c o s l 0) as [st2 thrown]
  end.
  simpl in K, Kd, Ha.
  assert (R : st_donations st2 = st_donations st
              /\ (exists newGoals, st_goals st2 = st_goals st ++ newGoals
                                   /\ List.length newGoals <= 1)
              /\ (exists newMilestones,
                    st_milestones st2 = st_milestones st ++ newMilestones
                    /\ Forall (fun m => ms_goalId m = freshId (st_nextId st))
                              newMilestones)
              /\ (CallOk <> CallOk -> st2 = st)).
  { split; [exact Kd|]. split; [|split].
    - eexists. split; [exact K | simpl; lia].
    - exists added. split; assumption.
    - intros H. contradiction. }
  destruct thrown; exact R.
Qed.

Lemma create_only_adds_witness :
  snd (@CreateGoalPage.onSubmit Sample.toyBcrypt
         {| net_goal := CallErrors; net_delete := fun _ => CallOk;
            net_create := fun _ => CallOk |}
         Sample.stored
         {| CreateGoalPage.stripeAccountId := "acct_1";
            CreateGoalPage.rows := 2;
            CreateGoalPage.form := Sample.newForm |}
         Sample.newForm "k3x9q0secret" "Zq") = Sample.stored.
Proof.
  apply create_only_adds. discriminate.
Defined.

Lemma str_or_idem s d : JS.str_or (Some (JS.str_or s d)) d = JS.str_or s d.
Proof.
  unfold JS.str_or. destruct s as [v|].
  - destruct (String.eqb v "") eqn:E.
    + destruct (String.eqb d ""); reflexivity.
    + rewrite E. reflexivity.
  - destruct (String.eqb d ""); reflexivity.
Qed.

(** X17.  Creating a goal and then opening the edit link the create page
    navigates to: when all calls go through, the edit page accepts the
    issued password and shows the form filled with what was submitted, the
    same name, target and milestones in the same order, with one row per
    milestone. *)
Theorem created_goal_opens_with_what_was_submitted :
  forall (B : Bcrypt) st s data editPassword salt,
    getSalt (hashWithSalt editPassword salt) = salt ->
    (forall g, In g (st_goals st) -> goal_id g <> freshId (st_nextId st)) ->
    (forall m, In m (st_milestones st) ->
               ms_goalId m <> freshId (st_nextId st)) ->
    Form.mismatch (CreateGoalPage.rows s) (CreateGoalPage.form s) = false ->
    let goalId := freshId (st_nextId st) in
    let r := CreateGoalPage.onSubmit reliable st s data editPassword salt in
    fst r = CreateGoalPage.Created goalId editPassword
    /\ EditGoalPage.loadGoal CallOk CallOk (snd r) goalId editPassword
       = EditGoalPage.Loaded
           {| EditGoalPage.goalId := goalId;
              EditGoalPage.existingMilestones :=
                installed goalId (S (st_nextId st)) 0 (fd_milestones data);
              EditGoalPage.rows := List.length (fd_milestones data);
              EditGoalPage.form :=
                {| fd_name := fd_name data;
                   fd_description :=
                     Some (JS.str_or (fd_description data) "");
                   fd_targetAmount := fd_targetAmount data;
                   fd_milestones := fd_milestones data |} |}.
Proof.
  intros B st s data pw salt Hsalt Hg Hms Hm. cbv zeta.
  unfold CreateGoalPage.onSubmit. rewrite Hm. simpl.
  match goal with
  | |- context [Batch.all ?c ?o ?st1 ?l 0] =>
      pose proof (creates_ok (freshId (st_nextId st)) l st1 0) as C;
      simpl in C;
      destruct (Batch.all c o st1 l 0) as [st2 thrown]
  end.
  simpl in C. destruct C as (-> & C1 & _ & C3). simpl.
  split; [reflexivity|].
  unfold EditGoalPage.loadGoal, Data.Goal_get. rewrite C1.
  rewrite find_last_fresh; [|exact Hg|reflexivity].
  simpl goal_editPassword.
  rewrite (issued_secret_accepted pw salt Hsalt). simpl negb. cbv iota.
  assert (L : Data.Milestone_list st2 (freshId (st_nextId st))
              = installed (freshId (st_nextId st)) (S (st_nextId st)) 0
                          (fd_milestones data)).
  { unfold Data.Milestone_list. rewrite C3, filter_app, installed_goal.
    rewrite filter_nil_of; [reflexivity|].
    intros m Hin. apply String.eqb_neq, Hms, Hin. }
  rewrite L, sort_installed.
  fold inputOf. rewrite inputOf_installed.
  f_equal. f_equal.
  - clear. generalize (S (st_nextId st)), 0.
    induction (fd_milestones data) as [|m l IH]; intros n i; simpl;
      [reflexivity | rewrite IH; reflexivity].
  - f_equal. f_equal. apply str_or_idem.
Qed.

Lemma created_goal_opens_with_what_was_submitted_witness :
  let r := @CreateGoalPage.onSubmit Sample.toyBcrypt reliable emptyStore
             {| CreateGoalPage.stripeAccountId := "acct_1";
                CreateGoalPage.rows := 2;
                CreateGoalPage.form := Sample.newForm |}
             Sample.newForm "k3x9q0secret" "Zq" in
  fst r = CreateGoalPage.Created "id-0" "k3x9q0secret"
  /\ exists s,
       @EditGoalPage.loadGoal Sample.toyBcrypt CallOk CallOk (snd r) "id-0"
          "k3x9q0secret" = EditGoalPage.Loaded s
       /\ EditGoalPage.form s = Sample.newForm.
Proof.
  destruct (@created_goal_opens_with_what_was_submitted Sample.toyBcrypt
              emptyStore
              {| CreateGoalPage.stripeAccountId := "acct_1";
                 CreateGoalPage.rows := 2;
                 CreateGoalPage.form := Sample.newForm |}
              Sample.newForm "k3x9q0secret" "Zq" eq_refl
              (fun g (H : In g []) => match H with end)
              (fun m (H : In m []) => match H with end) eq_refl)
    as (H1 & H2).
  cbv zeta. split; [exact H1|].
  eexists. split; [exact H2 | reflexivity].
Defined.

(** ** The checkout and connect functions *)

Lemma str_falsy_false s : JS.str_falsy s = false -> exists v, s = Some v /\ v <> "".
Proof.
  destruct s as [v|]; simpl; [|discriminate].
  intros H. exists v. split; [reflexivity | apply String.eqb_neq, H].
Qed.

(** X18.  The checkout function asks Stripe for a checkout session only
    when the request names a goal, a non-zero amount and an account, and
    Stripe reports that account with charges enabled and details submitted;
    the session then pays out to that account, takes no application fee,
    and carries the goal and a donor name that is never empty. *)
Theorem checkout_session_only_for_onboarded_account :
  forall stripe APP_URL body p,
    In (SessionsCreate p) (snd (Checkout.handler stripe APP_URL body)) ->
    exists r goalId amount acct account,
      Checkout.parseBody body = Checkout.Parsed r
      /\ Checkout.goalId r = Some goalId /\ goalId <> ""
      /\ Checkout.amount r = Some amount /\ JS.truthy amount = true
      /\ Checkout.stripeAccountId r = Some acct /\ acct <> ""
      /\ accounts_retrieve stripe acct = Some account
      /\ charges_enabled account = true
      /\ details_submitted account = true
      /\ p = Checkout.sessionParams APP_URL goalId acct amount
               (Checkout.donorName r) (Checkout.message r)
      /\ sp_destination p = acct
      /\ sp_application_fee_amount p = 0%Z
      /\ sp_goalId p = goalId
      /\ sp_donorName p <> "".
Proof.
  intros stripe APP_URL body p. unfold Checkout.handler.
  destruct (Checkout.parseBody body) as [|r]; [intros []|].
  destruct (JS.str_falsy (Checkout.goalId r)) eqn:Hg; [intros []|].
  destruct (Checkout.amount_falsy (Checkout.amount r)) eqn:Ha; [intros []|].
  destruct (JS.str_falsy (Checkout.stripeAccountId r)) eqn:Hs; [intros []|].
  simpl.
  destruct (str_falsy_false _ Hg) as (goalId & Eg & Ng).
  destruct (str_falsy_false _ Hs) as (acct & Es & Ns).
  rewrite Eg, Es.
  destruct (Checkout.amount r) as [amount|] eqn:Ea; [|discriminate Ha].
  simpl in Ha. apply negb_false_iff in Ha.
  destruct (accounts_retrieve stripe acct) as [account|] eqn:Er.
  2:{ simpl. intros [H|[]]. discriminate H. }
  destruct (charges_enabled account) eqn:Hc; simpl.
  2:{ destruct (accountLinks_create stripe _); simpl;
        intros [H|[H|[]]]; discriminate H. }
  destruct (details_submitted account) eqn:Hd; simpl.
  2:{ destruct (accountLinks_create stripe _); simpl;
        intros [H|[H|[]]]; discriminate H. }
  intros H.
  assert (E : p = Checkout.sessionParams APP_URL goalId acct amount
                    (Checkout.donorName r) (Checkout.message r)).
  { destruct (checkout_sessions_create stripe _); simpl in H;
      destruct H as [H|[H|[]]]; try discriminate H;
      injection H as <-; reflexivity. }
  exists r, goalId, amount, acct, account. subst p. simpl.
  repeat split; try assumption; try reflexivity.
  apply str_or_nonempty. discriminate.
Qed.

Lemma checkout_session_only_for_onboarded_account_witness :
  let stripe :=
    {| accounts_create := None;
       accounts_retrieve := fun id =>
         Some {| acct_id := id; charges_enabled := true;
                 details_submitted := true |};
       accountLinks_create := fun _ => Some "https://connect.stripe.test/setup";
       checkout_sessions_create := fun _ => Some "https://checkout.stripe.test/c/1"
    |} in
  let body := Some (Checkout.Parsed
                {| Checkout.goalId := Some "goal-1";
                   Checkout.amount := Some 56.3%float;
                   Checkout.stripeAccountId := Some "acct_1";
                   Checkout.donorName := None;
                   Checkout.message := None |}) in
  exists p,
    snd (Checkout.handler stripe "https://app.test" body)
    = [AccountsRetrieve "acct_1"; SessionsCreate p]
    /\ sp_destination p = "acct_1"
    /\ sp_donorName p = "Anonymous"
    /\ sp_unit_amount p = 5630%float.
Proof.
  cbv zeta. eexists. split; [vm_compute; reflexivity|].
  match goal with
  | |- sp_destination ?p = _ /\ _ =>
      destruct (checkout_session_only_for_onboarded_account
                  {| accounts_create := None;
                     accounts_retrieve := fun id =>
                       Some {| acct_id := id; charges_enabled := true;
                               details_submitted := true |};
                     accountLinks_create :=
                       fun _ => Some "https://connect.stripe.test/setup";
                     checkout_sessions_create :=
                       fun _ => Some "https://checkout.stripe.test/c/1" |}
                  "https://app.test"
                  (Some (Checkout.Parsed
                     {| Checkout.goalId := Some "goal-1";
                        Checkout.amount := Some 56.3%float;
                        Checkout.stripeAccountId := Some "acct_1";
                        Checkout.donorName := None;
                        Checkout.message := None |}))
                  p (or_intror (or_introl eq_refl)))
        as (r & g & a & acct & account & _)
  end.
  repeat split; vm_compute; reflexivity.
Defined.

(** X19.  A checkout request without a goal, without an amount (or with
    amount 0) or without an account is answered 400 and nothing is asked of
    Stripe.  For an account that Stripe reports as not fully onboarded no
    session is made: the answer is 400 with the onboarding link Stripe made
    for that same account, which returns to the page of the goal. *)
Theorem checkout_refuses_without_charging :
  (forall stripe APP_URL r,
     JS.str_falsy (Checkout.goalId r) = true
     \/ Checkout.amount_falsy (Checkout.amount r) = true
     \/ JS.str_falsy (Checkout.stripeAccountId r) = true ->
     Checkout.handler stripe APP_URL (Some (Checkout.Parsed r))
     = ({| Checkout.statusCode := 400;
           Checkout.response_body := Checkout.MissingRequiredFields |}, []))
  /\ (forall stripe APP_URL r goalId amount acct account url,
        Checkout.goalId r = Some goalId -> goalId <> "" ->
        Checkout.amount r = Some amount -> JS.truthy amount = true ->
        Checkout.stripeAccountId r = Some acct -> acct <> "" ->
        accounts_retrieve stripe acct = Some account ->
        charges_enabled account && details_submitted account = false ->
        accountLinks_create stripe
          {| al_account := acct;
             al_refresh_url :=
               String.append APP_URL (String.append "/goal/" goalId);
             al_return_url :=
               String.append APP_URL (String.append "/goal/" goalId) |}
        = Some url ->
        Checkout.handler stripe APP_URL (Some (Checkout.Parsed r))
        = ({| Checkout.statusCode := 400;
              Checkout.response_body := Checkout.OnboardingIncomplete url |},
           [AccountsRetrieve acct;
            AccountLinksCreate
              {| al_account := acct;
                 al_refresh_url :=
                   String.append APP_URL (String.append "/goal/" goalId);
                 al_return_url :=
                   String.append APP_URL (String.append "/goal/" goalId) |}])).
Proof.
  split.
  - intros stripe APP_URL r H. unfold Checkout.handler. simpl.
    destruct H as [H|[H|H]]; rewrite H; rewrite ?orb_true_r; reflexivity.
  - intros stripe APP_URL r goalId amount acct account url
           Hg Ng Ha Ta Hs Ns Hr Hon Hl.
    unfold Checkout.handler. cbn [Checkout.parseBody].
    rewrite Hg, Ha, Hs. cbn [JS.str_falsy Checkout.amount_falsy].
    apply String.eqb_neq in Ng, Ns. rewrite Ng, Ns, Ta.
    cbn [negb orb]. rewrite Hr.
    replace (negb (charges_enabled account)
             || negb (details_submitted account)) with true
      by (rewrite <- negb_andb, Hon; reflexivity).
    rewrite Hl. reflexivity.
Qed.

Lemma checkout_refuses_without_charging_witness :
  let stripe :=
    {| accounts_create := None;
       accounts_retrieve := fun id =>
         Some {| acct_id := id; charges_enabled := true;
                 details_submitted := false |};
       accountLinks_create := fun l => Some (al_return_url l);
       checkout_sessions_create := fun _ => Some "https://checkout.stripe.test/c/1"
    |} in
  Checkout.handler stripe "https://app.test"
    (Some (Checkout.Parsed
       {| Checkout.goalId := Some "goal-1";
          Checkout.amount := Some 0%float;
          Checkout.stripeAccountId := Some "acct_1";
          Checkout.donorName := None; Checkout.message := None |}))
  = ({| Checkout.statusCode := 400;
        Checkout.response_body := Checkout.MissingRequiredFields |}, [])
  /\ fst (Checkout.handler stripe "https://app.test"
            (Some (Checkout.Parsed
               {| Checkout.goalId := Some "goal-1";
                  Checkout.amount := Some 25%float;
                  Checkout.stripeAccountId := Some "acct_1";
                  Checkout.donorName := None; Checkout.message := None |})))
     = {| Checkout.statusCode := 400;
          Checkout.response_body :=
            Checkout.OnboardingIncomplete "https://app.test/goal/goal-1" |}.
Proof.
  cbv zeta. destruct checkout_refuses_without_charging as (Hmiss & Hon).
  split.
  - apply Hmiss. right. left. reflexivity.
  - erewrite Hon; try reflexivity; discriminate.
Defined.

(** X20.  From checkout to ledger: when Stripe reports a session made by
    the checkout function back to the webhook, with the metadata and the
    amount the function gave it, the donation recorded is for the goal of
    the request, under the donor's name or Anonymous, with the donor's
    message or none, completed, and for the requested amount rounded to
    cents. *)
Theorem checkout_then_webhook_records_the_request :
  forall APP_URL goalId acct amount donor msg st event session md paymentId,
    let p := Checkout.sessionParams APP_URL goalId acct amount donor msg in
    JS.str_falsy
      (Webhook.header (Webhook.headers event) "stripe-signature") = false ->
    Webhook.body event
    = Some (Webhook.Parsed
              {| Webhook.ev_type := Some "checkout.session.completed";
                 Webhook.ev_object := Some session |}) ->
    Webhook.metadata session = Some md ->
    Webhook.md_goalId md = Some (sp_goalId p) ->
    Webhook.md_donorName md = Some (sp_donorName p) ->
    Webhook.md_message md = Some (sp_message p) ->
    Webhook.amount_total session = Some (sp_unit_amount p) ->
    Webhook.payment_intent session = Some paymentId ->
    JS.is_finite (sp_unit_amount p / 100)%float = true ->
    exists d,
      st_donations (snd (Webhook.handler CallOk st event))
      = st_donations st ++ [d]
      /\ don_goalId d = goalId
      /\ don_donorName d = Some (JS.str_or donor "Anonymous")
      /\ don_message d = Some (JS.str_or msg "")
      /\ don_amount d = (Math_round (amount * 100) / 100)%float
      /\ don_stripePaymentId d = paymentId
      /\ don_status d = Some completed.
Proof.
  intros APP_URL goalId acct amount donor msg st event session md paymentId p
         Hsig Hbody Hmd Hg Hn Hmsg Ha Hp Hfin.
  unfold Webhook.handler. rewrite Hsig, Hbody. simpl. rewrite Hmd.
  unfold Data.createDonation, Webhook.donationInput. simpl.
  unfold Webhook.amountOf. rewrite Hg, Hp, Ha, Hfin, Hn, Hmsg.
  eexists. split; [reflexivity|].
  cbn [don_goalId don_donorName don_message don_amount don_stripePaymentId
       don_status Data.in_donorName Data.in_message Data.in_amount
       Data.in_status sp_goalId sp_donorName sp_message sp_unit_amount p
       Checkout.sessionParams].
  assert (I : forall s d, JS.str_or (Some (JS.str_or s d)) d = JS.str_or s d).
  { intros s d. unfold JS.str_or. destruct s as [v|].
    - destruct (String.eqb v "") eqn:E.
      + destruct (String.eqb d ""); reflexivity.
      + rewrite E. reflexivity.
    - destruct (String.eqb d ""); reflexivity. }
  rewrite !I. repeat split.
Qed.

Lemma checkout_then_webhook_records_the_request_witness :
  let event :=
    {| Webhook.headers := [("stripe-signature", "t=1,v1=5257a869")];
       Webhook.body :=
         Some (Webhook.Parsed
           {| Webhook.ev_type := Some "checkout.session.completed";
              Webhook.ev_object :=
                Some {| Webhook.metadata :=
                          Some {| Webhook.md_goalId := Some "goal-1";
                                  Webhook.md_donorName := Some "Anonymous";
                                  Webhook.md_message := Some "" |};
                        Webhook.amount_total := Some 5630%float;
                        Webhook.payment_intent := Some "pi_1" |} |}) |} in
  exists d,
    st_donations (snd (Webhook.handler CallOk emptyStore event)) = [d]
    /\ don_donorName d = Some "Anonymous"
    /\ don_amount d = 56.3%float.
Proof.
  cbv zeta.
  match goal with
  | |- exists d, st_donations (snd (Webhook.handler _ _ ?ev)) = _ /\ _ =>
      destruct (checkout_then_webhook_records_the_request
                  "https://app.test" "goal-1" "acct_1" 56.3%float (Some "") None
                  emptyStore ev _ _ "pi_1"
                  eq_refl eq_refl eq_refl eq_refl eq_refl eq_refl eq_refl
                  eq_refl eq_refl) as (d & Hd & _ & Hn & _ & Ha & _)
  end.
  exists d. split; [exact Hd|]. split; [exact Hn|].
  rewrite Ha. vm_compute. reflexivity.
Defined.

(** X21.  The connect function creates a Stripe account only for the action
    'create' and retrieves one only for the action 'verify' with an account
    identifier; every other request, a 'verify' without identifier
    included, is answered 400 and nothing is asked of Stripe.  The
    onboarding link it answers with is the one made for the account just
    created, and returns to the create page with that account. *)
Theorem connect_acts_only_on_request :
  forall stripe APP_URL body,
    let resp := fst (Connect.handler stripe APP_URL body) in
    let calls := snd (Connect.handler stripe APP_URL body) in
    (In AccountsCreate calls ->
     exists r, Connect.parseBody body = Connect.Parsed r
               /\ Connect.action r = Some "create")
    /\ (forall id, In (AccountsRetrieve id) calls ->
        exists r, Connect.parseBody body = Connect.Parsed r
                  /\ Connect.action r = Some "verify"
                  /\ Connect.accountId r = Some id /\ id <> "")
    /\ (forall r, Connect.parseBody body = Connect.Parsed r ->
        Connect.action r <> Some "create" ->
        (Connect.action r <> Some "verify"
         \/ JS.str_falsy (Connect.accountId r) = true) ->
        resp = {| Connect.statusCode := 400;
                  Connect.response_body := Connect.InvalidAction |}
        /\ calls = [])
    /\ (forall id url,
        Connect.response_body resp = Connect.Onboarding id url ->
        In (AccountLinksCreate
              {| al_account := id;
                 al_refresh_url := String.append APP_URL "/create?refresh=true";
                 al_return_url :=
                   String.append APP_URL
                     (String.append "/create?account=" id) |}) calls
        /\ exists account, accounts_create stripe = Some account
                           /\ acct_id account = id).
Proof.
  intros stripe APP_URL body. cbv zeta. unfold Connect.handler.
  destruct (Connect.parseBody body) as [|r] eqn:Hb.
  { simpl. split; [intros []|]. split; [intros id []|].
    split; [intros r H; discriminate H | intros id u H; discriminate H]. }
  assert (Ais : forall name, Connect.action_is (Connect.action r) name = true
                             <-> Connect.action r = Some name).
  { intros name. unfold Connect.action_is.
    destruct (Connect.action r) as [v|]; [|split; discriminate].
    rewrite String.eqb_eq. split; [intros ->; reflexivity|].
    intros H. injection H as ->. reflexivity. }
  destruct (Connect.action_is (Connect.action r) "create") eqn:Hc.
  - apply Ais in Hc.
    destruct (accounts_create stripe) as [account|] eqn:Hacc.
    + destruct (accountLinks_create stripe _) as [url|] eqn:Hl;
        cbn [fst snd Connect.response_body Connect.failed500];
        (split; [intros _; exists r; auto|]);
        (split; [intros id [H|[H|[]]]; discriminate H|]);
        (split; [intros r' H; injection H as <-; intros N; contradiction|]).
      * intros id u H. injection H as <- <-.
        split; [right; left; reflexivity | exists account; auto].
      * intros id u H. discriminate H.
    + cbn [fst snd Connect.response_body Connect.failed500].
      split; [intros _; exists r; auto|].
      split; [intros id [H|[]]; discriminate H|].
      split; [intros r' H; injection H as <-; intros N; contradiction|].
      intros id u H. discriminate H.
  - assert (Nc : Connect.action r <> Some "create").
    { intros H. apply Ais in H. congruence. }
    destruct (Connect.action_is (Connect.action r) "verify") eqn:Hv;
      cbn [andb].
    + apply Ais in Hv.
      destruct (JS.str_falsy (Connect.accountId r)) eqn:Hf; cbn [negb].
      * cbn [fst snd]. split; [intros []|]. split; [intros id []|].
        split; [intros r' H; auto | intros id u H; discriminate H].
      * destruct (str_falsy_false _ Hf) as (id0 & Eid & Nid). rewrite Eid.
        destruct (accounts_retrieve stripe id0) as [account|];
          cbn [fst snd Connect.response_body Connect.failed500];
          (split; [intros [H|[]]; discriminate H|]);
          (split; [intros id [H|[]]; injection H as <-; exists r; auto|]);
          (split; [intros r' H; injection H as <-; intros _ [N|N];
                   [contradiction | rewrite Eid in Hf; congruence]|]);
          intros id u H; discriminate H.
    + cbn [fst snd]. split; [intros []|]. split; [intros id []|].
      split; [intros r' H; auto | intros id u H; discriminate H].
Qed.

Lemma connect_acts_only_on_request_witness :
  let stripe :=
    {| accounts_create := Some {| acct_id := "acct_9"; charges_enabled := false;
                                  details_submitted := false |};
       accounts_retrieve := fun _ => None;
       accountLinks_create := fun l => Some (al_return_url l);
       checkout_sessions_create := fun _ => None |} in
  Connect.handler stripe "https://app.test"
    (Some (Connect.Parsed {| Connect.action := Some "verify";
                             Connect.accountId := Some "" |}))
  = ({| Connect.statusCode := 400;
        Connect.response_body := Connect.InvalidAction |}, []).
Proof.
  cbv zeta.
  match goal with
  | |- Connect.handler ?s ?u ?b = _ =>
      destruct (connect_acts_only_on_request s u b) as (_ & _ & H & _);
      destruct (H _ eq_refl ltac:(discriminate) (or_intror eq_refl))
        as (H1 & H2);
      destruct (Connect.handler s u b) as [resp calls]
  end.
  simpl in H1, H2. rewrite H1, H2. reflexivity.
Defined.

(** ** What the form schema lets through *)

Lemma ge_cent_positive x :
  JS.ge x 0.01%float = true -> JS.gt x 0%float = true /\ is_nan x = false.
Proof.
  intros H. pose proof (FloatFacts.ge_cent_truthy x H) as T.
  unfold JS.truthy in T. apply negb_true_iff, orb_false_iff in T.
  destruct T as (Z & N). split; [|exact N].
  unfold JS.ge in H. unfold JS.gt. rewrite leb_spec in H. rewrite ltb_spec.
  change (Prim2SF 0) with (S754_zero false).
  destruct (Prim2SF x) as [s|s| |s m e] eqn:E.
  - rewrite (FloatFacts.is_zero_false _ _ E) in Z. discriminate Z.
  - destruct s; [vm_compute in H; discriminate H | reflexivity].
  - vm_compute in H. discriminate H.
  - destruct s; [vm_compute in H; discriminate H | reflexivity].
Qed.

(** X22.  The edit page submits only values the form schema accepts: when
    a save gets past the form errors, the goal has a name and a target
    above 0, there is at least one milestone, and every milestone has a
    name and an amount above 0, none of them NaN.  A form the schema
    refuses writes nothing. *)
Theorem only_schema_valid_forms_are_submitted :
  forall net st s,
    (fst (EditGoalPage.handleSubmit net st s) <> EditGoalPage.FormErrors ->
     fd_name (EditGoalPage.form s) <> ""
     /\ JS.gt (fd_targetAmount (EditGoalPage.form s)) 0%float = true
     /\ fd_milestones (EditGoalPage.form s) <> []
     /\ forall m, In m (fd_milestones (EditGoalPage.form s)) ->
                  mi_name m <> ""
                  /\ JS.gt (mi_targetAmount m) 0%float = true
                  /\ is_nan (mi_targetAmount m) = false)
    /\ (Form.goalSchema (EditGoalPage.form s) = false ->
        EditGoalPage.handleSubmit net st s = (EditGoalPage.FormErrors, st)).
Proof.
  intros net st s. unfold EditGoalPage.handleSubmit.
  destruct (Form.goalSchema (EditGoalPage.form s)) eqn:V.
  - split; [intros _ | discriminate].
    unfold Form.goalSchema in V.
    apply andb_true_iff in V. destruct V as (V & Hne).
    apply andb_true_iff in V. destruct V as (V & Hms).
    apply andb_true_iff in V. destruct V as (Hn & Ht).
    split; [apply String.eqb_neq, negb_true_iff, Hn|].
    split; [apply ge_cent_positive, Ht|].
    split.
    + intros E. rewrite E in Hne. discriminate Hne.
    + intros m Hin. rewrite forallb_forall in Hms. specialize (Hms m Hin).
      unfold Form.milestoneSchema in Hms. apply andb_true_iff in Hms.
      destruct Hms as (Hmn & Hma).
      split; [apply String.eqb_neq, negb_true_iff, Hmn|].
      apply ge_cent_positive, Hma.
  - split; [intros H; exfalso; apply H; reflexivity | reflexivity].
Qed.

Lemma only_schema_valid_forms_are_submitted_witness :
  EditGoalPage.handleSubmit reliable Sample.stored
    (Sample.editing
       {| fd_name := "Honeymoon"; fd_description := None;
          fd_targetAmount := 1000%float;
          fd_milestones :=
            [{| mi_name := "Ferry"; mi_targetAmount := nan |}] |})
  = (EditGoalPage.FormErrors, Sample.stored)
  /\ JS.gt (fd_targetAmount Sample.newForm) 0%float = true.
Proof.
  split.
  - apply only_schema_valid_forms_are_submitted. reflexivity.
  - refine (proj1 (proj2 (proj1 (only_schema_valid_forms_are_submitted
              reliable Sample.stored (Sample.editing Sample.newForm)) _))).
    vm_compute. discriminate.
Defined.

(** [Math.round] on a few numbers: halves go up, also below zero, and the
    number just under one half goes down. *)
Lemma Math_round_examples :
  map Math_round [2.5; -2.5; 0.49999999999999994; 1.005 * 100; 56.3 * 100]%float
  = [3; -2; 0; 100; 5630]%float.
Proof. vm_compute. reflexivity. Qed.
